(** * DataWhiz client: a shallow embedding of the analysis front end

  The development follows the TypeScript sources of the React client:
  [utils/api.ts] (the [apiService] object), [data/roles.ts],
  [components/analysis/NaturalLanguageQuery.tsx],
  [components/analysis/RoleSpecificTasks.tsx], [pages/RoleAnalysis.tsx],
  and the [FileUpload], [DataCleaning] and [DataQualityAssessment]
  components.

  Conventions of the embedding.
  - An event handler is a function from the values its closure captured at
    render time (props and state) and from the outcome of the network call
    it awaits, to the state after all its [setState] calls have been
    applied in program order, together with the requests it issued and the
    callbacks it invoked.  Handlers are run one at a time; for the preview
    calls of the page, which may settle after the user has moved on, the
    settling is a moment of its own ([Page.advance]).
  - A JavaScript object used as a dictionary is a [gmap string _]; the
    properties that an object literal inherits (such as [constructor]) are
    not among its keys.
  - Values typed [any] that the handlers only pass around are [Json]
    values; objects whose properties are read are records with one
    optional field per property that the code reads ([None] is
    [undefined]).  Numbers that are row counts or scores are integers.
  - Strings are byte strings: a length counts bytes, and only ASCII white
    space and ASCII letters are special to [trim] and to the
    case-insensitive regular expression; on ASCII text this is what the
    code computes. *)

From Stdlib Require Import ZArith QArith String Ascii List Bool Lia.
From stdpp Require Import base option list gmap strings.
Import ListNotations.
Open Scope string_scope.
Set Warnings "-register-all".

(** ** JavaScript values and helpers *)

Module JS.

(** JSON-like values for payloads typed [any]. *)
Inductive Json : Type :=
| JNull
| JBool (b : bool)
| JNum (z : Z)
| JStr (s : string)
| JArr (items : list Json)
| JObj (fields : list (string * Json)).

(** What a [throw] carries: an [Error] with its message, or anything else. *)
Inductive Thrown : Type :=
| ErrorObj (message : string)
| NotAnError.

(** [err instanceof Error ? err.message : fallback] *)
Definition messageOr (fallback : string) (t : Thrown) : string :=
  match t with
  | ErrorObj m => m
  | NotAnError => fallback
  end.

(** Truthiness of a string: only the empty string is falsy. *)
Definition truthy (s : string) : bool :=
  match s with
  | EmptyString => false
  | String _ _ => true
  end.

(** Truthiness of a [string | null | undefined] value. *)
Definition truthyOpt (o : option string) : bool :=
  match o with
  | Some s => truthy s
  | None => false
  end.

(** Truthiness of a JSON value. *)
Definition truthyJson (j : Json) : bool :=
  match j with
  | JNull => false
  | JBool b => b
  | JNum z => negb (z =? 0)%Z
  | JStr s => truthy s
  | JArr _ => true
  | JObj _ => true
  end.

(** [a || b] where [a] is a possibly absent string and [b] a string. *)
Definition orElse (a : option string) (b : string) : string :=
  match a with
  | Some s => if truthy s then s else b
  | None => b
  end.

(** [a || b] on possibly absent JSON values. *)
Definition orJson (a b : option Json) : option Json :=
  match a with
  | Some j => if truthyJson j then a else b
  | None => b
  end.

(** A template literal slot [${x}] for a possibly undefined string. *)
Definition templ (o : option string) : string :=
  match o with
  | Some s => s
  | None => "undefined"
  end.

(** [s.includes(sub)]: [sub] occurs somewhere in [s]. *)
Fixpoint includes (sub s : string) : bool :=
  String.prefix sub s ||
  match s with
  | EmptyString => false
  | String _ rest => includes sub rest
  end.

(** ASCII white space, as removed by [trim]. *)
Definition isSpace (c : ascii) : bool :=
  let n := nat_of_ascii c in
  (n =? 32)%nat || ((9 <=? n)%nat && (n <=? 13)%nat).

Fixpoint trimStart (s : string) : string :=
  match s with
  | EmptyString => EmptyString
  | String c rest => if isSpace c then trimStart rest else s
  end.

(** [trimEnd] keeps a character when it is not a space or when something
    that is kept follows it. *)
Fixpoint trimEnd (s : string) : string :=
  match s with
  | EmptyString => EmptyString
  | String c rest =>
      match trimEnd rest with
      | EmptyString => if isSpace c then EmptyString else String c EmptyString
      | kept => String c kept
      end
  end.

Definition trim (s : string) : string := trimEnd (trimStart s).

(** [\w] of a regular expression without the [u] flag. *)
Definition isWordChar (c : ascii) : bool :=
  let n := nat_of_ascii c in
  ((48 <=? n)%nat && (n <=? 57)%nat) ||
  ((65 <=? n)%nat && (n <=? 90)%nat) ||
  ((97 <=? n)%nat && (n <=? 122)%nat) ||
  (n =? 95)%nat.

(** ASCII lower-casing, for the [i] flag. *)
Definition lowerChar (c : ascii) : ascii :=
  let n := nat_of_ascii c in
  if ((65 <=? n)%nat && (n <=? 90)%nat) then ascii_of_nat (n + 32) else c.

(** [word] (given in lower case) is a prefix of [s] up to case; the result
    is what follows the match. *)
Fixpoint stripPrefixCI (word s : string) : option string :=
  match word, s with
  | EmptyString, _ => Some s
  | String _ _, EmptyString => None
  | String w word', String c s' =>
      if Ascii.eqb w (lowerChar c) then stripPrefixCI word' s' else None
  end.

(** The next character is not a word character (or there is none): with a
    word character before it, this is the boundary [\b]. *)
Definition boundaryAfter (rest : string) : bool :=
  match rest with
  | EmptyString => true
  | String c _ => negb (isWordChar c)
  end.

End JS.

(** ** [utils/api.ts] *)

Module Api.
Import JS.

Definition API_BASE_URL : string := "http://localhost:8000/api".

(** An HTTP request as handed to [axios] or [fetch]. *)
Record Request : Type := mkRequest {
  method : string;
  url : string;
  authorization : option string;
  body : Json
}.

(** How an awaited [axios] call settles: it resolves with [response.data],
    or rejects with an error whose [response?.data?.detail] may be
    present. *)
Inductive Settled (D : Type) : Type :=
| Resolved (data : D)
| Rejected (detail : option string) (message : string).
Arguments Resolved {D} data.
Arguments Rejected {D} detail message.

(** A response body typed [any]: [null] (or [undefined]), a primitive, or
    an object whose read properties are collected in [O]. *)
Inductive Data (O : Type) : Type :=
| DataNull
| DataPrimitive
| DataObject (o : O).
Arguments DataNull {O}.
Arguments DataPrimitive {O}.
Arguments DataObject {O} o.

(** The property names defined on the [apiService] object literal, in
    source order. *)
Definition apiServiceMethods : list string :=
  [ "healthCheck"; "register"; "login"; "logout"; "validateSession";
    "getProfile"; "updateProfile";
    "adminGetUsers"; "adminGetUserDetails"; "adminUpdateUserRole";
    "adminToggleUserStatus"; "adminDeleteUser"; "adminGetStats";
    "adminGetErrors"; "adminGetActions";
    "uploadFile"; "runAnalysis"; "getAnalyses"; "getAnalysisResult";
    "downloadReport"; "generateReports";
    "businessAnalysisUpload"; "getBusinessAnalyses";
    "getBusinessAnalysisDetails";
    "cleanData"; "getAIInsight"; "previewData"; "downloadData";
    "getAvailableRoles";
    "naturalLanguageQuery"; "assessDataQuality";
    "generateDecisionIntelligence" ].

Definition apiService : gset string := list_to_set apiServiceMethods.

(** Calling [apiService.name(...)]: a name that is not a property of the
    object evaluates to [undefined], and calling it throws a [TypeError]
    before any request is made; [settles] is how the call settles when the
    method exists. *)
Definition notAFunction (name : string) : Thrown :=
  ErrorObj ("apiService." ++ name ++ " is not a function").

Definition invoke {A : Type} (name : string) (settles : A) : Thrown + A :=
  if bool_decide (name ∈ apiService) then inr settles else inl (notAFunction name).

(** Reading a property of [null] or [undefined] throws a [TypeError]. *)
Definition readOfNull (property : string) : Thrown :=
  ErrorObj ("Cannot read properties of null (reading '" ++ property ++ "')").

(** [runAnalysis: async (sessionToken, analysisId, role)] builds its request
    from its parameters in this order. *)
Definition runAnalysisRequest (sessionToken analysisId role : string) : Request :=
  {| method := "POST";
     url := API_BASE_URL ++ "/analyze/" ++ role ++ "/analyze/" ++ analysisId;
     authorization := Some ("Bearer " ++ sessionToken);
     body := JObj [] |}.

(** [runAnalysis] returns [response.data] or rethrows with the detail or a
    default message. *)
Definition runAnalysis (sessionToken analysisId role : string)
    (net : Settled Json) : Thrown + Json :=
  match net with
  | Resolved data => inr data
  | Rejected detail _ =>
      inl (ErrorObj (orElse detail ("Failed to run " ++ role ++ " analysis.")))
  end.

(** The properties of an NLQ result that the client reads. *)
Record NlqResult : Type := mkNlqResult {
  type : option string;
  message : option string;
  data : option Json;
  result : option Json
}.

(** [payload] is the object literal the caller passes; [apiService] reads
    its [query] and [sessionToken] properties. *)
Definition naturalLanguageQueryRequest (role : string)
    (payload : gmap string string) : Request :=
  {| method := "POST";
     url := API_BASE_URL ++ "/analyze/" ++ role ++ "/nlq";
     authorization := Some ("Bearer " ++ templ (payload !! "sessionToken"));
     body := JObj [("query", match payload !! "query" with
                              | Some q => JStr q
                              | None => JNull
                              end)] |}.

(** [naturalLanguageQuery] never throws: a rejected call is turned into an
    object of type ['error']. *)
Definition naturalLanguageQuery (net : Settled (Data NlqResult)) : Data NlqResult :=
  match net with
  | Resolved d => d
  | Rejected detail _ =>
      DataObject {| type := Some "error";
                    message := Some (orElse detail "Failed to process natural language query.");
                    data := None;
                    result := None |}
  end.

(** The properties of an AI reply that the client reads ([summary],
    [insight], [message]) or that [apiService] sets ([error]); the last two
    are [insightMessage] and [insightError] here. *)
Record InsightResult : Type := mkInsightResult {
  summary : option string;
  insight : option string;
  insightMessage : option string;
  insightError : option string
}.

Definition getAIInsightRequest (role question sessionToken : string) : Request :=
  {| method := "POST";
     url := API_BASE_URL ++ "/analyze/" ++ role ++ "/ai-insight";
     authorization := Some ("Bearer " ++ sessionToken);
     body := JObj [("question", JStr question)] |}.

(** [getAIInsight] never throws either: a rejected call yields [{ error }]. *)
Definition getAIInsight (net : Settled (Data InsightResult)) : Data InsightResult :=
  match net with
  | Resolved d => d
  | Rejected detail _ =>
      DataObject {| summary := None;
                    insight := None;
                    insightMessage := None;
                    insightError := Some (orElse detail "Failed to get AI insight.") |}
  end.

End Api.

(** ** [components/analysis/NaturalLanguageQuery.tsx] *)

Module NLQ.
Import JS Api.

Record NLQResponse : Type := mkNLQResponse {
  success : bool;
  query : string;
  answer : string;
  visualization : option string;
  data : option Json;
  confidence : Z;
  intent : string
}.

Record Props : Type := mkProps {
  roleId : string;
  sessionId : option string;
  hasOnQueryComplete : bool
}.

(** The component state; [queryText] is the state variable [query], named
    apart from the field of [NLQResponse]. *)
Record State : Type := mkState {
  queryText : string;
  isLoading : bool;
  response : option NLQResponse;
  error : option string;
  queryHistory : list NLQResponse
}.

(** What one run of the handler leaves behind. *)
Record Outcome : Type := mkOutcome {
  state : State;
  requests : list Request;
  completed : list NLQResponse
}.

Definition roleMapping : gmap string string :=
  list_to_map
    [ ("business-analyst", "business");
      ("research-eda", "research");
      ("marketing", "marketing");
      ("financial", "financial");
      ("predictive-modeling", "predictive");
      ("healthcare", "healthcare");
      ("ecommerce", "ecommerce");
      ("general", "general") ].

(** [generateAnswerFromResult] *)
Definition generateAnswerFromResult (r : NlqResult) : string :=
  if truthyOpt (message r) then templ (message r)
  else
    match Api.type r with
    | Some "summary" => "Data summary analysis completed. Check the detailed statistics below."
    | Some "trend" => "Trend analysis completed. Check the detailed trend information below."
    | Some "distribution" => "Distribution analysis completed. Check the detailed distribution statistics below."
    | Some "comparison" => "Comparison analysis completed. Check the detailed comparison results below."
    | Some "correlation" => "Correlation analysis completed. Check the detailed correlation matrix below."
    | Some "outlier" => "Outlier detection completed. Check the detailed outlier information below."
    | Some "percentage" => "Percentage distribution analysis completed. Check the detailed breakdown below."
    | Some "clustering" => "Clustering analysis completed. Check the detailed cluster information below."
    | Some "data_types" => "Data types analysis completed. Check the detailed column information below."
    | Some "forecasting" => "Forecasting analysis completed. Check the detailed forecast below."
    | _ => "Analysis completed successfully."
    end.

(** [result.type === 'error'] *)
Definition isErrorType (r : NlqResult) : bool :=
  match type r with
  | Some t => String.eqb t "error"
  | None => false
  end.

(** [result.message && result.message.includes(sub)] *)
Definition messageIncludes (sub : string) (r : NlqResult) : bool :=
  match message r with
  | Some m => truthy m && includes sub m
  | None => false
  end.

(** [calculateConfidence] *)
Definition calculateConfidence (r : NlqResult) : Z :=
  let baseConfidence := 80%Z in
  if isErrorType r then 0%Z
  else if messageIncludes "No suitable columns" r then 30%Z
  else if messageIncludes "insufficient data" r then 40%Z
  else baseConfidence.

(** The object built under "Convert structured response to NLQResponse
    format". *)
Definition toNLQResponse (q : string) (r : NlqResult) : NLQResponse :=
  {| success := true;
     query := trim q;
     answer := orElse (message r) (generateAnswerFromResult r);
     visualization := None;
     data := orJson (Api.data r) (Api.result r);
     confidence := calculateConfidence r;
     intent := orElse (type r) "analysis" |}.

(** The [finally] block together with one [setError]. *)
Definition failed (s : State) (msg : string) : State :=
  {| queryText := queryText s;
     isLoading := false;
     response := response s;
     error := Some msg;
     queryHistory := queryHistory s |}.

(** [setResponse], [setQueryHistory(prev => [nlqResponse, ...prev.slice(0, 4)])]
    and the [finally] block, after [setError(null)]. *)
Definition succeeded (s : State) (r : NLQResponse) : State :=
  {| queryText := queryText s;
     isLoading := false;
     response := Some r;
     error := None;
     queryHistory := r :: firstn 4 (queryHistory s) |}.

(** [handleSubmit], for the query text in the state and the way the call to
    [apiService.naturalLanguageQuery] settles. *)
Definition handleSubmit (p : Props) (s : State)
    (net : Settled (Data NlqResult)) : Outcome :=
  match sessionId p with
  | Some sid =>
      if negb (truthy (trim (queryText s))) || negb (truthy sid)
      then {| state := s; requests := []; completed := [] |}
      else
        let backendRole := orElse (roleMapping !! roleId p) (roleId p) in
        let req :=
          naturalLanguageQueryRequest backendRole
            (list_to_map [("query", trim (queryText s)); ("session_id", sid)]) in
        match naturalLanguageQuery net with
        | DataNull =>
            {| state := failed s (messageOr "Query failed" (readOfNull "type"));
               requests := [req]; completed := [] |}
        | DataPrimitive =>
            {| state := failed s "Invalid response format from server";
               requests := [req]; completed := [] |}
        | DataObject r =>
            if isErrorType r
            then {| state := failed s (orElse (message r) "Failed to process query");
                    requests := [req]; completed := [] |}
            else
              let nlqResponse := toNLQResponse (queryText s) r in
              {| state := succeeded s nlqResponse;
                 requests := [req];
                 completed := if hasOnQueryComplete p then [nlqResponse] else [] |}
        end
  | None => {| state := s; requests := []; completed := [] |}
  end.

(** Successive submissions: before each one the user has typed a query. *)
Fixpoint submitAll (p : Props) (s : State)
    (calls : list (string * Settled (Data NlqResult))) : State :=
  match calls with
  | [] => s
  | (q, net) :: rest =>
      let typed := {| queryText := q;
                      isLoading := isLoading s;
                      response := response s;
                      error := error s;
                      queryHistory := queryHistory s |} in
      submitAll p (state (handleSubmit p typed net)) rest
  end.

Definition initialState : State :=
  {| queryText := ""; isLoading := false; response := None; error := None;
     queryHistory := [] |}.

End NLQ.

(** ** [data/roles.ts] *)

Module Roles.

Record RoleData : Type := mkRole {
  id : string;
  name : string;
  description : string;
  icon : string;
  color : string
}.

Definition roles : list RoleData :=
  [ mkRole "business_analyst" "Business Analyst"
      "KPIs, performance metrics, and business intelligence"
      "BarChart3" "from-blue-500 to-blue-600";
    mkRole "research-eda" "Research & EDA"
      "Exploratory data analysis and statistical insights"
      "Search" "from-purple-500 to-purple-600";
    mkRole "marketing" "Marketing Analytics"
      "Campaign performance, customer segmentation, ROI"
      "Target" "from-green-500 to-green-600";
    mkRole "finance" "Financial Analysis"
      "Financial modeling, risk assessment, forecasting"
      "DollarSign" "from-yellow-500 to-yellow-600";
    mkRole "predictive-modeling" "Predictive Modeling"
      "Machine learning models and predictions"
      "Brain" "from-red-500 to-red-600";
    mkRole "healthcare" "Healthcare Analytics"
      "Medical data analysis and patient insights"
      "Heart" "from-pink-500 to-pink-600";
    mkRole "ecommerce" "E-commerce"
      "Sales analysis, customer behavior, inventory"
      "ShoppingCart" "from-indigo-500 to-indigo-600";
    mkRole "general" "General Analysis"
      "Custom analysis for any data type"
      "Database" "from-gray-500 to-gray-600" ].

(** [roles.find(r => r.id === roleId)] *)
Definition findRole (roleId : option string) : option RoleData :=
  match roleId with
  | Some rid => List.find (fun r => String.eqb (id r) rid) roles
  | None => None
  end.

End Roles.

(** ** [pages/RoleAnalysis.tsx] *)

Module RoleAnalysis.
Import JS Api Roles.

(** An entry of the [insights] state. *)
Record Insight : Type := mkInsight {
  question : string;
  response : string;
  timestamp : Z
}.

(** The route parameter and the part of the page state that
    [handleAnalysis] and [handleAIInsight] read or write. *)
Record State : Type := mkState {
  roleId : option string;
  sessionId : option string;
  analysisResults : option Json;
  error : option string;
  insights : list Insight;
  isProcessingInsight : bool;
  visualizationKey : Z
}.

Record Outcome : Type := mkOutcome {
  state : State;
  requests : list Request
}.

Definition roleMapping : gmap string string :=
  list_to_map
    [ ("business-analyst", "business");
      ("research-eda", "research");
      ("marketing", "marketing");
      ("finance", "financial");
      ("predictive-modeling", "predictive");
      ("healthcare", "healthcare");
      ("ecommerce", "ecommerce");
      ("general", "general") ].

(** [roleMapping[role.id] || role.id] *)
Definition backendRoleOf (role : RoleData) : string :=
  orElse (roleMapping !! id role) (id role).

(** The guard [if (!sessionId || !role) return;] lets a handler proceed with
    a non-empty session id and a role that was found. *)
Definition guard (s : State) : option (string * RoleData) :=
  match sessionId s, findRole (roleId s) with
  | Some sid, Some role => if truthy sid then Some (sid, role) else None
  | _, _ => None
  end.

(** [handleAnalysis]: the call site passes [(backendRole, task, sessionId)]
    to a function declared as [(sessionToken, analysisId, role)]. *)
Definition handleAnalysis (s : State) (task : string)
    (net : Settled Json) : Outcome :=
  match guard s with
  | None => {| state := s; requests := [] |}
  | Some (sid, role) =>
      let backendRole := backendRoleOf role in
      let req := runAnalysisRequest backendRole task sid in
      match runAnalysis backendRole task sid net with
      | inr res =>
          {| state := {| roleId := roleId s;
                         sessionId := sessionId s;
                         analysisResults := Some res;
                         error := error s;
                         insights := insights s;
                         isProcessingInsight := isProcessingInsight s;
                         visualizationKey := (visualizationKey s + 1)%Z |};
             requests := [req] |}
      | inl err =>
          {| state := {| roleId := roleId s;
                         sessionId := sessionId s;
                         analysisResults := analysisResults s;
                         error := Some (messageOr "Analysis failed" err);
                         insights := insights s;
                         isProcessingInsight := isProcessingInsight s;
                         visualizationKey := visualizationKey s |};
             requests := [req] |}
      end
  end.

(** The alternatives of
    [/\b(clean|fix|remove errors|correct|repair|impute|standardize)\b/i]. *)
Definition cleanWords : list string :=
  [ "clean"; "fix"; "remove errors"; "correct"; "repair"; "impute"; "standardize" ].

(** Some alternative matches at the head of [s] and ends at a boundary. *)
Definition wordHere (s : string) : bool :=
  existsb
    (fun w =>
       match stripPrefixCI w s with
       | Some rest => boundaryAfter rest
       | None => false
       end)
    cleanWords.

(** Scan for a match; [prevIsWord] tells whether the character before [s]
    is a word character, in which case no boundary starts here. *)
Fixpoint testFrom (prevIsWord : bool) (s : string) : bool :=
  (negb prevIsWord && wordHere s) ||
  match s with
  | EmptyString => false
  | String c rest => testFrom (isWordChar c) rest
  end.

Definition cleanIntent (q : string) : bool := testFrom false q.

(** [setInsights(prev => [...prev, entry])] and the [finally] block. *)
Definition appendInsight (s : State) (entry : Insight) (err : option string) : State :=
  {| roleId := roleId s;
     sessionId := sessionId s;
     analysisResults := analysisResults s;
     error := match err with Some e => Some e | None => error s end;
     insights := insights s ++ [entry];
     isProcessingInsight := false;
     visualizationKey := visualizationKey s |}.

(** The [catch] block of [handleAIInsight]. *)
Definition insightFailed (s : State) (q : string) (now : Z) (err : Thrown) : State :=
  let msg := messageOr "AI insight failed" err in
  appendInsight s {| question := q; response := msg; timestamp := now |} (Some msg).

(** [a || b || c] *)
Definition firstTruthy (a b : option string) (c : string) : string :=
  orElse a (orElse b c).

(** The body of the [try] block once the awaited reply [reply] is there:
    [property] is the first property read from it and [fallback] the text
    used when neither it nor [message] is truthy. *)
Definition recordReply (s : State) (q : string) (now : Z)
    (reply : Data InsightResult) (property : string)
    (read : InsightResult -> option string) (fallback : string) : State :=
  match reply with
  | DataNull => insightFailed s q now (readOfNull property)
  | DataPrimitive =>
      appendInsight s {| question := q; response := fallback; timestamp := now |} None
  | DataObject r =>
      appendInsight s
        {| question := q;
           response := firstTruthy (read r) (insightMessage r) fallback;
           timestamp := now |} None
  end.

(** [handleAIInsight], for a question, the clock reading of [new Date()] and
    the way the awaited call settles.  [apiService] defines no [aiClean]; a
    definition, were there one, is taken to return the response data and to
    throw when the request is rejected. *)
Definition handleAIInsight (s : State) (q : string) (now : Z)
    (net : Settled (Data InsightResult)) : Outcome :=
  match guard s with
  | None => {| state := s; requests := [] |}
  | Some (sid, role) =>
      if cleanIntent q then
        match invoke "aiClean" net with
        | inl err => {| state := insightFailed s q now err; requests := [] |}
        | inr (Rejected _ msg) =>
            {| state := insightFailed s q now (ErrorObj msg); requests := [] |}
        | inr (Resolved reply) =>
            {| state := recordReply s q now reply "summary" summary
                          "Data cleaned successfully.";
               requests := [] |}
        end
      else
        {| state := recordReply s q now (getAIInsight net) "insight" insight
                      "Analysis completed successfully.";
           requests := [getAIInsightRequest (id role) q sid] |}
  end.

(** Successive questions, each with its clock reading and network outcome. *)
Fixpoint askAll (s : State)
    (calls : list (string * Z * Settled (Data InsightResult))) : State :=
  match calls with
  | [] => s
  | (q, now, net) :: rest => askAll (state (handleAIInsight s q now net)) rest
  end.

End RoleAnalysis.

(** ** [components/analysis/RoleSpecificTasks.tsx] *)

Module RoleSpecificTasks.

(** A task of [roleTasksMap], without its icon. *)
Record Task : Type := mkTask {
  id : string;
  name : string;
  description : string
}.

Definition roleTasksMap : gmap string (list Task) :=
  list_to_map
    [ ("business-analyst",
        [ mkTask "kpi" "KPI Dashboard" "Generate key performance indicators";
          mkTask "customer_segmentation" "Customer Segmentation" "KMeans clustering analysis";
          mkTask "revenue_analysis" "Revenue Analysis" "Revenue metrics and trends";
          mkTask "performance_metrics" "Performance Metrics" "Business performance indicators" ]);
      ("research-eda",
        [ mkTask "correlation_matrix" "Correlation Matrix" "Variable correlation analysis";
          mkTask "summary_stats" "Summary Statistics" "Descriptive statistics overview";
          mkTask "outliers" "Outlier Detection" "Identify and analyze outliers";
          mkTask "hypothesis_testing" "Hypothesis Testing" "Statistical significance tests" ]);
      ("marketing",
        [ mkTask "roi_analysis" "ROI Analysis" "Return on investment metrics";
          mkTask "rfm_analysis" "RFM Analysis" "Recency, Frequency, Monetary analysis";
          mkTask "engagement_funnel" "Engagement Funnel" "Customer engagement analysis";
          mkTask "persona_clusters" "Persona Clusters" "Customer persona segmentation" ]);
      ("finance",
        [ mkTask "forecasting" "Forecasting (Prophet)" "Time series forecasting";
          mkTask "risk_heatmap" "Risk Heatmap" "Financial risk visualization";
          mkTask "roi_irr_npv" "ROI/IRR/NPV" "Investment analysis metrics";
          mkTask "volatility" "Volatility Analysis" "Price volatility assessment" ]);
      ("predictive-modeling",
        [ mkTask "automl" "AutoML Pipeline" "Automated machine learning";
          mkTask "regression_classification" "Regression/Classification" "ML model training";
          mkTask "model_evaluation" "Model Evaluation" "ROC, CM, AUC metrics";
          mkTask "drift_monitor" "Drift Monitor" "Model drift detection" ]);
      ("healthcare",
        [ mkTask "cohort_survival" "Cohort Survival" "Survival analysis by cohorts";
          mkTask "prevalence_graph" "Prevalence Graph" "Disease prevalence visualization";
          mkTask "patient_clustering" "Patient Clustering" "Patient segmentation analysis";
          mkTask "hospital_stats" "Hospital Statistics" "Hospital performance metrics" ]);
      ("ecommerce",
        [ mkTask "market_basket" "Market Basket Analysis" "Product association rules";
          mkTask "trends" "Sales Trends" "Sales trend analysis";
          mkTask "order_funnel" "Order Funnel" "Purchase funnel analysis";
          mkTask "inventory_forecast" "Inventory Forecast" "Inventory and price forecasting" ]);
      ("general",
        [ mkTask "auto_eda" "Auto EDA" "Automated exploratory data analysis";
          mkTask "correlation" "Correlation Analysis" "Variable correlation study";
          mkTask "gpt_insights" "GPT Insights" "AI-powered data insights";
          mkTask "auto_queries" "Auto SQL Queries" "Automated query generation" ]) ].

(** [roleTasksMap[role.id] || roleTasksMap['general']]: an array is always
    truthy, so the fallback is taken exactly when the key is absent. *)
Definition tasks (roleId : string) : list Task :=
  match roleTasksMap !! roleId with
  | Some ts => ts
  | None => default [] (roleTasksMap !! "general")
  end.

Definition taskIds (roleId : string) : list string := map id (tasks roleId).

End RoleSpecificTasks.

(** ** The [FileUpload] component *)

Module FileUpload.
Import JS Api.

Record Props : Type := mkProps {
  preview : option (list Json);
  sessionId : option string;
  role : option string
}.

Record State : Type := mkState {
  fullData : list Json;
  showFullPreview : bool;
  isLoadingFullData : bool
}.

Record Outcome : Type := mkOutcome {
  state : State;
  alerts : list string
}.

(** The properties read from the reply of the full-preview call. *)
Record FullPreviewReply : Type := mkFullPreviewReply {
  data : option (list Json);
  total_rows : option Z
}.

(** The [catch] and [finally] blocks of [handleFullPreview]. *)
Definition fallBack (p : Props) : Outcome :=
  {| state := {| fullData := default [] (preview p);
                 showFullPreview := true;
                 isLoadingFullData := false |};
     alerts := ["Error loading full preview data. Please try again."] |}.

(** The [try] block after the reply arrived, with the [finally] block. *)
Definition showReply (p : Props) (s : State) (reply : Data FullPreviewReply) : Outcome :=
  let noData :=
    {| state := {| fullData := fullData s;
                   showFullPreview := showFullPreview s;
                   isLoadingFullData := false |};
       alerts := ["No data received from server. Please try again."] |} in
  match reply with
  | DataNull => fallBack p
  | DataPrimitive => noData
  | DataObject r =>
      match data r with
      | Some (row :: rows) =>
          {| state := {| fullData := row :: rows;
                         showFullPreview := true;
                         isLoadingFullData := false |};
             alerts := [] |}
      | _ => noData
      end
  end.

(** [handleFullPreview].  [apiService] defines no [fullPreviewData]; a
    definition, were there one, is taken to return the response data and to
    throw when the request is rejected. *)
Definition handleFullPreview (p : Props) (s : State)
    (net : Settled (Data FullPreviewReply)) : Outcome :=
  if negb (truthyOpt (sessionId p)) || negb (truthyOpt (role p))
  then {| state := s; alerts := ["No session ID or role available"] |}
  else
    match invoke "fullPreviewData" net with
    | inl _ => fallBack p
    | inr (Rejected _ _) => fallBack p
    | inr (Resolved reply) => showReply p s reply
    end.

End FileUpload.

(** ** The [DataCleaning] component *)

Module DataCleaning.
Import JS Api.

(** An entry of [cleaningActions], without its icon and colours. *)
Record CleaningAction : Type := mkAction {
  id : string;
  name : string;
  description : string
}.

Definition cleaningActions : list CleaningAction :=
  [ mkAction "remove-nulls" "Remove Nulls" "Drop rows with missing values";
    mkAction "normalize" "Normalize Data" "Scale numerical columns to 0-1 range";
    mkAction "one-hot-encode" "One-Hot Encode" "Convert categorical variables to binary";
    mkAction "drop-duplicates" "Drop Duplicates" "Remove duplicate rows";
    mkAction "aggregate" "Aggregate Data" "Group by columns and summarize";
    mkAction "impute" "Impute Missing" "Fill missing values with mean/median";
    mkAction "feature-engineering" "Feature Engineering" "Create new features from existing data";
    mkAction "data-validation" "Data Validation" "Validate data quality and consistency" ].

Definition actionIds : list string := map id cleaningActions.

(** What the [error] state shows: a plain message, or the data-removal
    warning, whose text is the template filled with the two counts. *)
Inductive Notice : Type :=
| Plain (text : string)
| RemovalWarning (originalCount cleanedCount : Z).

Record Props : Type := mkProps {
  sessionId : string;
  role : string;
  preview : option (list Json)
}.

(** The state that [toggleAction] and [handleApplySelected] read or write. *)
Record State : Type := mkState {
  selectedActions : list string;
  isProcessing : bool;
  cleanedData : list Json;
  originalData : list Json;
  error : option Notice;
  validationResults : option Json;
  aiRecommendations : list string;
  showAiRecommendations : bool
}.

(** What one run of [handleApplySelected] leaves behind; [onCompleteCalls]
    are the arguments of its calls to the [onComplete] property, the only
    way for the component to make the page replace the preview. *)
Record Outcome : Type := mkOutcome {
  state : State;
  requests : list Request;
  onCompleteCalls : list (option (list Json))
}.

(** [prev.includes(actionId)] *)
Definition selected (prev : list string) (actionId : string) : bool :=
  existsb (String.eqb actionId) prev.

(** [toggleAction] *)
Definition toggleAction (prev : list string) (actionId : string) : list string :=
  if selected prev actionId
  then List.filter (fun x => negb (String.eqb x actionId)) prev
  else prev ++ [actionId].

(** The selection after a series of clicks, starting from none. *)
Definition selectionAfter (clicks : list string) : list string :=
  fold_left toggleAction clicks [].

Definition operationMap : gmap string string :=
  list_to_map
    [ ("remove-nulls", "remove_nulls");
      ("drop-duplicates", "drop_duplicates");
      ("impute", "impute_missing");
      ("normalize", "normalize_data");
      ("one-hot-encode", "one_hot_encode");
      ("aggregate", "aggregate_data");
      ("feature-engineering", "feature_engineering");
      ("data-validation", "data_validation") ].

(** [.filter(Boolean)] on an array of possibly undefined strings. *)
Definition filterBoolean (xs : list (option string)) : list string :=
  omap (fun o => match o with
                 | Some x => if truthy x then Some x else None
                 | None => None
                 end) xs.

(** [selectedActions.map(id => operationMap[id]).filter(Boolean)] *)
Definition operationsOf (selectedActions : list string) : list string :=
  filterBoolean (map (fun x => operationMap !! x) selectedActions).

Definition roleMapping : gmap string string :=
  list_to_map
    [ ("business-analyst", "business");
      ("research-eda", "research");
      ("marketing", "marketing");
      ("finance", "financial");
      ("predictive-modeling", "predictive");
      ("healthcare", "healthcare");
      ("ecommerce", "ecommerce");
      ("general", "general") ].

(** The request of [fetch(`http://localhost:5000/clean/${backendRole}`, ...)]:
    the body is the JSON text of [{ operations, session_id }]. *)
Definition cleanRequest (p : Props) (operations : list string) : Request :=
  let backendRole := orElse (roleMapping !! role p) (role p) in
  {| method := "POST";
     url := "http://localhost:5000/clean/" ++ backendRole;
     authorization := None;
     body := JObj [ ("operations", JArr (map JStr operations));
                    ("session_id", JStr (sessionId p)) ] |}.

(** The list under the key [operations] of a request body. *)
Definition carriedOperations (r : Request) : option (list Json) :=
  match body r with
  | JObj (("operations", JArr ops) :: _) => Some ops
  | _ => None
  end.

(** The properties read from the reply of the clean call; [resultPreview]
    is its [preview] property, named apart from the property of the
    component. *)
Record CleanResult : Type := mkCleanResult {
  resultPreview : option (list Json);
  validation_results : option Json;
  ai_recommendations : option (list string);
  rows : option Z
}.

(** How the awaited [fetch] and [response.json()] settle. *)
Inductive FetchOutcome : Type :=
| FetchRejected (err : Thrown)
| FetchResponse (ok : bool) (statusText : string) (json : Thrown + Data CleanResult).

(** [cleanedCount < originalCount * 0.8] on row counts.  The product is
    taken exactly; for counts below 2^49 the double-precision product
    compares with an integer in the same way. *)
Definition significantlyReduced (originalCount cleanedCount : Z) : bool :=
  negb (Qle_bool (inject_Z originalCount * (8 # 10)) (inject_Z cleanedCount)).

(** The state once [setIsProcessing(true)], [setError(null)] and the
    conditional [setOriginalData([...preview])] have been applied. *)
Definition started (p : Props) (s : State) : State :=
  {| selectedActions := selectedActions s;
     isProcessing := true;
     cleanedData := cleanedData s;
     originalData := match preview p with
                     | Some (row :: more) => row :: more
                     | _ => originalData s
                     end;
     error := None;
     validationResults := validationResults s;
     aiRecommendations := aiRecommendations s;
     showAiRecommendations := showAiRecommendations s |}.

(** One [setError] followed by the [finally] block. *)
Definition stopWith (s : State) (n : Notice) : State :=
  {| selectedActions := selectedActions s;
     isProcessing := false;
     cleanedData := cleanedData s;
     originalData := originalData s;
     error := Some n;
     validationResults := validationResults s;
     aiRecommendations := aiRecommendations s;
     showAiRecommendations := showAiRecommendations s |}.

(** The [catch] block. *)
Definition caught (s : State) (err : Thrown) : State :=
  stopWith s (Plain (messageOr "Cleaning failed" err)).

(** The updates after [await response.json()] for a result that is not
    [null]; [originalCount] is [originalData.length] as the closure of the
    handler captured it, and [cleanedCount] is [result.rows || 0]. *)
Definition applyResult (s : State) (originalCount : Z)
    (resultPreview : option (list Json)) (validation : option Json)
    (recommendations : option (list string)) (rows : option Z) : State :=
  let cleanedCount := default 0%Z rows in
  {| selectedActions := [];
     isProcessing := false;
     cleanedData := default [] resultPreview;
     originalData := originalData s;
     error := if significantlyReduced originalCount cleanedCount
              then Some (RemovalWarning originalCount cleanedCount)
              else error s;
     validationResults := orJson validation None;
     aiRecommendations := default [] recommendations;
     showAiRecommendations := match recommendations with
                              | Some (_ :: _) => true
                              | _ => showAiRecommendations s
                              end |}.

(** [handleApplySelected], run from the rendered state [s]; it never calls
    [onComplete]. *)
Definition handleApplySelected (p : Props) (s : State) (net : FetchOutcome) : Outcome :=
  let s1 := started p s in
  let operations := operationsOf (selectedActions s) in
  match operations with
  | [] =>
      {| state := stopWith s1 (Plain "Please select at least one cleaning action.");
         requests := []; onCompleteCalls := [] |}
  | _ :: _ =>
      let req := cleanRequest p operations in
      let originalCount := Z.of_nat (List.length (originalData s)) in
      match net with
      | FetchRejected err => {| state := caught s1 err; requests := [req]; onCompleteCalls := [] |}
      | FetchResponse false statusText _ =>
          {| state := caught s1 (ErrorObj ("Cleaning failed: " ++ statusText));
             requests := [req]; onCompleteCalls := [] |}
      | FetchResponse true _ (inl err) =>
          {| state := caught s1 err; requests := [req]; onCompleteCalls := [] |}
      | FetchResponse true _ (inr DataNull) =>
          {| state := caught s1 (readOfNull "preview"); requests := [req]; onCompleteCalls := [] |}
      | FetchResponse true _ (inr DataPrimitive) =>
          {| state := applyResult s1 originalCount None None None None;
             requests := [req]; onCompleteCalls := [] |}
      | FetchResponse true _ (inr (DataObject r)) =>
          {| state := applyResult s1 originalCount (resultPreview r)
                        (validation_results r) (ai_recommendations r) (rows r);
             requests := [req]; onCompleteCalls := [] |}
      end
  end.

(** The call did not deliver a result: [fetch] was rejected, the response
    was not [ok], or its body could not be read as a non-null JSON value. *)
Definition fetchFailed (net : FetchOutcome) : bool :=
  match net with
  | FetchRejected _ => true
  | FetchResponse ok _ json =>
      negb ok || match json with
                 | inl _ => true
                 | inr DataNull => true
                 | inr _ => false
                 end
  end.

(** The [error] state shows the data-removal warning. *)
Definition showsRemovalWarning (s : State) : bool :=
  match error s with
  | Some (RemovalWarning _ _) => true
  | _ => false
  end.

End DataCleaning.

(** ** The server side of a clean call *)

Module Pipeline.

(** Modelled from the spec: the scalar values of a TabularDataset (numeric,
    text, boolean, null); the server code is not among the sources. *)
Inductive Scalar : Type :=
| Null
| Numeric (z : Z)
| Text (s : string)
| Boolean (b : bool).

#[global] Instance Scalar_eq_dec : EqDecision Scalar.
Proof. solve_decision. Defined.

(** Modelled from the spec: a TabularDataset is an ordered list of column
    names with row-major storage. *)
Record TabularDataset : Type := mkDataset {
  columns : list string;
  rows : list (list Scalar)
}.

(** Modelled from the spec: the part of a Session that the cleaning
    pipeline touches. *)
Record Session : Type := mkSession {
  originalDataset : TabularDataset;
  currentDataset : TabularDataset;
  cleaningHistory : list string
}.

(** Modelled from the spec: the eight supported operations. *)
Definition supportedOperations : list string :=
  [ "remove_nulls"; "drop_duplicates"; "impute_missing"; "normalize_data";
    "one_hot_encode"; "aggregate_data"; "feature_engineering"; "data_validation" ].

Section WithOperations.

(** Each operation is a function on datasets that may raise; the transforms
    themselves are left open. *)
Variable applyOperation : string -> TabularDataset -> option TabularDataset.

(** Modelled from the spec: operations are applied in caller-supplied order,
    each one's output being the next one's input; the result is the final
    dataset or the name of the operation that raised. *)
Fixpoint runPipeline (operations : list string) (d : TabularDataset)
    : TabularDataset + string :=
  match operations with
  | [] => inl d
  | op :: rest =>
      match applyOperation op d with
      | Some d' => runPipeline rest d'
      | None => inr op
      end
  end.

(** Modelled from the spec: a successful call overwrites [currentDataset] and
    appends the operation names to [cleaningHistory]; when an operation
    raises, the dataset is restored to its pre-call value and the failing
    operation is reported. *)
Definition clean (sess : Session) (operations : list string)
    : Session * (TabularDataset + string) :=
  match runPipeline operations (currentDataset sess) with
  | inl d =>
      ({| originalDataset := originalDataset sess;
          currentDataset := d;
          cleaningHistory := cleaningHistory sess ++ operations |}, inl d)
  | inr op => (sess, inr op)
  end.

End WithOperations.

(** Modelled from the spec: [remove_nulls] with the default column set. *)
Definition remove_nulls (d : TabularDataset) : TabularDataset :=
  {| columns := columns d;
     rows := List.filter (fun r => negb (existsb (fun v => bool_decide (v = Null)) r)) (rows d) |}.

(** Modelled from the spec: [drop_duplicates], first occurrence wins. *)
Fixpoint dedup (seen : list (list Scalar)) (rs : list (list Scalar)) : list (list Scalar) :=
  match rs with
  | [] => []
  | r :: rest =>
      if bool_decide (r ∈ seen) then dedup seen rest else r :: dedup (r :: seen) rest
  end.

Definition drop_duplicates (d : TabularDataset) : TabularDataset :=
  {| columns := columns d; rows := dedup [] (rows d) |}.

(** Modelled from the spec: the operations whose effect the spec fixes
    without numeric detail ([data_validation] does not mutate,
    [aggregate_data] without a group key is a no-op).  The transforms the
    spec describes through medians, scaling, encoding and naming heuristics
    ([impute_missing], [normalize_data], [one_hot_encode],
    [feature_engineering]) are not modelled: [others] stands for them, and
    for what the server does with any other name. *)
Definition basicOperation (others : string -> TabularDataset -> option TabularDataset)
    (op : string) (d : TabularDataset) : option TabularDataset :=
  if String.eqb op "remove_nulls" then Some (remove_nulls d)
  else if String.eqb op "drop_duplicates" then Some (drop_duplicates d)
  else if String.eqb op "data_validation" then Some d
  else if String.eqb op "aggregate_data" then Some d
  else others op d.

End Pipeline.

(** ** A clean call end to end *)

Module CleanCall.
Import JS Api DataCleaning Pipeline.

Section WithServer.

Variable applyOperation : string -> TabularDataset -> option TabularDataset.

(** The web layer between the pipeline and [fetch]: how each result of the
    pipeline reaches the client. *)
Variable respond : TabularDataset + string -> FetchOutcome.

(** Modelled from the spec: the route behind [/clean/{role}] is not among
    the sources; when a request leaves the client it is taken to run the
    pipeline on the session with the operations the request carries and to
    answer through [respond], after which the handler continues with the
    reply.  With no operation selected no request leaves, and the outcome
    passed to the handler is not consumed. *)
Definition cleanCall (sess : Session) (p : Props) (s : State) : Session * Outcome :=
  match operationsOf (selectedActions s) with
  | [] => (sess, handleApplySelected p s (FetchRejected NotAnError))
  | op :: more =>
      let served := clean applyOperation sess (op :: more) in
      (fst served, handleApplySelected p s (respond (snd served)))
  end.

End WithServer.

End CleanCall.

(** ** Quality scoring *)

Module Quality.

(** The [quality_scores] object of the [QualityAssessment] interface. *)
Record QualityScores : Type := mkScores {
  completeness : Q;
  consistency : Q;
  accuracy : Q;
  uniqueness : Q;
  validity : Q;
  timeliness : Q
}.

(** The [QualityAssessment] interface, without the free-form fields. *)
Record QualityAssessment : Type := mkAssessment {
  overall_score : Q;
  grade : string;
  quality_scores : QualityScores
}.

(** The keys of [QUALITY_METRICS], in source order. *)
Definition QUALITY_METRICS : list string :=
  [ "completeness"; "consistency"; "accuracy"; "uniqueness"; "validity"; "timeliness" ].

(** [assessment.quality_scores[metric.key]] *)
Definition scoreOf (key : string) (q : QualityScores) : option Q :=
  if String.eqb key "completeness" then Some (completeness q)
  else if String.eqb key "consistency" then Some (consistency q)
  else if String.eqb key "accuracy" then Some (accuracy q)
  else if String.eqb key "uniqueness" then Some (uniqueness q)
  else if String.eqb key "validity" then Some (validity q)
  else if String.eqb key "timeliness" then Some (timeliness q)
  else None.

(** Modelled from the spec: the scoring engine runs on the server, whose
    code is not among the sources.  [overallScore] is the arithmetic mean of
    the six dimension scores. *)
Definition overallScore (q : QualityScores) : Q :=
  (completeness q + consistency q + accuracy q + uniqueness q + validity q + timeliness q) / 6.

(** Modelled from the spec: grade = A if >= 90, B if >= 80, C if >= 70,
    D if >= 60, else F. *)
Definition gradeOf (score : Q) : string :=
  if Qle_bool 90 score then "A"
  else if Qle_bool 80 score then "B"
  else if Qle_bool 70 score then "C"
  else if Qle_bool 60 score then "D"
  else "F".

(** Modelled from the spec: the assessment of a dataset with [rowCount] rows
    whose six dimension scores are [q].  An empty dataset (zero rows) yields
    [overallScore = 0] and grade F; its dimension scores are reported as
    they are (timeliness is 100 when no datetime column exists). *)
Definition assessQuality (rowCount : Z) (q : QualityScores) : QualityAssessment :=
  if (rowCount =? 0)%Z
  then {| overall_score := 0; grade := "F"; quality_scores := q |}
  else {| overall_score := overallScore q;
          grade := gradeOf (overallScore q);
          quality_scores := q |}.

End Quality.

(** ** The rest of [NaturalLanguageQuery.tsx] *)

Module NLQView.
Import JS Api.

(** [getConfidenceColor] *)
Definition getConfidenceColor (confidence : Z) : string :=
  if (80 <=? confidence)%Z then "text-green-600"
  else if (60 <=? confidence)%Z then "text-yellow-600"
  else "text-red-600".

(** The text under an entry of "Recent Queries":
    [answer.length > 100 ? answer.substring(0, 100) + '...' : answer]. *)
Definition excerpt (answer : string) : string :=
  if (100 <? String.length answer)%nat
  then String.substring 0 100 answer ++ "..."
  else answer.

(** What holds of a response built for the query text [q]. *)
Definition delivered (q : string) (x : NLQ.NLQResponse) : Prop :=
  NLQ.success x = true /\
  NLQ.query x = trim q /\
  In (NLQ.confidence x) [30%Z; 40%Z; 80%Z] /\
  NLQ.intent x <> "error" /\
  truthy (NLQ.intent x) = true /\
  truthy (NLQ.answer x) = true /\
  NLQ.visualization x = None.

(** The response, if any, that submitting the query text [q] produces when
    the call settles as [net]: what a form without history would then list
    first. *)
Definition answerOf (p : NLQ.Props) (q : string)
    (net : Settled (Data NlqResult)) : option NLQ.NLQResponse :=
  head (NLQ.queryHistory
          (NLQ.state (NLQ.handleSubmit p
                        {| NLQ.queryText := q;
                           NLQ.isLoading := false;
                           NLQ.response := None;
                           NLQ.error := None;
                           NLQ.queryHistory := [] |} net))).

(** The responses produced by a series of submissions, in the order of the
    calls. *)
Definition answersOf (p : NLQ.Props)
    (calls : list (string * Settled (Data NlqResult))) : list NLQ.NLQResponse :=
  omap (fun call => answerOf p (fst call) (snd call)) calls.

End NLQView.

(** ** The [AIInsights] component *)

Module AIInsights.
Import JS.

(** [handleSubmit]: a question that is not blank is passed on as typed and
    the input is cleared; the result is the new input text and the question
    handed to [onAskQuestion], if any. *)
Definition handleSubmit (question : string) : string * option string :=
  if truthy (trim question) then (EmptyString, Some question) else (question, None).

(** The form wired to [handleAIInsight] of the page, as [RoleAnalysis]
    mounts it. *)
Definition ask (s : RoleAnalysis.State) (question : string) (now : Z)
    (net : Api.Settled (Api.Data Api.InsightResult)) : RoleAnalysis.Outcome :=
  match snd (handleSubmit question) with
  | Some q => RoleAnalysis.handleAIInsight s q now net
  | None => {| RoleAnalysis.state := s; RoleAnalysis.requests := [] |}
  end.

End AIInsights.

(** ** Running a task: [RoleSpecificTasks.tsx] *)

Module TaskRunner.
Import JS.

Record State : Type := mkState {
  activeTask : option string;
  isProcessing : bool;
  completedTasks : list string
}.

Definition initialState : State :=
  {| activeTask := None; isProcessing := false; completedTasks := [] |}.

(** [handleRunTask]; [analysis] is how the awaited [onAnalysis(taskId)]
    settles. *)
Definition handleRunTask (hasData : bool) (s : State) (taskId : string)
    (analysis : Thrown + unit) : State :=
  if negb hasData then s
  else
    match analysis with
    | inr _ =>
        {| activeTask := Some taskId;
           isProcessing := false;
           completedTasks := completedTasks s ++ [taskId] |}
    | inl _ =>
        {| activeTask := Some taskId;
           isProcessing := false;
           completedTasks := completedTasks s |}
    end.

(** [getTaskStatus] *)
Definition getTaskStatus (hasData : bool) (s : State) (taskId : string) : string :=
  if negb hasData then "pending"
  else if existsb (String.eqb taskId) (completedTasks s) then "completed"
  else if match activeTask s with
          | Some active => String.eqb active taskId
          | None => false
          end && isProcessing s then "running"
  else "pending".

(** A click on a task of the page: [onAnalysis] is [handleAnalysis], whose
    body is one [try] with a [catch] that only sets the error, so the
    awaited call always settles normally; without data it is not called. *)
Definition runTask (hasData : bool) (page : RoleAnalysis.State) (s : State)
    (taskId : string) (net : Api.Settled Json) : RoleAnalysis.Outcome * State :=
  if negb hasData
  then ({| RoleAnalysis.state := page; RoleAnalysis.requests := [] |}, s)
  else (RoleAnalysis.handleAnalysis page taskId net,
        handleRunTask hasData s taskId (inr tt)).

(** Successive clicks on tasks, with data present. *)
Fixpoint runTasks (page : RoleAnalysis.State) (s : State)
    (clicks : list (string * Api.Settled Json)) : RoleAnalysis.State * State :=
  match clicks with
  | [] => (page, s)
  | (taskId, net) :: rest =>
      let after := runTask true page s taskId net in
      runTasks (RoleAnalysis.state (fst after)) (snd after) rest
  end.

End TaskRunner.

(** ** Upload, preview and the steps of [pages/RoleAnalysis.tsx] *)

Module Page.
Import JS Api Roles.

(** The route parameter and the state of the page that the upload, the
    preview and the step buttons read or write; [uploadedFile] is the name
    of the file. *)
Record State : Type := mkState {
  roleId : option string;
  currentStep : Z;
  uploadedFile : option string;
  sessionId : option string;
  preview : option (list Json);
  columns : option (list string);
  isUploading : bool;
  error : option string
}.

Record Outcome : Type := mkOutcome {
  state : State;
  requests : list Request
}.

(** The state of a page just mounted for the route [roleId]. *)
Definition initialState (roleId : option string) : State :=
  {| roleId := roleId;
     currentStep := 1;
     uploadedFile := None;
     sessionId := None;
     preview := Some [];
     columns := Some [];
     isUploading := false;
     error := None |}.

(** [apiService.uploadFile(sessionToken, file, role)]: the request. *)
Definition uploadFileRequest (sessionToken file role : string) : Request :=
  {| method := "POST";
     url := API_BASE_URL ++ "/analyze/" ++ role ++ "/upload";
     authorization := Some ("Bearer " ++ sessionToken);
     body := JObj [("file", JStr file)] |}.

(** The properties of an upload reply that [handleFileUpload] reads;
    [analysis_id] is the text [toString()] gives, [success] its
    truthiness. *)
Record UploadReply : Type := mkUploadReply {
  analysis_id : option string;
  success : bool;
  uploadError : option string
}.

(** [apiService.uploadFile] returns [response.data] or throws with the
    detail or a default message. *)
Definition uploadFile (role : string) (net : Settled (Data UploadReply))
    : Thrown + Data UploadReply :=
  match net with
  | Resolved d => inr d
  | Rejected detail _ =>
      inl (ErrorObj (orElse detail ("Failed to upload file for " ++ role ++ " analysis.")))
  end.

(** [apiService.businessAnalysisUpload(sessionToken, file)] *)
Definition businessAnalysisUpload (net : Settled (Data UploadReply))
    : Thrown + Data UploadReply :=
  uploadFile "business" net.

(** The [catch] and [finally] blocks of [handleFileUpload], on a state in
    which [setError(null)] has been applied. *)
Definition uploadCaught (s : State) (err : Thrown) : State :=
  {| roleId := roleId s;
     currentStep := currentStep s;
     uploadedFile := uploadedFile s;
     sessionId := sessionId s;
     preview := preview s;
     columns := columns s;
     isUploading := false;
     error := Some (messageOr "Upload failed" err) |}.

(** The four setters after the response object is built, then the check of
    [response.error] and [setCurrentStep(2)], then [finally]. *)
Definition uploadStored (s : State) (file session_id : string)
    (responseError : option string) : State :=
  let stored :=
    {| roleId := roleId s;
       currentStep := currentStep s;
       uploadedFile := Some file;
       sessionId := Some session_id;
       preview := Some [];
       columns := Some [];
       isUploading := false;
       error := None |} in
  if truthyOpt responseError
  then uploadCaught stored (ErrorObj (templ responseError))
  else {| roleId := roleId s;
          currentStep := 2;
          uploadedFile := Some file;
          sessionId := Some session_id;
          preview := Some [];
          columns := Some [];
          isUploading := false;
          error := None |}.

(** [handleFileUpload] *)
Definition handleFileUpload (s : State) (file : string)
    (net : Settled (Data UploadReply)) : Outcome :=
  match findRole (roleId s) with
  | None => {| state := s; requests := [] |}
  | Some role =>
      if String.eqb (id role) "business_analyst" then
        let req := uploadFileRequest "demo-session-token" file "business" in
        match businessAnalysisUpload net with
        | inl err => {| state := uploadCaught s err; requests := [req] |}
        | inr DataNull =>
            {| state := uploadCaught s (readOfNull "analysis_id"); requests := [req] |}
        | inr DataPrimitive =>
            {| state := uploadStored s file "demo-session" None; requests := [req] |}
        | inr (DataObject r) =>
            {| state := uploadStored s file (orElse (analysis_id r) "demo-session")
                          (if success r then None else uploadError r);
               requests := [req] |}
        end
      else {| state := uploadStored s file "demo-session" None; requests := [] |}
  end.

(** The properties of a preview reply that [handlePreview] reads. *)
Record PreviewReply : Type := mkPreviewReply {
  replyPreview : option (list Json);
  replyColumns : option (list string);
  replyError : option string
}.

Definition previewDataRequest (role sessionToken : string) : Request :=
  {| method := "GET";
     url := API_BASE_URL ++ "/analyze/" ++ role ++ "/preview";
     authorization := Some ("Bearer " ++ sessionToken);
     body := JNull |}.

(** [apiService.previewData] never throws: a rejected call yields
    [{ error }]. *)
Definition previewData (net : Settled (Data PreviewReply)) : Data PreviewReply :=
  match net with
  | Resolved d => d
  | Rejected detail _ =>
      DataObject {| replyPreview := None;
                    replyColumns := None;
                    replyError := Some (orElse detail "Failed to preview data.") |}
  end.

(** [setPreview(response.preview); setColumns(response.columns)] *)
Definition previewLoaded (s : State) (p : option (list Json)) (c : option (list string)) : State :=
  {| roleId := roleId s;
     currentStep := currentStep s;
     uploadedFile := uploadedFile s;
     sessionId := sessionId s;
     preview := p;
     columns := c;
     isUploading := isUploading s;
     error := error s |}.

(** [handlePreview] *)
Definition handlePreview (s : State) (net : Settled (Data PreviewReply)) : Outcome :=
  match sessionId s, findRole (roleId s) with
  | Some sid, Some role =>
      if truthy sid then
        let req := previewDataRequest (id role) sid in
        match previewData net with
        | DataNull =>
            {| state := {| roleId := roleId s;
                           currentStep := currentStep s;
                           uploadedFile := uploadedFile s;
                           sessionId := sessionId s;
                           preview := preview s;
                           columns := columns s;
                           isUploading := isUploading s;
                           error := Some (messageOr "Preview failed" (readOfNull "preview")) |};
               requests := [req] |}
        | DataPrimitive => {| state := previewLoaded s None None; requests := [req] |}
        | DataObject r =>
            {| state := previewLoaded s (replyPreview r) (replyColumns r);
               requests := [req] |}
        end
      else {| state := s; requests := [] |}
  | _, _ => {| state := s; requests := [] |}
  end.

(** [setCurrentStep(n)] *)
Definition setCurrentStep (s : State) (n : Z) : State :=
  {| roleId := roleId s;
     currentStep := n;
     uploadedFile := uploadedFile s;
     sessionId := sessionId s;
     preview := preview s;
     columns := columns s;
     isUploading := isUploading s;
     error := error s |}.

(** [handleStepNavigation], and the click on a number of the progress bar,
    [currentStep >= step && setCurrentStep(step)]. *)
Definition handleStepNavigation (s : State) (step : Z) : State :=
  if (step <=? currentStep s)%Z then setCurrentStep s step else s.

(** The [onComplete] handed to [DataCleaning]:
    [if (cleanedData) setPreview(cleanedData); setCurrentStep(3)]. *)
Definition cleaningComplete (s : State) (cleanedData : option (list Json)) : State :=
  {| roleId := roleId s;
     currentStep := 3;
     uploadedFile := uploadedFile s;
     sessionId := sessionId s;
     preview := match cleanedData with
                | Some rows => Some rows
                | None => preview s
                end;
     columns := columns s;
     isUploading := isUploading s;
     error := error s |}.

(** [preview.length > 0 && sessionId !== null], the [hasData] handed to
    [RoleSpecificTasks]; an undefined preview has no length to read. *)
Definition hasData (s : State) : option bool :=
  match preview s with
  | Some rows => Some (negb (Nat.eqb (List.length rows) 0) &&
                       match sessionId s with Some _ => true | None => false end)
  | None => None
  end.

(** What the user can do on the page.  [Upload] and [QuickPreview] come from
    [FileUpload]; [AutoPreview] is the effect that loads the preview on the
    cleaning step; [Continue] is the button of [DataCleaning], shown while
    its cleaned data is not empty; [ContinueToInsights] stands for the
    button of step 3 and for the [onComplete] of [RoleSpecificTasks], both
    [setCurrentStep(4)]; the others are the buttons of the steps and the
    numbers of the progress bar. *)
Inductive Event : Type :=
| Upload (file : string) (net : Settled (Data UploadReply))
| QuickPreview (net : Settled (Data PreviewReply))
| AutoPreview (net : Settled (Data PreviewReply))
| ClickStep (step : Z)
| BackToUpload
| StartOver
| Continue (cleanedData : list Json)
| BackToClean
| ContinueToInsights
| BackToAnalysis.

(** [currentStep === n && sessionId], the condition under which the section
    of step [n] (2, 3 or 4) is rendered. *)
Definition rendered (s : State) (n : Z) : bool :=
  (currentStep s =? n)%Z && truthyOpt (sessionId s).

(** The effect of an event; an event whose control is not rendered in the
    state does nothing.  Each handler is run here to its end, its call
    settling before the next event; [advance] below lets a preview call
    settle at any later moment. *)
Definition fire (s : State) (e : Event) : State :=
  match e with
  | Upload file net =>
      if (currentStep s =? 1)%Z then state (handleFileUpload s file net) else s
  | QuickPreview net =>
      if (currentStep s =? 1)%Z
      then match uploadedFile s with
           | Some _ => state (handlePreview s net)
           | None => s
           end
      else s
  | AutoPreview net =>
      if (currentStep s =? 2)%Z &&
         match preview s with
         | Some (_ :: _) => false
         | _ => true
         end
      then state (handlePreview s net) else s
  | ClickStep step =>
      if existsb (Z.eqb step) [1; 2; 3; 4]%Z then handleStepNavigation s step else s
  | BackToUpload => if rendered s 2 then setCurrentStep s 1 else s
  | StartOver =>
      if rendered s 2 || rendered s 3 || rendered s 4 then setCurrentStep s 1 else s
  | Continue cleanedData =>
      if rendered s 2 && negb (Nat.eqb (List.length cleanedData) 0)
      then cleaningComplete s (Some cleanedData) else s
  | BackToClean => if rendered s 3 then setCurrentStep s 2 else s
  | ContinueToInsights => if rendered s 3 then setCurrentStep s 4 else s
  | BackToAnalysis => if rendered s 4 then setCurrentStep s 3 else s
  end.

Definition run (s : State) (events : list Event) : State := fold_left fire events s.

(** The rest of [handlePreview] once the awaited [previewData] has settled:
    the setters act on the state the page has at that moment, whatever its
    step. *)
Definition previewSettled (s : State) (net : Settled (Data PreviewReply)) : State :=
  match previewData net with
  | DataNull =>
      {| roleId := roleId s;
         currentStep := currentStep s;
         uploadedFile := uploadedFile s;
         sessionId := sessionId s;
         preview := preview s;
         columns := columns s;
         isUploading := isUploading s;
         error := Some (messageOr "Preview failed" (readOfNull "preview")) |}
  | DataPrimitive => previewLoaded s None None
  | DataObject r => previewLoaded s (replyPreview r) (replyColumns r)
  end.

(** The guard of [handlePreview], [sessionId && role]: the call is made. *)
Definition previewCalled (s : State) : bool :=
  match sessionId s, findRole (roleId s) with
  | Some sid, Some _ => truthy sid
  | _, _ => false
  end.

(** The steps of the page are rendered for a role that is found and is not
    [business_analyst]; otherwise the page returns another view, without
    [FileUpload] and the step buttons. *)
Definition stepsMounted (s : State) : bool :=
  match findRole (roleId s) with
  | Some role => negb (String.eqb (id role) "business_analyst")
  | None => false
  end.

(** The page while calls are in flight: its state and the number of
    preview calls that have not settled. *)
Record Running : Type := mkRunning {
  page : State;
  pendingPreviews : nat
}.

(** What happens next on the page: an event of the user (or the effect
    that loads the preview), or a preview call that settles.  A preview
    event only starts its call here; the outcome it carries is not used,
    the call settles at a later moment, with any outcome. *)
Inductive Moment : Type :=
| Happens (e : Event)
| PreviewSettles (net : Settled (Data PreviewReply)).

Definition startPreview (r : Running) : Running :=
  if previewCalled (page r)
  then {| page := page r; pendingPreviews := S (pendingPreviews r) |}
  else r.

(** One moment of the page.  The upload of the roles whose steps are
    rendered awaits nothing, so it runs to its end at once. *)
Definition advance (r : Running) (m : Moment) : Running :=
  match m with
  | PreviewSettles net =>
      match pendingPreviews r with
      | O => r
      | S n => {| page := previewSettled (page r) net; pendingPreviews := n |}
      end
  | Happens e =>
      if stepsMounted (page r) then
        match e with
        | QuickPreview _ =>
            if (currentStep (page r) =? 1)%Z
            then match uploadedFile (page r) with
                 | Some _ => startPreview r
                 | None => r
                 end
            else r
        | AutoPreview _ =>
            if (currentStep (page r) =? 2)%Z &&
               match preview (page r) with
               | Some (_ :: _) => false
               | _ => true
               end
            then startPreview r else r
        | _ => {| page := fire (page r) e; pendingPreviews := pendingPreviews r |}
        end
      else r
  end.

Definition runAsync (roleId : option string) (moments : list Moment) : Running :=
  fold_left advance moments {| page := initialState roleId; pendingPreviews := 0 |}.

(** What holds of the page at every moment: the step is one of the four,
    and from step 2 on a session id is present. *)
Definition steady (s : State) : Prop :=
  (1 <= currentStep s <= 4)%Z /\
  ((2 <= currentStep s)%Z -> truthyOpt (sessionId s) = true).

End Page.

(** ** The [DataQualityAssessment] component *)

Module DataQuality.
Import JS Api.

Record Props : Type := mkProps {
  roleId : string;
  sessionId : option string;
  hasOnAssessmentComplete : bool
}.

Record State : Type := mkState {
  isLoading : bool;
  assessment : option Quality.QualityAssessment;
  error : option string
}.

Record Outcome : Type := mkOutcome {
  state : State;
  requests : list Request;
  completed : list (option Quality.QualityAssessment)
}.

Definition roleMapping : gmap string string :=
  list_to_map
    [ ("business-analyst", "business");
      ("research-eda", "research");
      ("marketing", "marketing");
      ("financial", "financial");
      ("predictive-modeling", "predictive");
      ("healthcare", "healthcare");
      ("ecommerce", "ecommerce");
      ("general", "general") ].

(** The properties of a data-quality reply that the client reads;
    [success] is the truthiness of the property. *)
Record AssessReply : Type := mkAssessReply {
  success : bool;
  quality_assessment : option Quality.QualityAssessment;
  replyError : option string
}.

Definition assessDataQualityRequest (role sessionToken : string) : Request :=
  {| method := "POST";
     url := API_BASE_URL ++ "/analyze/" ++ role ++ "/data-quality";
     authorization := Some ("Bearer " ++ sessionToken);
     body := JObj [] |}.

(** [apiService.assessDataQuality] never throws: a rejected call yields
    [{ error }]. *)
Definition assessDataQuality (net : Settled (Data AssessReply)) : Data AssessReply :=
  match net with
  | Resolved d => d
  | Rejected detail _ =>
      DataObject {| success := false;
                    quality_assessment := None;
                    replyError := Some (orElse detail "Failed to assess data quality.") |}
  end.

(** One [setError] after [setError(null)], and the [finally] block. *)
Definition failed (s : State) (msg : string) : State :=
  {| isLoading := false; assessment := assessment s; error := Some msg |}.

(** [handleAssessment] *)
Definition handleAssessment (p : Props) (s : State)
    (net : Settled (Data AssessReply)) : Outcome :=
  match sessionId p with
  | Some sid =>
      if truthy sid then
        let backendRole := orElse (roleMapping !! roleId p) (roleId p) in
        let req := assessDataQualityRequest backendRole sid in
        match assessDataQuality net with
        | DataNull =>
            {| state := failed s (messageOr "Assessment failed" (readOfNull "success"));
               requests := [req]; completed := [] |}
        | DataPrimitive =>
            {| state := failed s "Failed to assess data quality";
               requests := [req]; completed := [] |}
        | DataObject r =>
            if success r
            then {| state := {| isLoading := false;
                                assessment := quality_assessment r;
                                error := None |};
                    requests := [req];
                    completed := if hasOnAssessmentComplete p
                                 then [quality_assessment r] else [] |}
            else {| state := failed s (orElse (replyError r) "Failed to assess data quality");
                    requests := [req]; completed := [] |}
        end
      else {| state := s; requests := []; completed := [] |}
  | None => {| state := s; requests := []; completed := [] |}
  end.

(** [getScoreColor] *)
Definition getScoreColor (score : Q) : string :=
  if Qle_bool 80 score then "text-green-600"
  else if Qle_bool 60 score then "text-yellow-600"
  else "text-red-600".

(** The class of the bar under a metric:
    [score >= 80 ? 'bg-green-500' : score >= 60 ? 'bg-yellow-500' : 'bg-red-500']. *)
Definition barColor (score : Q) : string :=
  if Qle_bool 80 score then "bg-green-500"
  else if Qle_bool 60 score then "bg-yellow-500"
  else "bg-red-500".

(** [key.replace(/_/g, ' ')], the label of a detail. *)
Fixpoint detailLabel (key : string) : string :=
  match key with
  | EmptyString => EmptyString
  | String c rest =>
      String (if Ascii.eqb c "_"%char then " "%char else c) (detailLabel rest)
  end.

End DataQuality.

(** ** The full dataset view of [DataCleaning] *)

Module FullDataset.
Import JS Api.

Record State : Type := mkState {
  fullData : list Json;
  showFullPreview : bool
}.

Record Outcome : Type := mkOutcome {
  state : State;
  alerts : list string;
  requests : list Request
}.

(** The properties read from the reply; [replyError] is the text the
    template [`Error: ${data.error}`] shows. *)
Record FullReply : Type := mkFullReply {
  replyError : option string;
  data : option (list Json)
}.

(** How [fetch] and [response.json()] settle. *)
Inductive Fetched : Type :=
| Rejected (err : Thrown)
| Response (ok : bool) (statusText : string) (json : Thrown + Data FullReply).

(** [fetch(`http://localhost:5000/full-preview/${role}?session_id=${sessionId}`)] *)
Definition fullPreviewRequest (p : DataCleaning.Props) : Request :=
  {| method := "GET";
     url := "http://localhost:5000/full-preview/" ++ DataCleaning.role p
            ++ "?session_id=" ++ DataCleaning.sessionId p;
     authorization := None;
     body := JNull |}.

Definition fetchError : string := "Error fetching full dataset. Please try again.".

(** The handler of the "View Full Dataset" button. *)
Definition viewFullDataset (p : DataCleaning.Props) (s : State) (net : Fetched) : Outcome :=
  let req := fullPreviewRequest p in
  match net with
  | Rejected _ => {| state := s; alerts := [fetchError]; requests := [req] |}
  | Response _ _ (inl _) => {| state := s; alerts := [fetchError]; requests := [req] |}
  | Response _ _ (inr DataNull) =>
      {| state := s; alerts := [fetchError]; requests := [req] |}
  | Response _ _ (inr DataPrimitive) =>
      {| state := {| fullData := []; showFullPreview := true |};
         alerts := []; requests := [req] |}
  | Response _ _ (inr (DataObject r)) =>
      if truthyOpt (replyError r)
      then {| state := s; alerts := ["Error: " ++ templ (replyError r)]; requests := [req] |}
      else {| state := {| fullData := default [] (data r); showFullPreview := true |};
              alerts := []; requests := [req] |}
  end.

End FullDataset.

(** ** From the cleaning step to the analysis step *)

Module CleaningStep.

(** The "Continue" button of [DataCleaning] is rendered while
    [cleanedData && cleanedData.length > 0]. *)
Definition continueOffered (c : DataCleaning.State) : bool :=
  negb (Nat.eqb (List.length (DataCleaning.cleanedData c)) 0).

(** A click on "Continue": [onComplete(cleanedData)] with the cleaned data
    of the component, on the page that mounts it. *)
Definition continue (page : Page.State) (c : DataCleaning.State) : Page.State :=
  Page.fire page (Page.Continue (DataCleaning.cleanedData c)).

(** The state of a [DataCleaning] just mounted: the initial values of its
    [useState] calls, [originalData] starting as [preview || []]. *)
Definition initialState (p : DataCleaning.Props) : DataCleaning.State :=
  {| DataCleaning.selectedActions := [];
     DataCleaning.isProcessing := false;
     DataCleaning.cleanedData := [];
     DataCleaning.originalData := default [] (DataCleaning.preview p);
     DataCleaning.error := None;
     DataCleaning.validationResults := None;
     DataCleaning.aiRecommendations := [];
     DataCleaning.showAiRecommendations := false |}.

(** A click on the card of an action: [toggleAction(action.id)], that is
    [setSelectedActions(prev => ...)]. *)
Definition tick (c : DataCleaning.State) (actionId : string) : DataCleaning.State :=
  {| DataCleaning.selectedActions :=
       DataCleaning.toggleAction (DataCleaning.selectedActions c) actionId;
     DataCleaning.isProcessing := DataCleaning.isProcessing c;
     DataCleaning.cleanedData := DataCleaning.cleanedData c;
     DataCleaning.originalData := DataCleaning.originalData c;
     DataCleaning.error := DataCleaning.error c;
     DataCleaning.validationResults := DataCleaning.validationResults c;
     DataCleaning.aiRecommendations := DataCleaning.aiRecommendations c;
     DataCleaning.showAiRecommendations := DataCleaning.showAiRecommendations c |}.

(** [disabled={isProcessing || selectedActions.length === 0}] of the "Apply
    Selected" button; [Button] hands [disabled] on to the [button]
    element. *)
Definition applyDisabled (c : DataCleaning.State) : bool :=
  DataCleaning.isProcessing c || Nat.eqb (List.length (DataCleaning.selectedActions c)) 0.

(** A click on "Apply Selected": a disabled button does not call
    [handleApplySelected]. *)
Definition clickApply (p : DataCleaning.Props) (c : DataCleaning.State)
    (net : DataCleaning.FetchOutcome) : DataCleaning.Outcome :=
  if applyDisabled c
  then {| DataCleaning.state := c;
          DataCleaning.requests := [];
          DataCleaning.onCompleteCalls := [] |}
  else DataCleaning.handleApplySelected p c net.

End CleaningStep.

(** ** Proof automation *)

(** Two facts about the order of a score and a threshold that exclude each
    other. *)
Ltac contradict_order :=
  match goal with
  | Hle : (?a <= ?b)%Q, Hlt : (?b < ?a)%Q |- _ =>
      exact (False_ind _ (Qlt_not_le _ _ Hlt Hle))
  end.

(** Settles the cases of a grade once the threshold facts are in the
    context. *)
Ltac settle_grade :=
  repeat split; intros;
  repeat match goal with H : _ /\ _ |- _ => destruct H end;
  try discriminate; try assumption; try contradict_order;
  repeat split; try assumption.



(** ** Sample inputs *)

Module Samples.
Import JS.

(** A result of type [trend] whose message reports insufficient data. *)
Definition insufficientTrend : Api.NlqResult :=
  {| Api.type := Some "trend";
     Api.message := Some "Trend analysis: insufficient data in the date column";
     Api.data := None;
     Api.result := None |}.

Definition demoProps : NLQ.Props :=
  {| NLQ.roleId := "general"; NLQ.sessionId := Some "demo-session";
     NLQ.hasOnQueryComplete := true |}.

Definition demoQuery : NLQ.State :=
  {| NLQ.queryText := " What are the main trends? ";
     NLQ.isLoading := false;
     NLQ.response := None;
     NLQ.error := None;
     NLQ.queryHistory := [] |}.

(** The analysis call is rejected without a response body. *)
Definition networkError {D : Type} : Api.Settled D :=
  Api.Rejected None "Network Error".

(** The role-analysis page of the general role with an uploaded file. *)
Definition demoPage : RoleAnalysis.State :=
  {| RoleAnalysis.roleId := Some "general";
     RoleAnalysis.sessionId := Some "demo-session";
     RoleAnalysis.analysisResults := None;
     RoleAnalysis.error := None;
     RoleAnalysis.insights := [];
     RoleAnalysis.isProcessingInsight := false;
     RoleAnalysis.visualizationKey := 0%Z |}.

(** Three questions: one answered, one whose call is rejected, and one
    that asks for cleaning. *)
Definition demoQuestions
    : list (string * Z * Api.Settled (Api.Data Api.InsightResult)) :=
  [ ("What are the key trends in this data?", 1000%Z,
     Api.Resolved (Api.DataObject
       {| Api.summary := None; Api.insight := Some "Sales grow month over month.";
          Api.insightMessage := None; Api.insightError := None |}));
    ("Identify any outliers or anomalies", 2000%Z, networkError);
    ("Please fix the missing values", 3000%Z, networkError) ].

(** The upload step of the general role, with a two-row preview. *)
Definition demoUpload : FileUpload.Props :=
  {| FileUpload.preview :=
       Some [JObj [("id", JNum 1); ("revenue", JNum 100)];
             JObj [("id", JNum 2); ("revenue", JNum 250)]];
     FileUpload.sessionId := Some "demo-session";
     FileUpload.role := Some "general" |}.

Definition closedPreview : FileUpload.State :=
  {| FileUpload.fullData := [];
     FileUpload.showFullPreview := false;
     FileUpload.isLoadingFullData := false |}.

(** A server that would answer the full-preview call with three rows. *)
Definition threeRows : Api.Settled (Api.Data FileUpload.FullPreviewReply) :=
  Api.Resolved (Api.DataObject
    {| FileUpload.data := Some [JObj [("id", JNum 1)]; JObj [("id", JNum 2)];
                                JObj [("id", JNum 3)]];
       FileUpload.total_rows := Some 3%Z |}).

(** The role-analysis page of the finance role in session abc123. *)
Definition financePage : RoleAnalysis.State :=
  {| RoleAnalysis.roleId := Some "finance";
     RoleAnalysis.sessionId := Some "abc123";
     RoleAnalysis.analysisResults := None;
     RoleAnalysis.error := None;
     RoleAnalysis.insights := [];
     RoleAnalysis.isProcessingInsight := false;
     RoleAnalysis.visualizationKey := 0%Z |}.

(** The cleaning step with a five-row preview, after the user ticked
    "Remove Nulls" and then "Drop Duplicates". *)
Definition fiveRows : list Json :=
  [ JObj [("id", JNum 1)]; JObj [("id", JNum 2)]; JObj [("id", JNum 3)];
    JObj [("id", JNum 4)]; JObj [("id", JNum 5)] ].

Definition demoCleaningProps : DataCleaning.Props :=
  {| DataCleaning.sessionId := "demo-session";
     DataCleaning.role := "general";
     DataCleaning.preview := Some fiveRows |}.

Definition demoClicks : list string := ["remove-nulls"; "drop-duplicates"].

Definition demoCleaning : DataCleaning.State :=
  {| DataCleaning.selectedActions := DataCleaning.selectionAfter demoClicks;
     DataCleaning.isProcessing := false;
     DataCleaning.cleanedData := [];
     DataCleaning.originalData := fiveRows;
     DataCleaning.error := None;
     DataCleaning.validationResults := None;
     DataCleaning.aiRecommendations := [];
     DataCleaning.showAiRecommendations := false |}.

(** The reply of a clean call that left three rows. *)
Definition threeRowsLeft : DataCleaning.CleanResult :=
  {| DataCleaning.resultPreview := Some [JObj [("id", JNum 1)]; JObj [("id", JNum 2)];
                                         JObj [("id", JNum 3)]];
     DataCleaning.validation_results := None;
     DataCleaning.ai_recommendations := None;
     DataCleaning.rows := Some 3%Z |}.

(** The dataset of the spec's scenario: columns id, revenue, cost. *)
Definition scenarioDataset : Pipeline.TabularDataset :=
  {| Pipeline.columns := ["id"; "revenue"; "cost"];
     Pipeline.rows :=
       [ [Pipeline.Numeric 1; Pipeline.Numeric 100; Pipeline.Numeric 60];
         [Pipeline.Numeric 2; Pipeline.Null; Pipeline.Numeric 40];
         [Pipeline.Numeric 1; Pipeline.Numeric 100; Pipeline.Numeric 60] ] |}.

Definition scenarioSession : Pipeline.Session :=
  {| Pipeline.originalDataset := scenarioDataset;
     Pipeline.currentDataset := scenarioDataset;
     Pipeline.cleaningHistory := [] |}.

(** A server on which each of the transforms that [basicOperation] leaves
    open raises. *)
Definition raising (op : string) (d : Pipeline.TabularDataset)
    : option Pipeline.TabularDataset := None.

Definition demoOperations : string -> Pipeline.TabularDataset -> option Pipeline.TabularDataset :=
  Pipeline.basicOperation raising.

Definition scalarJson (v : Pipeline.Scalar) : Json :=
  match v with
  | Pipeline.Null => JNull
  | Pipeline.Numeric z => JNum z
  | Pipeline.Text t => JStr t
  | Pipeline.Boolean b => JBool b
  end.

(** The first five rows of a dataset as the objects of a preview. *)
Definition previewOf (d : Pipeline.TabularDataset) : list Json :=
  map (fun r => JObj (combine (Pipeline.columns d) (map scalarJson r)))
      (firstn 5 (Pipeline.rows d)).

(** The reply to a clean call that produced the dataset [d]: its preview
    and its number of rows. *)
Definition replyOf (d : Pipeline.TabularDataset) : DataCleaning.CleanResult :=
  {| DataCleaning.resultPreview := Some (previewOf d);
     DataCleaning.validation_results := None;
     DataCleaning.ai_recommendations := None;
     DataCleaning.rows := Some (Z.of_nat (List.length (Pipeline.rows d))) |}.

(** A body of the form [{ error: "..." }]: it has none of the properties
    that [handleApplySelected] reads. *)
Definition errorBody : DataCleaning.CleanResult :=
  {| DataCleaning.resultPreview := None;
     DataCleaning.validation_results := None;
     DataCleaning.ai_recommendations := None;
     DataCleaning.rows := None |}.

(** A web layer that reports a pipeline failure through the status of the
    response. *)
Definition byStatus (r : Pipeline.TabularDataset + string) : DataCleaning.FetchOutcome :=
  match r with
  | inl d => DataCleaning.FetchResponse true "OK" (inr (Api.DataObject (replyOf d)))
  | inr op =>
      DataCleaning.FetchResponse false "Internal Server Error"
        (inr (Api.DataObject errorBody))
  end.


(** The cleaning step of the general role on the scenario dataset. *)
Definition scenarioProps : DataCleaning.Props :=
  {| DataCleaning.sessionId := "demo-session";
     DataCleaning.role := "general";
     DataCleaning.preview := Some (previewOf scenarioDataset) |}.



(** A first clean call on the scenario with "Remove Nulls" and "Drop
    Duplicates", which leaves one row of three. *)
Definition firstClean : Pipeline.Session * DataCleaning.Outcome :=
  CleanCall.cleanCall demoOperations byStatus scenarioSession scenarioProps
    (CleaningStep.tick
       (CleaningStep.tick (CleaningStep.initialState scenarioProps) "remove-nulls")
       "drop-duplicates").

(** The component after that call, once the user has ticked "Data
    Validation". *)
Definition beforeSecondClean : DataCleaning.State :=
  CleaningStep.tick (DataCleaning.state (snd firstClean)) "data-validation".

(** Twenty rows, each occurring twice. *)
Definition twentyRows : Pipeline.TabularDataset :=
  {| Pipeline.columns := ["id"; "region"];
     Pipeline.rows :=
       map (fun i => [Pipeline.Numeric (Z.of_nat (Nat.modulo i 10)); Pipeline.Text "north"])
           (seq 0 20) |}.

Definition twentySession : Pipeline.Session :=
  {| Pipeline.originalDataset := twentyRows;
     Pipeline.currentDataset := twentyRows;
     Pipeline.cleaningHistory := [] |}.

(** The cleaning step on that dataset: the preview holds its first five
    rows. *)
Definition twentyProps : DataCleaning.Props :=
  {| DataCleaning.sessionId := "demo-session";
     DataCleaning.role := "general";
     DataCleaning.preview := Some (previewOf twentyRows) |}.

Definition beforeHalving : DataCleaning.State :=
  CleaningStep.tick (CleaningStep.initialState twentyProps) "drop-duplicates".

(** Six queries, each answered with a summary. *)
Definition sixQueries : list (string * Api.Settled (Api.Data Api.NlqResult)) :=
  map (fun q => (q, Api.Resolved (Api.DataObject
                      {| Api.type := Some "summary"; Api.message := None;
                         Api.data := None; Api.result := None |})))
    ["one"; "two"; "three"; "four"; "five"; "six"].

(** Four clicks on tasks of the finance page: two answered, two rejected. *)
Definition fourClicks : list (string * Api.Settled Json) :=
  [ ("forecasting", Api.Resolved (JObj [("forecast", JArr [])]));
    ("risk_heatmap", networkError);
    ("volatility", Api.Resolved JNull);
    ("roi_irr_npv", Api.Rejected (Some "Session not found") "Request failed") ].

(** A visit of the finance page: an upload, the preview loaded on entering
    the cleaning step and failing, a clean that leaves two rows, then the
    analysis and insight steps, a click back on step 2 and another try to
    jump forward. *)
Definition demoVisit : list Page.Event :=
  [ Page.ClickStep 3;
    Page.Upload "sales.csv" networkError;
    Page.AutoPreview networkError;
    Page.Continue [];
    Page.Continue [JObj [("id", JNum 1)]; JObj [("id", JNum 2)]];
    Page.ContinueToInsights;
    Page.BackToAnalysis;
    Page.ClickStep 2;
    Page.ClickStep 4 ].

(** A visit of the finance page in which the preview call started on the
    cleaning step settles, rejected, after the user has moved on to the
    analysis step with two cleaned rows. *)
Definition lateVisit : list Page.Moment :=
  [ Page.Happens (Page.Upload "sales.csv" networkError);
    Page.Happens (Page.AutoPreview networkError);
    Page.Happens (Page.Continue [JObj [("id", JNum 1)]; JObj [("id", JNum 2)]]);
    Page.PreviewSettles networkError ].

(** The data-quality panel of the finance role in a session. *)
Definition qualityProps : DataQuality.Props :=
  {| DataQuality.roleId := "finance";
     DataQuality.sessionId := Some "demo-session";
     DataQuality.hasOnAssessmentComplete := true |}.

(** The panel showing an earlier assessment. *)
Definition assessedBefore : DataQuality.State :=
  {| DataQuality.isLoading := false;
     DataQuality.assessment :=
       Some (Quality.assessQuality 3 (Quality.mkScores 90 100 100 70 100 100));
     DataQuality.error := None |}.

(** The finance page on its cleaning step. *)
Definition cleaningPage : Page.State :=
  Page.state (Page.handleFileUpload (Page.initialState (Some "finance")) "sales.csv"
                networkError).

End Samples.

(** * Properties *)

Open Scope list_scope.

(** ** The definitions on concrete inputs *)

Example trim_both_ends : JS.trim "  show  trends  " = "show  trends".
Proof. reflexivity. Qed.

Example trim_blank : JS.truthy (JS.trim "   ") = false.
Proof. reflexivity. Qed.

Example includes_is_case_sensitive :
  map (JS.includes "No suitable columns")
    ["No suitable columns found for trend analysis"; "no suitable columns"; ""]
  = [true; false; false].
Proof. reflexivity. Qed.

Example cleanIntent_whole_words :
  map RoleAnalysis.cleanIntent
    ["please clean it"; "Cleaning now"; "FIX this"; "prefix"; "Remove Errors!";
     "remove  errors"; "un-correct"; "incorrect"; "standardize_"; ""]
  = [true; false; true; false; true; false; true; false; false; false].
Proof. vm_compute. reflexivity. Qed.

Example toggle_twice_deselects :
  DataCleaning.selectionAfter ["remove-nulls"; "impute"; "remove-nulls"; "normalize"]
  = ["impute"; "normalize"].
Proof. vm_compute. reflexivity. Qed.

Example reduced_at_the_threshold :
  map (fun oc => DataCleaning.significantlyReduced (fst oc) (snd oc))
    [(5, 4); (5, 3); (10, 8); (10, 7); (0, 0)]%Z
  = [false; true; false; true; false].
Proof. vm_compute. reflexivity. Qed.

Example unknown_role_gets_general_tasks :
  RoleSpecificTasks.taskIds "business_analyst"
  = ["auto_eda"; "correlation"; "gpt_insights"; "auto_queries"].
Proof. vm_compute. reflexivity. Qed.

Example scenario_leaves_one_row
    (others : string -> Pipeline.TabularDataset -> option Pipeline.TabularDataset) :
  Pipeline.runPipeline (Pipeline.basicOperation others) ["remove_nulls"; "drop_duplicates"]
    Samples.scenarioDataset
  = inl {| Pipeline.columns := ["id"; "revenue"; "cost"];
           Pipeline.rows := [[Pipeline.Numeric 1; Pipeline.Numeric 100; Pipeline.Numeric 60]] |}.
Proof. reflexivity. Qed.

Example nlq_request_has_no_token :
  map Api.authorization
    (NLQ.requests (NLQ.handleSubmit Samples.demoProps Samples.demoQuery Samples.networkError))
  = [Some "Bearer undefined"].
Proof. vm_compute. reflexivity. Qed.

(** ** Helper lemmas on the JavaScript helpers *)

Lemma truthy_orElse (a : option string) (b : string) :
  JS.truthy b = true -> JS.truthy (JS.orElse a b) = true.
Proof.
  intros Hb. unfold JS.orElse.
  destruct a as [x|]; [|exact Hb].
  destruct (JS.truthy x) eqn:Hx; [exact Hx | exact Hb].
Qed.

Lemma orElse_truthy (x d : string) :
  JS.truthy x = true -> JS.orElse (Some x) d = x.
Proof. intros Hx. unfold JS.orElse. now rewrite Hx. Qed.

Lemma isErrorType_spec (r : Api.NlqResult) :
  NLQ.isErrorType r = true <-> Api.type r = Some "error".
Proof.
  unfold NLQ.isErrorType. destruct (Api.type r) as [t|]; [|split; discriminate].
  rewrite String.eqb_eq. split; [intros ->; reflexivity | intros [= ->]; reflexivity].
Qed.

(** ** Confidence of a natural-language answer *)

(** C2, counterexample: a query answered with an "insufficient data"
    message is delivered with confidence 40, which is none of 80, 30, 0. *)
Lemma confidence_forty_is_produced :
  NLQ.calculateConfidence Samples.insufficientTrend = 40%Z /\
  map NLQ.confidence
    (NLQ.completed
       (NLQ.handleSubmit Samples.demoProps Samples.demoQuery
          (Api.Resolved (Api.DataObject Samples.insufficientTrend)))) = [40%Z] /\
  ~ In (NLQ.calculateConfidence Samples.insufficientTrend) [80%Z; 30%Z; 0%Z].
Proof.
  assert (H : NLQ.calculateConfidence Samples.insufficientTrend = 40%Z) by (vm_compute; reflexivity).
  split; [exact H|]. split; [vm_compute; reflexivity|].
  rewrite H. cbn. intros [E|[E|[E|[]]]]; discriminate E.
Qed.

(** C2, amended: [calculateConfidence] yields 0 exactly when the result has
    type [error]; otherwise 30 when the message includes "No suitable
    columns", else 40 when it includes "insufficient data", else the base
    value 80; no other value is produced. *)
Theorem calculateConfidence_values (r : Api.NlqResult) :
  let c := NLQ.calculateConfidence r in
  let noColumns := NLQ.messageIncludes "No suitable columns" r in
  let insufficient := NLQ.messageIncludes "insufficient data" r in
  (c = 0%Z <-> Api.type r = Some "error") /\
  (c = 30%Z <-> NLQ.isErrorType r = false /\ noColumns = true) /\
  (c = 40%Z <-> NLQ.isErrorType r = false /\ noColumns = false /\ insufficient = true) /\
  (c = 80%Z <-> NLQ.isErrorType r = false /\ noColumns = false /\ insufficient = false) /\
  In c [0%Z; 30%Z; 40%Z; 80%Z].
Proof.
  cbv zeta. rewrite <- isErrorType_spec. unfold NLQ.calculateConfidence.
  destruct (NLQ.isErrorType r);
    destruct (NLQ.messageIncludes "No suitable columns" r);
    destruct (NLQ.messageIncludes "insufficient data" r);
    cbn; intuition (try discriminate; try lia; auto).
Qed.

(** ** Failure of a natural-language query *)

(** [naturalLanguageQuery] turns a rejected call into an object of type
    [error] with a non-empty message. *)
Lemma naturalLanguageQuery_rejected (detail : option string) (msg : string) :
  exists r,
    Api.naturalLanguageQuery (Api.Rejected detail msg) = Api.DataObject r /\
    Api.type r = Some "error" /\
    Api.message r = Some (JS.orElse detail "Failed to process natural language query.") /\
    NLQ.isErrorType r = true.
Proof. eexists. repeat split. Qed.

(** C3, counterexample: when the analysis call is rejected, no
    [NLQResponse] exists afterwards, neither in the [response] state, nor in
    the history, nor handed to [onQueryComplete]; only the error message is
    set. *)
Lemma failed_query_yields_no_response :
  let out := NLQ.handleSubmit Samples.demoProps Samples.demoQuery Samples.networkError in
  NLQ.completed out = [] /\
  NLQ.response (NLQ.state out) = None /\
  NLQ.queryHistory (NLQ.state out) = [] /\
  NLQ.error (NLQ.state out) = Some "Failed to process natural language query." /\
  ~ (exists r, (In r (NLQ.completed out) \/ NLQ.response (NLQ.state out) = Some r) /\
               NLQ.intent r = "error" /\ NLQ.confidence r = 0%Z).
Proof.
  cbv zeta. repeat split; try (vm_compute; reflexivity).
  intros [r [[H|H] _]]; vm_compute in H; [contradiction | discriminate].
Qed.

(** C3, amended: a natural-language query whose analysis call fails is
    reported by [apiService.naturalLanguageQuery] as a returned object of
    type [error], not as an exception, and [handleSubmit] surfaces it as the
    error message of the component (the server's detail, or the default
    text); no [NLQResponse] is built: the [response] state and the history
    keep their values and [onQueryComplete] is not invoked. *)
Theorem failed_query_sets_error (p : NLQ.Props) (s : NLQ.State) (sid : string)
    (detail : option string) (msg : string) :
  NLQ.sessionId p = Some sid ->
  JS.truthy sid = true ->
  JS.truthy (JS.trim (NLQ.queryText s)) = true ->
  let out := NLQ.handleSubmit p s (Api.Rejected detail msg) in
  (exists r, Api.naturalLanguageQuery (Api.Rejected detail msg) = Api.DataObject r /\
             Api.type r = Some "error" /\
             Api.message r
             = Some (JS.orElse detail "Failed to process natural language query.")) /\
  NLQ.error (NLQ.state out) =
    Some (JS.orElse detail "Failed to process natural language query.") /\
  NLQ.response (NLQ.state out) = NLQ.response s /\
  NLQ.queryHistory (NLQ.state out) = NLQ.queryHistory s /\
  NLQ.completed out = [] /\
  NLQ.isLoading (NLQ.state out) = false /\
  length (NLQ.requests out) = 1%nat.
Proof.
  intros Hsid Htruthy Hquery. cbv zeta.
  split.
  { destruct (naturalLanguageQuery_rejected detail msg) as (r & Hr & Ht & Hm & _).
    exists r. repeat split; assumption. }
  unfold NLQ.handleSubmit.
  rewrite Hsid, Htruthy, Hquery. cbn [negb orb].
  cbn [Api.naturalLanguageQuery NLQ.isErrorType Api.type String.eqb Ascii.eqb Bool.eqb].
  cbn [Api.message NLQ.state NLQ.completed NLQ.requests NLQ.failed NLQ.error
       NLQ.response NLQ.queryHistory NLQ.isLoading length].
  rewrite orElse_truthy by (apply truthy_orElse; reflexivity).
  repeat split.
Qed.

(** Witness: the sample query, rejected. *)
Lemma failed_query_sets_error_witness :
  NLQ.error (NLQ.state (NLQ.handleSubmit Samples.demoProps Samples.demoQuery
                          (Api.Rejected (Some "Session expired") "Request failed")))
  = Some "Session expired".
Proof.
  exact (proj1 (proj2 (failed_query_sets_error Samples.demoProps Samples.demoQuery
                         "demo-session" (Some "Session expired") "Request failed"
                         eq_refl eq_refl eq_refl))).
Defined.

(** ** The insight log and the query history *)

Lemma appendInsight_insights (s : RoleAnalysis.State) (e : RoleAnalysis.Insight)
    (err : option string) :
  RoleAnalysis.insights (RoleAnalysis.appendInsight s e err) = RoleAnalysis.insights s ++ [e] /\
  RoleAnalysis.roleId (RoleAnalysis.appendInsight s e err) = RoleAnalysis.roleId s /\
  RoleAnalysis.sessionId (RoleAnalysis.appendInsight s e err) = RoleAnalysis.sessionId s.
Proof. repeat split. Qed.

Lemma recordReply_insights (s : RoleAnalysis.State) (q : string) (now : Z)
    (reply : Api.Data Api.InsightResult) (property : string)
    (read : Api.InsightResult -> option string) (fallback : string) :
  let s' := RoleAnalysis.recordReply s q now reply property read fallback in
  (exists text, RoleAnalysis.insights s' =
                RoleAnalysis.insights s ++ [RoleAnalysis.mkInsight q text now]) /\
  RoleAnalysis.roleId s' = RoleAnalysis.roleId s /\
  RoleAnalysis.sessionId s' = RoleAnalysis.sessionId s.
Proof.
  cbv zeta. destruct reply as [| |r]; cbn; repeat split; eexists; reflexivity.
Qed.

(** One question asked while the guard passes adds exactly one entry, at the
    end, and leaves the guard as it was. *)
Lemma handleAIInsight_appends (s : RoleAnalysis.State) (q : string) (now : Z)
    (net : Api.Settled (Api.Data Api.InsightResult)) :
  RoleAnalysis.guard s <> None ->
  let s' := RoleAnalysis.state (RoleAnalysis.handleAIInsight s q now net) in
  (exists text, RoleAnalysis.insights s' =
                RoleAnalysis.insights s ++ [RoleAnalysis.mkInsight q text now]) /\
  RoleAnalysis.guard s' = RoleAnalysis.guard s.
Proof.
  intros Hguard. cbv zeta. unfold RoleAnalysis.handleAIInsight.
  destruct (RoleAnalysis.guard s) as [[sid role]|] eqn:Hg; [|congruence].
  assert (Hkeep : forall s', RoleAnalysis.roleId s' = RoleAnalysis.roleId s ->
                             RoleAnalysis.sessionId s' = RoleAnalysis.sessionId s ->
                             RoleAnalysis.guard s' = Some (sid, role)).
  { intros s' Hr Hs. unfold RoleAnalysis.guard in *. now rewrite Hr, Hs. }
  destruct (RoleAnalysis.cleanIntent q).
  - destruct (Api.invoke "aiClean" net) as [err|[reply|detail msg]]; cbn [RoleAnalysis.state].
    + split; [eexists; reflexivity | now apply Hkeep].
    + destruct (recordReply_insights s q now reply "summary" Api.summary
                  "Data cleaned successfully.") as (Hi & Hr & Hs).
      split; [exact Hi | now apply Hkeep].
    + split; [eexists; reflexivity | now apply Hkeep].
  - cbn [RoleAnalysis.state].
    destruct (recordReply_insights s q now (Api.getAIInsight net) "insight" Api.insight
                "Analysis completed successfully.") as (Hi & Hr & Hs).
    split; [exact Hi | now apply Hkeep].
Qed.

(** The questions and clock readings of a series of calls. *)
Lemma askAll_log (calls : list (string * Z * Api.Settled (Api.Data Api.InsightResult))) :
  forall s : RoleAnalysis.State,
  RoleAnalysis.guard s <> None ->
  map (fun e => (RoleAnalysis.question e, RoleAnalysis.timestamp e))
      (RoleAnalysis.insights (RoleAnalysis.askAll s calls))
  = map (fun e => (RoleAnalysis.question e, RoleAnalysis.timestamp e))
        (RoleAnalysis.insights s) ++ map fst calls.
Proof.
  induction calls as [|[[q now] net] rest IH]; intros s Hguard; cbn [RoleAnalysis.askAll map].
  - now rewrite app_nil_r.
  - destruct (handleAIInsight_appends s q now net Hguard) as [[text Hi] Hg].
    rewrite IH by (rewrite Hg; exact Hguard).
    rewrite Hi, map_app, <- app_assoc. reflexivity.
Qed.

(** C4, counterexample: a natural-language query whose call fails adds
    nothing: after one call the history still has no entry. *)
Lemma failed_query_is_not_logged :
  length (NLQ.queryHistory
            (NLQ.submitAll Samples.demoProps NLQ.initialState
               [("What are the main trends?", Samples.networkError)])) = 0%nat /\
  length (NLQ.queryHistory
            (NLQ.submitAll Samples.demoProps NLQ.initialState
               [("What are the main trends?", Samples.networkError)])) <> 1%nat.
Proof. split; [vm_compute; reflexivity | vm_compute; discriminate]. Qed.

(** C4, amended: every question passed to [handleAIInsight] while a session
    id and a role are present, whether its call succeeds or fails, appends
    one entry to the insight log, so that after n such calls the log holds n
    more entries, in call order with their questions and clock readings.
    The query history of the natural-language component is different: a
    query whose call is rejected or whose result has type "error" leaves it
    unchanged, and an answered query (session present, query not blank,
    result not of type "error") is put in front of at most four earlier
    ones, so the history never holds more than five. *)
Theorem insight_log_grows_by_one_per_call (s : RoleAnalysis.State)
    (calls : list (string * Z * Api.Settled (Api.Data Api.InsightResult)))
    (p : NLQ.Props) (h : NLQ.State) (detail : option string) (msg : string)
    (r : Api.NlqResult) :
  RoleAnalysis.guard s <> None ->
  let log := RoleAnalysis.insights (RoleAnalysis.askAll s calls) in
  map (fun e => (RoleAnalysis.question e, RoleAnalysis.timestamp e)) log
  = map (fun e => (RoleAnalysis.question e, RoleAnalysis.timestamp e))
        (RoleAnalysis.insights s) ++ map fst calls /\
  length log = (length (RoleAnalysis.insights s) + length calls)%nat /\
  NLQ.queryHistory (NLQ.state (NLQ.handleSubmit p h (Api.Rejected detail msg)))
  = NLQ.queryHistory h /\
  (NLQ.isErrorType r = true ->
   NLQ.queryHistory (NLQ.state (NLQ.handleSubmit p h (Api.Resolved (Api.DataObject r))))
   = NLQ.queryHistory h) /\
  (forall sid : string,
   NLQ.sessionId p = Some sid -> JS.truthy sid = true ->
   JS.truthy (JS.trim (NLQ.queryText h)) = true ->
   NLQ.isErrorType r = false ->
   NLQ.queryHistory (NLQ.state (NLQ.handleSubmit p h (Api.Resolved (Api.DataObject r))))
   = NLQ.toNLQResponse (NLQ.queryText h) r :: firstn 4 (NLQ.queryHistory h) /\
   (length (NLQ.queryHistory
              (NLQ.state (NLQ.handleSubmit p h (Api.Resolved (Api.DataObject r))))) <= 5)%nat).
Proof.
  intros Hguard. cbv zeta.
  pose proof (askAll_log calls s Hguard) as Hlog.
  split; [exact Hlog|]. split.
  { apply (f_equal (@length _)) in Hlog.
    rewrite length_app, !length_map in Hlog. exact Hlog. }
  split.
  { unfold NLQ.handleSubmit. destruct (NLQ.sessionId p) as [sid|]; [|reflexivity].
    destruct (negb _ || negb _); reflexivity. }
  split.
  { intros Herr. unfold NLQ.handleSubmit.
    destruct (NLQ.sessionId p) as [sid|]; [|reflexivity].
    destruct (negb _ || negb _); [reflexivity|].
    cbn [Api.naturalLanguageQuery]. rewrite Herr. reflexivity. }
  intros sid Hsid Htruthy Hquery Hok.
  assert (Hhist :
    NLQ.queryHistory (NLQ.state (NLQ.handleSubmit p h (Api.Resolved (Api.DataObject r))))
    = NLQ.toNLQResponse (NLQ.queryText h) r :: firstn 4 (NLQ.queryHistory h)).
  { unfold NLQ.handleSubmit. rewrite Hsid, Hquery, Htruthy.
    cbn [negb orb Api.naturalLanguageQuery]. rewrite Hok. reflexivity. }
  split; [exact Hhist|].
  rewrite Hhist. cbn [length].
  pose proof (firstn_le_length 4 (NLQ.queryHistory h)) as Hle. lia.
Qed.

(** Witness: three questions on the
    page of the general role give three entries in the order asked, and an
    answered query on an empty history is its only entry. *)
Lemma insight_log_grows_by_one_per_call_witness :
  map (fun e => (RoleAnalysis.question e, RoleAnalysis.timestamp e))
      (RoleAnalysis.insights (RoleAnalysis.askAll Samples.demoPage Samples.demoQuestions))
  = map fst Samples.demoQuestions /\
  NLQ.queryHistory
    (NLQ.state (NLQ.handleSubmit Samples.demoProps Samples.demoQuery
                  (Api.Resolved (Api.DataObject Samples.insufficientTrend))))
  = [NLQ.toNLQResponse (NLQ.queryText Samples.demoQuery) Samples.insufficientTrend].
Proof.
  assert (Hguard : RoleAnalysis.guard Samples.demoPage <> None)
    by (vm_compute; discriminate).
  pose proof (insight_log_grows_by_one_per_call Samples.demoPage Samples.demoQuestions
                Samples.demoProps Samples.demoQuery None "Network Error"
                Samples.insufficientTrend Hguard) as H.
  cbv zeta in H. destruct H as (Hlog & _ & _ & _ & Hanswered).
  split; [exact Hlog|].
  exact (proj1 (Hanswered "demo-session" eq_refl eq_refl eq_refl eq_refl)).
Defined.

(** ** Tasks of a role *)

Lemma roleTasksMap_entries (key : string) (ts : list RoleSpecificTasks.Task) :
  RoleSpecificTasks.roleTasksMap !! key = Some ts ->
  length ts = 4%nat /\ NoDup (map RoleSpecificTasks.id ts).
Proof.
  unfold RoleSpecificTasks.roleTasksMap. intros H.
  apply elem_of_list_to_map_2 in H. apply list_elem_of_In in H. cbn in H.
  repeat (destruct H as [H|H];
          [injection H as _ <-; split;
           [reflexivity | apply (bool_decide_unpack _); vm_compute; exact I]|]).
  contradiction.
Qed.

(** C6: whatever the role id, the component offers exactly four tasks; every
    entry of [roleTasksMap] has four distinct task ids, there are eight
    entries, and the entry of the business-analyst role lists kpi,
    customer_segmentation, revenue_analysis and performance_metrics. *)
Theorem every_role_has_four_tasks :
  (forall roleId : string, length (RoleSpecificTasks.taskIds roleId) = 4%nat) /\
  map_Forall (fun _ ts => length ts = 4%nat /\ NoDup (map RoleSpecificTasks.id ts))
    RoleSpecificTasks.roleTasksMap /\
  size RoleSpecificTasks.roleTasksMap = 8%nat /\
  map RoleSpecificTasks.id <$> (RoleSpecificTasks.roleTasksMap !! "business-analyst")
  = Some ["kpi"; "customer_segmentation"; "revenue_analysis"; "performance_metrics"] /\
  RoleSpecificTasks.taskIds "business-analyst"
  = ["kpi"; "customer_segmentation"; "revenue_analysis"; "performance_metrics"].
Proof.
  split; [|split; [|split; [|split]]].
  - intros roleId. unfold RoleSpecificTasks.taskIds, RoleSpecificTasks.tasks.
    rewrite length_map.
    destruct (RoleSpecificTasks.roleTasksMap !! roleId) as [ts|] eqn:Hts.
    + exact (proj1 (roleTasksMap_entries roleId ts Hts)).
    + vm_compute. reflexivity.
  - intros key ts Hts. exact (roleTasksMap_entries key ts Hts).
  - vm_compute. reflexivity.
  - vm_compute. reflexivity.
  - vm_compute. reflexivity.
Qed.

(** ** The request of an analysis task *)

(** C9: when a session id and a role are present, [handleAnalysis] issues
    exactly one request; because the call site passes (backendRole, task,
    sessionId) to parameters declared as (sessionToken, analysisId, role),
    that request is a POST to /api/analyze/{sessionId}/analyze/{task} whose
    bearer token is the backend role name. *)
Theorem handleAnalysis_request (s : RoleAnalysis.State) (task : string)
    (net : Api.Settled JS.Json) (sid : string) (role : Roles.RoleData) :
  RoleAnalysis.sessionId s = Some sid ->
  JS.truthy sid = true ->
  Roles.findRole (RoleAnalysis.roleId s) = Some role ->
  RoleAnalysis.requests (RoleAnalysis.handleAnalysis s task net)
  = [ {| Api.method := "POST";
         Api.url := ("http://localhost:8000/api/analyze/" ++ sid ++ "/analyze/" ++ task)%string;
         Api.authorization := Some ("Bearer " ++ RoleAnalysis.backendRoleOf role)%string;
         Api.body := JS.JObj [] |} ] /\
  RoleAnalysis.requests (RoleAnalysis.handleAnalysis s task net)
  = [ Api.runAnalysisRequest (RoleAnalysis.backendRoleOf role) task sid ] /\
  In (RoleAnalysis.backendRoleOf role)
     [ "business_analyst"; "research"; "marketing"; "financial"; "predictive";
       "healthcare"; "ecommerce"; "general" ].
Proof.
  intros Hsid Htruthy Hrole.
  assert (Hguard : RoleAnalysis.guard s = Some (sid, role)).
  { unfold RoleAnalysis.guard. now rewrite Hsid, Hrole, Htruthy. }
  assert (Hreq : RoleAnalysis.requests (RoleAnalysis.handleAnalysis s task net)
                 = [ Api.runAnalysisRequest (RoleAnalysis.backendRoleOf role) task sid ]).
  { unfold RoleAnalysis.handleAnalysis. rewrite Hguard.
    destruct (Api.runAnalysis _ _ _ net); reflexivity. }
  split; [rewrite Hreq; reflexivity|]. split; [exact Hreq|].
  unfold Roles.findRole in Hrole. destruct (RoleAnalysis.roleId s) as [rid|]; [|discriminate].
  apply find_some in Hrole as [Hin _]. cbn in Hin.
  repeat (destruct Hin as [<-|Hin]; [vm_compute; tauto|]). contradiction.
Qed.

(** Witness: the forecasting task of the finance
    role in session abc123. *)
Lemma handleAnalysis_request_witness :
  RoleAnalysis.requests
    (RoleAnalysis.handleAnalysis Samples.financePage "forecasting" Samples.networkError)
  = [ {| Api.method := "POST";
         Api.url := "http://localhost:8000/api/analyze/abc123/analyze/forecasting";
         Api.authorization := Some "Bearer financial";
         Api.body := JS.JObj [] |} ].
Proof.
  exact (proj1 (handleAnalysis_request Samples.financePage "forecasting" Samples.networkError "abc123"
                  (Roles.mkRole "finance" "Financial Analysis"
                     "Financial modeling, risk assessment, forecasting"
                     "DollarSign" "from-yellow-500 to-yellow-600")
                  eq_refl eq_refl eq_refl)).
Defined.

(** ** The full preview *)

(** C10: with a session id and a role present, [apiService.fullPreviewData]
    is not a function, so every run of [handleFullPreview] ends in its catch
    branch: whatever the server would answer, the modal shows the preview
    the component already holds (or nothing when it holds none), the error
    alert is raised and the loading flag is cleared. *)
Theorem handleFullPreview_falls_back (p : FileUpload.Props) (s : FileUpload.State)
    (net : Api.Settled (Api.Data FileUpload.FullPreviewReply)) :
  JS.truthyOpt (FileUpload.sessionId p) = true ->
  JS.truthyOpt (FileUpload.role p) = true ->
  ("fullPreviewData" ∉ Api.apiService) /\
  Api.invoke "fullPreviewData" net = inl (Api.notAFunction "fullPreviewData") /\
  FileUpload.handleFullPreview p s net = FileUpload.fallBack p /\
  FileUpload.fullData (FileUpload.state (FileUpload.handleFullPreview p s net))
  = default [] (FileUpload.preview p) /\
  FileUpload.showFullPreview (FileUpload.state (FileUpload.handleFullPreview p s net)) = true /\
  FileUpload.isLoadingFullData (FileUpload.state (FileUpload.handleFullPreview p s net)) = false /\
  FileUpload.alerts (FileUpload.handleFullPreview p s net)
  = ["Error loading full preview data. Please try again."].
Proof.
  intros Hsid Hrole.
  assert (Hnot : "fullPreviewData" ∉ Api.apiService)
    by (apply (bool_decide_unpack _); vm_compute; exact I).
  assert (Hinv : Api.invoke "fullPreviewData" net = inl (Api.notAFunction "fullPreviewData")).
  { unfold Api.invoke. now rewrite bool_decide_eq_false_2. }
  assert (Hrun : FileUpload.handleFullPreview p s net = FileUpload.fallBack p).
  { unfold FileUpload.handleFullPreview. now rewrite Hsid, Hrole, Hinv. }
  rewrite Hrun. repeat split; assumption.
Qed.

(** Witness: a server ready to send three
    rows is never asked; the two preview rows are shown. *)
Lemma handleFullPreview_falls_back_witness :
  FileUpload.fullData
    (FileUpload.state
       (FileUpload.handleFullPreview Samples.demoUpload Samples.closedPreview Samples.threeRows))
  = default [] (FileUpload.preview Samples.demoUpload).
Proof.
  exact (proj1 (proj2 (proj2 (proj2
    (handleFullPreview_falls_back Samples.demoUpload Samples.closedPreview Samples.threeRows
       eq_refl eq_refl))))).
Defined.

(** ** The data-removal warning *)

Lemma significantlyReduced_spec (originalCount cleanedCount : Z) :
  DataCleaning.significantlyReduced originalCount cleanedCount = true
  <-> (5 * cleanedCount < 4 * originalCount)%Z.
Proof.
  unfold DataCleaning.significantlyReduced. rewrite negb_true_iff.
  rewrite <- not_true_iff_false, Qle_bool_iff.
  unfold Qle, Qmult, inject_Z. cbn [Qnum Qden]. lia.
Qed.

Lemma significantlyReduced_Qlt (originalCount cleanedCount : Z) :
  DataCleaning.significantlyReduced originalCount cleanedCount = true
  <-> (inject_Z cleanedCount < inject_Z originalCount * (8 # 10))%Q.
Proof.
  rewrite significantlyReduced_spec.
  unfold Qlt, Qmult, inject_Z. cbn [Qnum Qden]. lia.
Qed.

(** X26: after a clean call that returned a result, the warning is shown
    exactly when the row count of the reply ([result.rows || 0]) is less
    than 0.8 times [originalData.length] as rendered before the call, the
    length of the component's copy of the preview; otherwise no error is
    shown. *)
Theorem removal_warning_threshold (p : DataCleaning.Props) (s : DataCleaning.State)
    (statusText : string) (r : DataCleaning.CleanResult) :
  DataCleaning.operationsOf (DataCleaning.selectedActions s) <> [] ->
  let out := DataCleaning.handleApplySelected p s
               (DataCleaning.FetchResponse true statusText (inr (Api.DataObject r))) in
  let originalCount := Z.of_nat (length (DataCleaning.originalData s)) in
  let cleanedCount := default 0%Z (DataCleaning.rows r) in
  (DataCleaning.showsRemovalWarning (DataCleaning.state out) = true
   <-> (inject_Z cleanedCount < inject_Z originalCount * (8 # 10))%Q) /\
  (DataCleaning.showsRemovalWarning (DataCleaning.state out) = true
   <-> (100 * (originalCount - cleanedCount) > 20 * originalCount)%Z) /\
  DataCleaning.error (DataCleaning.state out)
  = (if (5 * cleanedCount <? 4 * originalCount)%Z
     then Some (DataCleaning.RemovalWarning originalCount cleanedCount)
     else None).
Proof.
  intros Hops. cbv zeta. unfold DataCleaning.handleApplySelected.
  destruct (DataCleaning.operationsOf (DataCleaning.selectedActions s)) as [|op more];
    [congruence|].
  cbn [DataCleaning.state]. unfold DataCleaning.showsRemovalWarning, DataCleaning.applyResult.
  cbn [DataCleaning.error DataCleaning.started].
  set (o := Z.of_nat (length (DataCleaning.originalData s))).
  set (c := default 0%Z (DataCleaning.rows r)).
  pose proof (significantlyReduced_spec o c) as Hz.
  pose proof (significantlyReduced_Qlt o c) as Hq.
  destruct (DataCleaning.significantlyReduced o c).
  - assert (Hlt : (5 * c < 4 * o)%Z) by (apply Hz; reflexivity).
    destruct (Z.ltb_spec (5 * c) (4 * o)) as [_|Hge]; [|lia].
    split; [split; [intros _; apply Hq; reflexivity | reflexivity]|].
    split; [split; [intros _; lia | reflexivity] | reflexivity].
  - assert (Hge : ~ (5 * c < 4 * o)%Z) by (intros Hlt; apply Hz in Hlt; discriminate Hlt).
    destruct (Z.ltb_spec (5 * c) (4 * o)) as [Hlt|_]; [contradiction|].
    split; [split; [discriminate | intros Hlt; apply Hq in Hlt; discriminate Hlt]|].
    split; [split; [discriminate | intros Hgt; exfalso; lia] | reflexivity].
Qed.

(** Witness: a preview of five rows and three rows reported, so the
    warning is shown. *)
Lemma removal_warning_threshold_witness :
  DataCleaning.error
    (DataCleaning.state
       (DataCleaning.handleApplySelected Samples.demoCleaningProps Samples.demoCleaning
          (DataCleaning.FetchResponse true "OK" (inr (Api.DataObject Samples.threeRowsLeft)))))
  = Some (DataCleaning.RemovalWarning 5 3).
Proof.
  assert (Hops : DataCleaning.operationsOf (DataCleaning.selectedActions Samples.demoCleaning) <> [])
    by (vm_compute; discriminate).
  exact (proj2 (proj2 (removal_warning_threshold Samples.demoCleaningProps Samples.demoCleaning
                         "OK" Samples.threeRowsLeft Hops))).
Defined.

(** C8, at the failing inputs.  The count that the handler compares with
    is the length of its copy of the preview, not the number of rows the
    dataset had before the call.  On a dataset of twenty rows whose preview
    shows five, a call that removes half of the rows raises no warning; on
    the scenario dataset, after a first call has left one row of three, a
    second call that removes nothing raises the warning for two rows
    removed. *)
Theorem removal_warning_misses_the_rows_before_the_call :
  let halved := CleanCall.cleanCall Samples.demoOperations Samples.byStatus
                  Samples.twentySession Samples.twentyProps Samples.beforeHalving in
  let second := CleanCall.cleanCall Samples.demoOperations Samples.byStatus
                  (fst Samples.firstClean) Samples.scenarioProps Samples.beforeSecondClean in
  length (Pipeline.rows (Pipeline.currentDataset Samples.twentySession)) = 20%nat /\
  length (Pipeline.rows (Pipeline.currentDataset (fst halved))) = 10%nat /\
  length (DataCleaning.originalData Samples.beforeHalving) = 5%nat /\
  DataCleaning.requests (snd halved)
  = [DataCleaning.cleanRequest Samples.twentyProps ["drop_duplicates"]] /\
  DataCleaning.error (DataCleaning.state (snd halved)) = None /\
  length (Pipeline.rows (Pipeline.currentDataset (fst Samples.firstClean))) = 1%nat /\
  length (Pipeline.rows (Pipeline.currentDataset (fst second))) = 1%nat /\
  length (DataCleaning.originalData Samples.beforeSecondClean) = 3%nat /\
  DataCleaning.requests (snd second)
  = [DataCleaning.cleanRequest Samples.scenarioProps ["data_validation"]] /\
  DataCleaning.error (DataCleaning.state (snd second))
  = Some (DataCleaning.RemovalWarning 3 1).
Proof. cbv zeta. vm_compute. repeat split. Qed.

(** ** Atomicity of a clean call *)

(** A clean call that delivered no result ends in the catch block: apart
    from the error, the processing flag and the copy of the preview, the
    state is the one rendered before the call. *)
Lemma handleApplySelected_failed (p : DataCleaning.Props) (s : DataCleaning.State)
    (net : DataCleaning.FetchOutcome) :
  DataCleaning.operationsOf (DataCleaning.selectedActions s) <> [] ->
  DataCleaning.fetchFailed net = true ->
  exists msg,
    DataCleaning.state (DataCleaning.handleApplySelected p s net)
    = DataCleaning.stopWith (DataCleaning.started p s) (DataCleaning.Plain msg).
Proof.
  intros Hops Hfail. unfold DataCleaning.handleApplySelected.
  destruct (DataCleaning.operationsOf (DataCleaning.selectedActions s)) as [|op more];
    [congruence|].
  destruct net as [err|[|] statusText [err|[| |r]]]; cbn in Hfail; try discriminate;
    eexists; reflexivity.
Qed.


(** ** The operations of a clean call *)

(** Every value of [operationMap] is a supported operation. *)
Lemma operationMap_supported (x op : string) :
  DataCleaning.operationMap !! x = Some op ->
  op ∈ Pipeline.supportedOperations.
Proof.
  unfold DataCleaning.operationMap. intros H.
  apply elem_of_list_to_map_2 in H. apply list_elem_of_In in H. cbn in H.
  repeat (destruct H as [H|H];
          [injection H as _ <-; apply (bool_decide_unpack _); vm_compute; exact I|]).
  contradiction.
Qed.

(** Every action of the component has a non-empty operation name. *)
Lemma operationMap_action (x : string) :
  x ∈ DataCleaning.actionIds ->
  exists op, DataCleaning.operationMap !! x = Some op /\ JS.truthy op = true.
Proof.
  intros H. apply list_elem_of_In in H. cbn in H.
  repeat (destruct H as [<-|H]; [eexists; split; vm_compute; reflexivity|]).
  contradiction.
Qed.

Lemma operationsOf_cons (x : string) (rest : list string) :
  DataCleaning.operationsOf (x :: rest)
  = match DataCleaning.operationMap !! x with
    | Some op =>
        if JS.truthy op then op :: DataCleaning.operationsOf rest
        else DataCleaning.operationsOf rest
    | None => DataCleaning.operationsOf rest
    end.
Proof.
  unfold DataCleaning.operationsOf, DataCleaning.filterBoolean.
  cbn [map omap list_omap].
  destruct (DataCleaning.operationMap !! x) as [op|]; [|reflexivity].
  destruct (JS.truthy op); reflexivity.
Qed.

Lemma operationsOf_supported (sel : list string) :
  Forall (fun op => op ∈ Pipeline.supportedOperations) (DataCleaning.operationsOf sel).
Proof.
  induction sel as [|x rest IH]; [constructor|].
  rewrite operationsOf_cons.
  destruct (DataCleaning.operationMap !! x) as [op|] eqn:Hx; [|exact IH].
  destruct (JS.truthy op); [|exact IH].
  constructor; [exact (operationMap_supported x op Hx) | exact IH].
Qed.

(** No selected action is dropped and the order is kept. *)
Lemma operationsOf_actions (sel : list string) :
  Forall (fun x => x ∈ DataCleaning.actionIds) sel ->
  map Some (DataCleaning.operationsOf sel)
  = map (fun x => DataCleaning.operationMap !! x) sel.
Proof.
  induction 1 as [|x rest Hx _ IH]; [reflexivity|].
  rewrite operationsOf_cons.
  destruct (operationMap_action x Hx) as (op & Hop & Htruthy).
  cbn [map]. rewrite Hop, Htruthy. cbn [map]. now rewrite IH.
Qed.

Lemma selected_spec (prev : list string) (x : string) :
  DataCleaning.selected prev x = true <-> x ∈ prev.
Proof.
  unfold DataCleaning.selected. rewrite existsb_exists, list_elem_of_In. split.
  - intros (y & Hy & Heq). apply String.eqb_eq in Heq. now subst.
  - intros Hin. exists x. split; [exact Hin | apply String.eqb_refl].
Qed.

(** Toggling keeps the selection inside the set of actions. *)
Lemma toggleAction_actions (prev : list string) (x : string) :
  Forall (fun y => y ∈ DataCleaning.actionIds) prev ->
  x ∈ DataCleaning.actionIds ->
  Forall (fun y => y ∈ DataCleaning.actionIds) (DataCleaning.toggleAction prev x).
Proof.
  intros Hprev Hx. unfold DataCleaning.toggleAction.
  destruct (DataCleaning.selected prev x).
  - apply List.Forall_forall. intros y Hy. apply List.filter_In in Hy as [Hy _].
    exact (proj1 (List.Forall_forall _ _) Hprev y Hy).
  - apply Forall_app. split; [exact Hprev | now constructor].
Qed.

Lemma selection_actions (clicks : list string) :
  forall acc : list string,
  Forall (fun y => y ∈ DataCleaning.actionIds) acc ->
  Forall (fun y => y ∈ DataCleaning.actionIds) clicks ->
  Forall (fun y => y ∈ DataCleaning.actionIds) (fold_left DataCleaning.toggleAction clicks acc).
Proof.
  induction clicks as [|x rest IH]; intros acc Hacc Hclicks; cbn; [exact Hacc|].
  inversion Hclicks as [|? ? Hx Hrest]; subst.
  apply IH; [now apply toggleAction_actions | exact Hrest].
Qed.

(** Actions ticked once each are selected in the order of the clicks. *)
Lemma selection_in_click_order (clicks : list string) :
  forall acc : list string,
  NoDup (acc ++ clicks) ->
  fold_left DataCleaning.toggleAction clicks acc = acc ++ clicks.
Proof.
  induction clicks as [|x rest IH]; intros acc Hnodup; cbn; [now rewrite app_nil_r|].
  assert (Hfresh : DataCleaning.selected acc x = false).
  { apply not_true_iff_false. rewrite selected_spec. intros Hin.
    apply NoDup_app in Hnodup as (_ & Hdisj & _).
    apply (Hdisj x Hin). now left. }
  unfold DataCleaning.toggleAction at 2. rewrite Hfresh.
  rewrite IH; rewrite <- app_assoc; [reflexivity | exact Hnodup].
Qed.

(** Each operation of a successful pipeline run is applied to the output of
    the operations listed before it, and its output is the input of those
    listed after it. *)
Lemma runPipeline_in_order
    (applyOperation : string -> Pipeline.TabularDataset -> option Pipeline.TabularDataset)
    (before : list string) (op : string) (rest : list string) :
  forall d d' : Pipeline.TabularDataset,
  Pipeline.runPipeline applyOperation (before ++ op :: rest) d = inl d' ->
  exists d1 d2,
    Pipeline.runPipeline applyOperation before d = inl d1 /\
    applyOperation op d1 = Some d2 /\
    Pipeline.runPipeline applyOperation rest d2 = inl d'.
Proof.
  induction before as [|b before IH]; intros d d' H; cbn in H.
  - destruct (applyOperation op d) as [d2|] eqn:Hop; [|discriminate].
    exists d, d2. repeat split; assumption.
  - cbn. destruct (applyOperation b d) as [db|]; [|discriminate].
    exact (IH db d' H).
Qed.

(** C7: the selection built by ticking actions of the component yields one
    operation name per selected action, in the order of the selection, each
    of them one of the eight supported operations, each of which can be
    selected; the request of [handleApplySelected] carries that list under
    [operations]; actions ticked once each are carried in the order of the
    clicks; and the pipeline applies each carried operation to the output of
    the operations before it in the list. *)
Theorem clean_call_operations_in_order (clicks : list string)
    (p : DataCleaning.Props) (s : DataCleaning.State) (net : DataCleaning.FetchOutcome)
    (applyOperation : string -> Pipeline.TabularDataset -> option Pipeline.TabularDataset)
    (d d' : Pipeline.TabularDataset) :
  Forall (fun x => x ∈ DataCleaning.actionIds) clicks ->
  DataCleaning.selectedActions s = DataCleaning.selectionAfter clicks ->
  let operations := DataCleaning.operationsOf (DataCleaning.selectedActions s) in
  map Some operations
  = map (fun x => DataCleaning.operationMap !! x) (DataCleaning.selectedActions s) /\
  Forall (fun op => op ∈ Pipeline.supportedOperations) operations /\
  Forall (fun op => op ∈ DataCleaning.operationsOf DataCleaning.actionIds)
    Pipeline.supportedOperations /\
  (operations <> [] ->
   DataCleaning.requests (DataCleaning.handleApplySelected p s net)
   = [DataCleaning.cleanRequest p operations]) /\
  DataCleaning.carriedOperations (DataCleaning.cleanRequest p operations)
  = Some (map JS.JStr operations) /\
  (NoDup clicks -> DataCleaning.selectedActions s = clicks) /\
  (Pipeline.runPipeline applyOperation operations d = inl d' ->
   forall before op rest, operations = before ++ op :: rest ->
   exists d1 d2,
     Pipeline.runPipeline applyOperation before d = inl d1 /\
     applyOperation op d1 = Some d2 /\
     Pipeline.runPipeline applyOperation rest d2 = inl d').
Proof.
  intros Hclicks Hsel. cbv zeta.
  assert (Hactions : Forall (fun x => x ∈ DataCleaning.actionIds) (DataCleaning.selectedActions s)).
  { rewrite Hsel. apply selection_actions; [constructor | exact Hclicks]. }
  split; [exact (operationsOf_actions _ Hactions)|].
  split; [apply operationsOf_supported|].
  split; [apply (bool_decide_unpack _); vm_compute; exact I|].
  split.
  { intros Hne. unfold DataCleaning.handleApplySelected.
    destruct (DataCleaning.operationsOf (DataCleaning.selectedActions s)) as [|op more];
      [congruence|].
    destruct net as [err|[|] statusText [err|[| |r]]]; reflexivity. }
  split; [reflexivity|].
  split.
  { intros Hnodup. rewrite Hsel. unfold DataCleaning.selectionAfter.
    now rewrite selection_in_click_order. }
  intros Hrun before op rest Heq. rewrite Heq in Hrun.
  exact (runPipeline_in_order applyOperation before op rest d d' Hrun).
Qed.

(** Witness: "Remove Nulls" and then
    "Drop Duplicates" are carried as remove_nulls, drop_duplicates. *)
Lemma clean_call_operations_in_order_witness :
  map Some (DataCleaning.operationsOf (DataCleaning.selectedActions Samples.demoCleaning))
  = [Some "remove_nulls"; Some "drop_duplicates"].
Proof.
  assert (Hclicks : Forall (fun x => x ∈ DataCleaning.actionIds) Samples.demoClicks)
    by (apply (bool_decide_unpack _); vm_compute; exact I).
  exact (proj1 (clean_call_operations_in_order Samples.demoClicks Samples.demoCleaningProps
                  Samples.demoCleaning (DataCleaning.FetchRejected JS.NotAnError)
                  Samples.demoOperations Samples.scenarioDataset Samples.scenarioDataset
                  Hclicks eq_refl)).
Defined.

(** ** Overall score and grade *)

Lemma Qle_bool_false (x y : Q) : Qle_bool x y = false <-> (y < x)%Q.
Proof.
  rewrite <- not_true_iff_false, Qle_bool_iff. split.
  - apply Qnot_le_lt.
  - intros Hlt Hle. exact (Qlt_not_le _ _ Hlt Hle).
Qed.

(** The grade as a function of the score, threshold by threshold. *)
Lemma gradeOf_spec (x : Q) :
  (Quality.gradeOf x = "A" <-> (90 <= x)%Q) /\
  (Quality.gradeOf x = "B" <-> (80 <= x)%Q /\ (x < 90)%Q) /\
  (Quality.gradeOf x = "C" <-> (70 <= x)%Q /\ (x < 80)%Q) /\
  (Quality.gradeOf x = "D" <-> (60 <= x)%Q /\ (x < 70)%Q) /\
  (Quality.gradeOf x = "F" <-> (x < 60)%Q).
Proof.
  assert (H98 : (80 <= 90)%Q) by discriminate.
  assert (H87 : (70 <= 80)%Q) by discriminate.
  assert (H76 : (60 <= 70)%Q) by discriminate.
  unfold Quality.gradeOf.
  destruct (Qle_bool 90 x) eqn:H90;
    [apply Qle_bool_iff in H90 | apply Qle_bool_false in H90].
  { assert (H80 : (80 <= x)%Q) by (eapply Qle_trans; eassumption).
    assert (H70 : (70 <= x)%Q) by (eapply Qle_trans; eassumption).
    assert (H60 : (60 <= x)%Q) by (eapply Qle_trans; eassumption).
    settle_grade. }
  destruct (Qle_bool 80 x) eqn:H80;
    [apply Qle_bool_iff in H80 | apply Qle_bool_false in H80].
  { assert (H70 : (70 <= x)%Q) by (eapply Qle_trans; eassumption).
    assert (H60 : (60 <= x)%Q) by (eapply Qle_trans; eassumption).
    settle_grade. }
  destruct (Qle_bool 70 x) eqn:H70;
    [apply Qle_bool_iff in H70 | apply Qle_bool_false in H70].
  { assert (H60 : (60 <= x)%Q) by (eapply Qle_trans; eassumption).
    settle_grade. }
  destruct (Qle_bool 60 x) eqn:H60;
    [apply Qle_bool_iff in H60 | apply Qle_bool_false in H60];
    settle_grade.
Qed.

(** C5, counterexample: the assessment of an empty dataset without a
    datetime column has timeliness 100 and overall score 0, which is not the
    mean of its six dimension scores; no choice of the other five scores in
    0..100 makes it the mean. *)
Lemma empty_dataset_score_is_not_the_mean :
  let a := Quality.assessQuality 0 (Quality.mkScores 0 0 0 0 0 100) in
  let dims := Quality.quality_scores a in
  (Quality.timeliness dims == 100)%Q /\
  (Quality.overall_score a == 0)%Q /\
  ~ (Quality.overall_score a
     == (Quality.completeness dims + Quality.consistency dims + Quality.accuracy dims
         + Quality.uniqueness dims + Quality.validity dims + Quality.timeliness dims) / 6)%Q /\
  (forall c1 c2 c3 c4 c5 : Q,
   (0 <= c1)%Q -> (0 <= c2)%Q -> (0 <= c3)%Q -> (0 <= c4)%Q -> (0 <= c5)%Q ->
   ~ (Quality.overall_score (Quality.assessQuality 0 (Quality.mkScores c1 c2 c3 c4 c5 100))
      == Quality.overallScore (Quality.mkScores c1 c2 c3 c4 c5 100))%Q).
Proof.
  cbv zeta. split; [reflexivity|]. split; [reflexivity|]. split; [discriminate|].
  intros c1 c2 c3 c4 c5 H1 H2 H3 H4 H5.
  unfold Quality.assessQuality, Quality.overallScore.
  cbn [Z.eqb Quality.overall_score Quality.completeness Quality.consistency
       Quality.accuracy Quality.uniqueness Quality.validity Quality.timeliness].
  intros Heq.
  assert (Hsum : (0 + 0 + 0 + 0 + 0 + 100 <= c1 + c2 + c3 + c4 + c5 + 100)%Q).
  { repeat apply Qplus_le_compat; try assumption. apply Qle_refl. }
  assert (Hpos : (0 < (c1 + c2 + c3 + c4 + c5 + 100) / 6)%Q).
  { apply Qlt_shift_div_l; [reflexivity|].
    eapply Qlt_le_trans; [|exact Hsum]. reflexivity. }
  rewrite <- Heq in Hpos. exact (Qlt_irrefl 0 Hpos).
Qed.

(** C5, amended: in every assessment of a dataset with at least one row the
    overall score is the arithmetic mean of the six dimension scores listed
    in [QUALITY_METRICS]; for an empty dataset it is 0, whatever the
    dimension scores; in every assessment the grade is A from 90, B from 80,
    C from 70, D from 60 and F below. *)
Theorem overall_score_is_mean_and_grade_by_threshold (rowCount : Z)
    (q : Quality.QualityScores) :
  let a := Quality.assessQuality rowCount q in
  let dims := Quality.quality_scores a in
  let x := Quality.overall_score a in
  dims = q /\
  (rowCount <> 0%Z ->
   (x == (Quality.completeness dims + Quality.consistency dims + Quality.accuracy dims
          + Quality.uniqueness dims + Quality.validity dims + Quality.timeliness dims) / 6)%Q) /\
  (rowCount = 0%Z -> (x == 0)%Q) /\
  map (fun key => Quality.scoreOf key dims) Quality.QUALITY_METRICS
  = [ Some (Quality.completeness dims); Some (Quality.consistency dims);
      Some (Quality.accuracy dims); Some (Quality.uniqueness dims);
      Some (Quality.validity dims); Some (Quality.timeliness dims) ] /\
  (Quality.grade a = "A" <-> (90 <= x)%Q) /\
  (Quality.grade a = "B" <-> (80 <= x)%Q /\ (x < 90)%Q) /\
  (Quality.grade a = "C" <-> (70 <= x)%Q /\ (x < 80)%Q) /\
  (Quality.grade a = "D" <-> (60 <= x)%Q /\ (x < 70)%Q) /\
  (Quality.grade a = "F" <-> (x < 60)%Q).
Proof.
  cbv zeta.
  assert (Hgrade : Quality.grade (Quality.assessQuality rowCount q)
                   = Quality.gradeOf (Quality.overall_score (Quality.assessQuality rowCount q))).
  { unfold Quality.assessQuality. destruct (rowCount =? 0)%Z; reflexivity. }
  split; [unfold Quality.assessQuality; destruct (rowCount =? 0)%Z; reflexivity|].
  split.
  { intros Hrows. unfold Quality.assessQuality.
    destruct (Z.eqb_spec rowCount 0) as [Hzero|_]; [contradiction | reflexivity]. }
  split.
  { intros Hrows. unfold Quality.assessQuality.
    destruct (Z.eqb_spec rowCount 0) as [_|Hne]; [reflexivity | contradiction]. }
  split; [reflexivity|].
  rewrite Hgrade.
  exact (gradeOf_spec (Quality.overall_score (Quality.assessQuality rowCount q))).
Qed.

(** The scenario of the spec before cleaning: three rows, completeness
    88.9, uniqueness 66.7 and the other dimensions at 100 give the mean
    92.6 and grade A. *)
Example scenario_assessment_grade :
  let a := Quality.assessQuality 3 (Quality.mkScores (889 # 10) 100 100 (667 # 10) 100 100) in
  (Quality.overall_score a == 5556 # 60)%Q /\ Quality.grade a = "A".
Proof. cbv zeta. split; reflexivity. Qed.

(** * Further properties of the components *)

(** ** The natural-language query form *)

Lemma handleSubmit_history (p : NLQ.Props) (s : NLQ.State)
    (net : Api.Settled (Api.Data Api.NlqResult)) :
  NLQ.queryHistory (NLQ.state (NLQ.handleSubmit p s net))
  = match NLQView.answerOf p (NLQ.queryText s) net with
    | Some r => r :: firstn 4 (NLQ.queryHistory s)
    | None => NLQ.queryHistory s
    end.
Proof.
  unfold NLQView.answerOf, NLQ.handleSubmit. cbn [NLQ.sessionId NLQ.queryText].
  destruct (NLQ.sessionId p) as [sid|]; [|reflexivity].
  destruct (negb _ || negb _); [reflexivity|].
  destruct (Api.naturalLanguageQuery net) as [| |r]; try reflexivity.
  destruct (NLQ.isErrorType r); reflexivity.
Qed.

Lemma firstn_5_cons {A : Type} (r : A) (l : list A) :
  r :: firstn 4 (firstn 5 l) = firstn 5 (r :: l).
Proof. cbn [firstn]. f_equal. rewrite firstn_firstn. reflexivity. Qed.

Lemma submitAll_history (p : NLQ.Props)
    (calls : list (string * Api.Settled (Api.Data Api.NlqResult))) :
  forall (s : NLQ.State) (older : list NLQ.NLQResponse),
  NLQ.queryHistory s = firstn 5 older ->
  NLQ.queryHistory (NLQ.submitAll p s calls)
  = firstn 5 (rev (NLQView.answersOf p calls) ++ older).
Proof.
  induction calls as [|[q net] rest IH]; intros s older Hs; cbn [NLQ.submitAll].
  - exact Hs.
  - unfold NLQView.answersOf. cbn [omap list_omap fst snd].
    fold (NLQView.answersOf p rest).
    destruct (NLQView.answerOf p q net) as [r|] eqn:Hr.
    + cbn [rev]. rewrite <- app_assoc. cbn [app]. apply IH.
      rewrite handleSubmit_history. cbn [NLQ.queryText NLQ.queryHistory].
      rewrite Hr, Hs. apply firstn_5_cons.
    + apply IH. rewrite handleSubmit_history. cbn [NLQ.queryText NLQ.queryHistory].
      rewrite Hr. exact Hs.
Qed.

(** X1: the list of recent queries holds the responses of the last five
    answered queries, newest first, in front of what it held before; blank,
    failed and refused queries leave no entry, and the list never grows
    beyond five entries, whatever is asked and however the calls settle. *)
Theorem recent_queries_are_the_last_five (p : NLQ.Props)
    (calls : list (string * Api.Settled (Api.Data Api.NlqResult))) (s : NLQ.State) :
  (length (NLQ.queryHistory s) <= 5)%nat ->
  NLQ.queryHistory (NLQ.submitAll p s calls)
  = firstn 5 (rev (NLQView.answersOf p calls) ++ NLQ.queryHistory s) /\
  (length (NLQ.queryHistory (NLQ.submitAll p s calls)) <= 5)%nat.
Proof.
  intros Hs.
  assert (H : NLQ.queryHistory (NLQ.submitAll p s calls)
              = firstn 5 (rev (NLQView.answersOf p calls) ++ NLQ.queryHistory s)).
  { apply submitAll_history. symmetry. apply firstn_all2. exact Hs. }
  split; [exact H|]. rewrite H, length_firstn. lia.
Qed.

(** Witness: of six answered queries the first one asked is dropped. *)
Lemma recent_queries_are_the_last_five_witness :
  map NLQ.query
    (NLQ.queryHistory (NLQ.submitAll Samples.demoProps NLQ.initialState Samples.sixQueries))
  = ["six"; "five"; "four"; "three"; "two"].
Proof.
  assert (Hs : (length (NLQ.queryHistory NLQ.initialState) <= 5)%nat) by (cbn; lia).
  exact (f_equal (map NLQ.query)
           (proj1 (recent_queries_are_the_last_five Samples.demoProps Samples.sixQueries
                     NLQ.initialState Hs))).
Defined.

(** X2: submitting sends a request exactly when the query is not blank and a
    session id is present; otherwise nothing at all happens. *)
Theorem query_is_sent_iff_not_blank (p : NLQ.Props) (s : NLQ.State)
    (net : Api.Settled (Api.Data Api.NlqResult)) :
  let out := NLQ.handleSubmit p s net in
  let ready := JS.truthy (JS.trim (NLQ.queryText s)) && JS.truthyOpt (NLQ.sessionId p) in
  length (NLQ.requests out) = (if ready then 1%nat else 0%nat) /\
  (if ready then NLQ.isLoading (NLQ.state out) = false
   else out = {| NLQ.state := s; NLQ.requests := []; NLQ.completed := [] |}).
Proof.
  cbv zeta. unfold NLQ.handleSubmit.
  destruct (NLQ.sessionId p) as [sid|]; cbn [JS.truthyOpt].
  - destruct (JS.truthy (JS.trim (NLQ.queryText s))); destruct (JS.truthy sid);
      cbn [negb orb andb]; try (split; reflexivity).
    destruct (Api.naturalLanguageQuery net) as [| |r]; try (split; reflexivity).
    destruct (NLQ.isErrorType r); split; reflexivity.
  - rewrite andb_false_r. split; reflexivity.
Qed.

(** X3: a request of the form never carries the session id: the caller
    passes it as [session_id] while [apiService] reads [sessionToken], so the
    token is always the text "undefined"; the body holds the trimmed query
    and the path the backend role name. *)
Theorem query_request_has_no_session_token (p : NLQ.Props) (s : NLQ.State)
    (net : Api.Settled (Api.Data Api.NlqResult)) :
  Forall (fun r =>
            Api.authorization r = Some "Bearer undefined" /\
            Api.method r = "POST" /\
            Api.body r = JS.JObj [("query", JS.JStr (JS.trim (NLQ.queryText s)))] /\
            Api.url r = ("http://localhost:8000/api/analyze/"
                         ++ JS.orElse (NLQ.roleMapping !! NLQ.roleId p) (NLQ.roleId p)
                         ++ "/nlq")%string)
    (NLQ.requests (NLQ.handleSubmit p s net)).
Proof.
  unfold NLQ.handleSubmit.
  destruct (NLQ.sessionId p) as [sid|]; [|constructor].
  destruct (negb _ || negb _); [constructor|].
  assert (Hreq : forall q role,
            Api.naturalLanguageQueryRequest role (list_to_map [("query", q); ("session_id", sid)])
            = {| Api.method := "POST";
                 Api.url := ("http://localhost:8000/api/analyze/" ++ role ++ "/nlq")%string;
                 Api.authorization := Some "Bearer undefined";
                 Api.body := JS.JObj [("query", JS.JStr q)] |}).
  { intros q role. unfold Api.naturalLanguageQueryRequest.
    replace (list_to_map [("query", q); ("session_id", sid)] !! "sessionToken")
      with (@None string) by (symmetry; apply not_elem_of_list_to_map_1; cbn;
          apply (bool_decide_unpack _); vm_compute; exact I).
    replace (list_to_map [("query", q); ("session_id", sid)] !! "query")
      with (Some q) by (symmetry; apply elem_of_list_to_map_1;
                        [cbn; apply (bool_decide_unpack _); vm_compute; exact I
                        | left]).
    reflexivity. }
  rewrite Hreq.
  destruct (Api.naturalLanguageQuery net) as [| |r];
    [| |destruct (NLQ.isErrorType r)]; cbn [NLQ.requests];
    (constructor; [repeat split | constructor]).
Qed.

(** Every template of [generateAnswerFromResult] is a non-empty text. *)
Lemma answer_template_not_empty (r : Api.NlqResult) :
  JS.truthyOpt (Api.message r) = false ->
  JS.truthy (NLQ.generateAnswerFromResult r) = true.
Proof.
  intros Hm. unfold NLQ.generateAnswerFromResult. rewrite Hm.
  destruct (Api.type r) as [t|]; [|reflexivity].
  repeat match goal with
         | |- context [match ?x with _ => _ end] => is_var x; destruct x; try reflexivity
         end.
Qed.

Lemma toNLQResponse_delivered (q : string) (r : Api.NlqResult) :
  NLQ.isErrorType r = false ->
  NLQView.delivered q (NLQ.toNLQResponse q r).
Proof.
  intros Herr. unfold NLQView.delivered, NLQ.toNLQResponse.
  cbn [NLQ.success NLQ.query NLQ.confidence NLQ.intent NLQ.answer NLQ.visualization].
  split; [reflexivity|]. split; [reflexivity|]. split.
  { unfold NLQ.calculateConfidence. rewrite Herr.
    destruct (NLQ.messageIncludes "No suitable columns" r); [cbn; tauto|].
    destruct (NLQ.messageIncludes "insufficient data" r); cbn; tauto. }
  split.
  { unfold NLQ.isErrorType in Herr. unfold JS.orElse.
    destruct (Api.type r) as [t|]; [|discriminate].
    destruct (JS.truthy t); [|discriminate].
    intros ->. discriminate Herr. }
  split.
  { apply truthy_orElse. reflexivity. }
  split; [|reflexivity].
  unfold JS.orElse. destruct (Api.message r) as [m|] eqn:Hm.
  - destruct (JS.truthy m) eqn:Ht; [exact Ht|].
    apply answer_template_not_empty. rewrite Hm. exact Ht.
  - apply answer_template_not_empty. rewrite Hm. reflexivity.
Qed.

(** X4: whatever the server answers, a response that the form shows or hands
    to [onQueryComplete] is marked successful, repeats the trimmed query,
    has a non-empty answer and intent, an intent other than "error", no
    visualization, and a confidence of 30, 40 or 80 (never 0). *)
Theorem shown_responses_are_well_formed (p : NLQ.Props) (s : NLQ.State)
    (net : Api.Settled (Api.Data Api.NlqResult)) :
  let out := NLQ.handleSubmit p s net in
  Forall (NLQView.delivered (NLQ.queryText s)) (NLQ.completed out) /\
  (NLQ.response (NLQ.state out) = NLQ.response s \/
   exists x, NLQ.response (NLQ.state out) = Some x /\
             head (NLQ.queryHistory (NLQ.state out)) = Some x /\
             NLQView.delivered (NLQ.queryText s) x).
Proof.
  cbv zeta. unfold NLQ.handleSubmit.
  destruct (NLQ.sessionId p) as [sid|]; [|split; [constructor | left; reflexivity]].
  destruct (negb _ || negb _); [split; [constructor | left; reflexivity]|].
  destruct (Api.naturalLanguageQuery net) as [| |r];
    try (split; [constructor | left; reflexivity]).
  destruct (NLQ.isErrorType r) eqn:Herr; [split; [constructor | left; reflexivity]|].
  pose proof (toNLQResponse_delivered (NLQ.queryText s) r Herr) as Hd.
  cbn [NLQ.completed NLQ.state NLQ.succeeded NLQ.response NLQ.queryHistory]. split.
  - destruct (NLQ.hasOnQueryComplete p); [constructor; [exact Hd | constructor] | constructor].
  - right. eexists. split; [reflexivity|]. split; [reflexivity | exact Hd].
Qed.

(** X5: the confidence of a result is never drawn in yellow: the colour is
    green exactly when the confidence is 80 and red otherwise, the values 30
    and 40 lying below the yellow band that starts at 60. *)
Theorem confidence_is_green_or_red (r : Api.NlqResult) :
  let colour := NLQView.getConfidenceColor (NLQ.calculateConfidence r) in
  (colour = "text-green-600" <-> NLQ.calculateConfidence r = 80%Z) /\
  (colour = "text-red-600" <-> NLQ.calculateConfidence r <> 80%Z) /\
  colour <> "text-yellow-600".
Proof.
  cbv zeta. unfold NLQ.calculateConfidence.
  destruct (NLQ.isErrorType r);
    [|destruct (NLQ.messageIncludes "No suitable columns" r);
      [|destruct (NLQ.messageIncludes "insufficient data" r)]];
    cbn; repeat split; intros; try discriminate; try reflexivity; try lia; try congruence.
Qed.

Lemma length_substring_0 (n : nat) :
  forall s : string, String.length (String.substring 0 n s) = Nat.min n (String.length s).
Proof.
  induction n as [|n IH]; intros [|c s]; cbn; try reflexivity.
  now rewrite IH.
Qed.

Lemma length_string_app (a b : string) :
  String.length (a ++ b)%string = (String.length a + String.length b)%nat.
Proof.
  induction a as [|c a IH]; [reflexivity|].
  change (String c a ++ b)%string with (String c (a ++ b)%string).
  cbn [String.length]. now rewrite IH.
Qed.

Lemma prefix_substring_app (n : nat) :
  forall s t : string, String.prefix (String.substring 0 n s) (String.substring 0 n s ++ t)%string = true.
Proof.
  induction n as [|n IH]; intros [|c s] t; try (destruct t; reflexivity).
  change (String.substring 0 (S n) (String c s)) with (String c (String.substring 0 n s)).
  change (String c (String.substring 0 n s) ++ t)%string
    with (String c (String.substring 0 n s ++ t)%string).
  cbn [String.prefix]. destruct (ascii_dec c c); [apply IH | congruence].
Qed.

Lemma prefix_refl (s : string) : String.prefix s s = true.
Proof.
  induction s as [|c s IH]; cbn [String.prefix]; [reflexivity|].
  destruct (ascii_dec c c); [exact IH | congruence].
Qed.

(** X6: the excerpt of an answer in the list of recent queries is the answer
    itself up to 100 characters; a longer answer is cut to its first 100
    characters followed by three dots, so an excerpt never exceeds 103
    characters. *)
Theorem excerpt_is_bounded (answer : string) :
  let long := (100 <? String.length answer)%nat in
  String.length (NLQView.excerpt answer)
  = (if long then 103%nat else String.length answer) /\
  (String.length (NLQView.excerpt answer) <= 103)%nat /\
  NLQView.excerpt answer
  = (if long then (String.substring 0 100 answer ++ "...")%string else answer) /\
  String.prefix (String.substring 0 100 answer) (NLQView.excerpt answer) = true.
Proof.
  cbv zeta. unfold NLQView.excerpt.
  destruct (Nat.ltb_spec 100 (String.length answer)) as [Hlong|Hshort]; cbv beta iota.
  - rewrite length_string_app, length_substring_0. cbn [String.length].
    repeat split; try lia. apply prefix_substring_app.
  - repeat split; try lia.
    assert (Hall : String.substring 0 100 answer = answer).
    { clear -Hshort. revert Hshort. generalize 100%nat as n. intros n. revert n.
      induction answer as [|c a IH]; intros [|n] H; cbn in *; try reflexivity; try lia.
      rewrite IH by lia. reflexivity. }
    rewrite Hall. apply prefix_refl.
Qed.

(** ** Questions and tasks on the role-analysis page *)

Lemma aiClean_is_missing {A : Type} (settles : A) :
  Api.invoke "aiClean" settles = inl (Api.notAFunction "aiClean").
Proof.
  unfold Api.invoke. rewrite bool_decide_eq_false_2; [reflexivity|].
  apply (bool_decide_unpack _). vm_compute. exact I.
Qed.

(** X7: a question that contains one of the cleaning words as a whole word
    never reaches the server: [apiService] has no [aiClean], so no request
    is made and both the log entry and the page error read
    "apiService.aiClean is not a function". *)
Theorem cleaning_questions_are_never_sent (s : RoleAnalysis.State) (q : string) (now : Z)
    (net : Api.Settled (Api.Data Api.InsightResult)) :
  RoleAnalysis.guard s <> None ->
  RoleAnalysis.cleanIntent q = true ->
  let out := RoleAnalysis.handleAIInsight s q now net in
  RoleAnalysis.requests out = [] /\
  RoleAnalysis.insights (RoleAnalysis.state out)
  = RoleAnalysis.insights s
    ++ [RoleAnalysis.mkInsight q "apiService.aiClean is not a function" now] /\
  RoleAnalysis.error (RoleAnalysis.state out) = Some "apiService.aiClean is not a function" /\
  RoleAnalysis.isProcessingInsight (RoleAnalysis.state out) = false.
Proof.
  intros Hguard Hclean. cbv zeta. unfold RoleAnalysis.handleAIInsight.
  destruct (RoleAnalysis.guard s) as [[sid role]|]; [|congruence].
  rewrite Hclean, aiClean_is_missing. repeat split.
Qed.

(** Witness: "Please fix the missing values" on the sample page. *)
Lemma cleaning_questions_are_never_sent_witness :
  RoleAnalysis.requests
    (RoleAnalysis.handleAIInsight Samples.demoPage "Please fix the missing values" 3000
       Samples.networkError) = [].
Proof.
  assert (Hguard : RoleAnalysis.guard Samples.demoPage <> None) by (vm_compute; discriminate).
  assert (Hclean : RoleAnalysis.cleanIntent "Please fix the missing values" = true)
    by (vm_compute; reflexivity).
  exact (proj1 (cleaning_questions_are_never_sent Samples.demoPage
                  "Please fix the missing values" 3000 Samples.networkError Hguard Hclean)).
Defined.

(** X8: when the request of any other question is rejected, the failure is
    not shown: the log gains the entry "Analysis completed successfully."
    and the page error keeps its value.  The request goes to the route of
    the role id as it is, not of the backend role name. *)
Theorem rejected_insight_is_logged_as_success (s : RoleAnalysis.State) (q : string)
    (now : Z) (detail : option string) (msg : string) (sid : string)
    (role : Roles.RoleData) :
  RoleAnalysis.guard s = Some (sid, role) ->
  RoleAnalysis.cleanIntent q = false ->
  let out := RoleAnalysis.handleAIInsight s q now (Api.Rejected detail msg) in
  RoleAnalysis.insights (RoleAnalysis.state out)
  = RoleAnalysis.insights s
    ++ [RoleAnalysis.mkInsight q "Analysis completed successfully." now] /\
  RoleAnalysis.error (RoleAnalysis.state out) = RoleAnalysis.error s /\
  RoleAnalysis.requests out
  = [ {| Api.method := "POST";
         Api.url := ("http://localhost:8000/api/analyze/" ++ Roles.id role
                     ++ "/ai-insight")%string;
         Api.authorization := Some ("Bearer " ++ sid)%string;
         Api.body := JS.JObj [("question", JS.JStr q)] |} ].
Proof.
  intros Hguard Hclean. cbv zeta. unfold RoleAnalysis.handleAIInsight.
  rewrite Hguard, Hclean. repeat split.
Qed.

(** Witness: a rejected question on the sample page. *)
Lemma rejected_insight_is_logged_as_success_witness :
  RoleAnalysis.error
    (RoleAnalysis.state
       (RoleAnalysis.handleAIInsight Samples.demoPage "Identify any outliers or anomalies"
          2000 (Api.Rejected None "Network Error")))
  = RoleAnalysis.error Samples.demoPage.
Proof.
  exact (proj1 (proj2 (rejected_insight_is_logged_as_success Samples.demoPage
                         "Identify any outliers or anomalies" 2000 None "Network Error"
                         "demo-session"
                         (Roles.mkRole "general" "General Analysis"
                            "Custom analysis for any data type"
                            "Database" "from-gray-500 to-gray-600")
                         eq_refl eq_refl))).
Defined.

(** X9: when the request of an analysis task is rejected without a detail,
    the error shown names the session id where a role is meant ("Failed to
    run {sessionId} analysis."), and neither the results nor the
    visualization key change. *)
Theorem rejected_analysis_names_the_session (s : RoleAnalysis.State) (task msg sid : string)
    (role : Roles.RoleData) :
  RoleAnalysis.guard s = Some (sid, role) ->
  let out := RoleAnalysis.handleAnalysis s task (Api.Rejected None msg) in
  RoleAnalysis.error (RoleAnalysis.state out)
  = Some ("Failed to run " ++ sid ++ " analysis.")%string /\
  RoleAnalysis.analysisResults (RoleAnalysis.state out) = RoleAnalysis.analysisResults s /\
  RoleAnalysis.visualizationKey (RoleAnalysis.state out) = RoleAnalysis.visualizationKey s /\
  RoleAnalysis.insights (RoleAnalysis.state out) = RoleAnalysis.insights s.
Proof.
  intros Hguard. cbv zeta. unfold RoleAnalysis.handleAnalysis. rewrite Hguard.
  cbn [Api.runAnalysis JS.orElse RoleAnalysis.state RoleAnalysis.error JS.messageOr].
  repeat split.
Qed.

(** Witness: a rejected forecasting task in session abc123. *)
Lemma rejected_analysis_names_the_session_witness :
  RoleAnalysis.error
    (RoleAnalysis.state
       (RoleAnalysis.handleAnalysis Samples.financePage "forecasting"
          (Api.Rejected None "Network Error")))
  = Some "Failed to run abc123 analysis.".
Proof.
  exact (proj1 (rejected_analysis_names_the_session Samples.financePage "forecasting"
                  "Network Error" "abc123"
                  (Roles.mkRole "finance" "Financial Analysis"
                     "Financial modeling, risk assessment, forecasting"
                     "DollarSign" "from-yellow-500 to-yellow-600")
                  eq_refl)).
Defined.

(** The number of answered requests among clicks on tasks. *)
Lemma handleAnalysis_step (s : RoleAnalysis.State) (task : string) (net : Api.Settled JS.Json) :
  RoleAnalysis.guard s <> None ->
  let s' := RoleAnalysis.state (RoleAnalysis.handleAnalysis s task net) in
  RoleAnalysis.guard s' = RoleAnalysis.guard s /\
  RoleAnalysis.visualizationKey s'
  = (RoleAnalysis.visualizationKey s
     + match net with Api.Resolved _ => 1 | Api.Rejected _ _ => 0 end)%Z.
Proof.
  intros Hguard. cbv zeta. unfold RoleAnalysis.handleAnalysis.
  destruct (RoleAnalysis.guard s) as [[sid role]|] eqn:Hg; [|congruence].
  destruct net as [res|detail msg]; cbn [Api.runAnalysis RoleAnalysis.state RoleAnalysis.visualizationKey].
  - split; [|reflexivity]. unfold RoleAnalysis.guard in *. exact Hg.
  - split; [|lia]. unfold RoleAnalysis.guard in *. exact Hg.
Qed.

(** X10: every task clicked while data is present ends up marked completed,
    whether its request was answered or rejected, because [handleAnalysis]
    catches every failure itself; the visualization key, in contrast, counts
    only the answered requests. *)
Theorem clicked_tasks_are_marked_completed
    (clicks : list (string * Api.Settled JS.Json))
    (page : RoleAnalysis.State) (s : TaskRunner.State) :
  RoleAnalysis.guard page <> None ->
  let after := TaskRunner.runTasks page s clicks in
  TaskRunner.completedTasks (snd after)
  = TaskRunner.completedTasks s ++ map fst clicks /\
  Forall (fun task => TaskRunner.getTaskStatus true (snd after) task = "completed")
    (map fst clicks) /\
  RoleAnalysis.visualizationKey (fst after)
  = (RoleAnalysis.visualizationKey page
     + Z.of_nat (length (List.filter
                           (fun c => match snd c with
                                     | Api.Resolved _ => true
                                     | Api.Rejected _ _ => false
                                     end) clicks)))%Z.
Proof.
  intros Hguard. cbv zeta.
  assert (Hmain : forall clicks page s,
            RoleAnalysis.guard page <> None ->
            TaskRunner.completedTasks (snd (TaskRunner.runTasks page s clicks))
            = TaskRunner.completedTasks s ++ map fst clicks /\
            RoleAnalysis.visualizationKey (fst (TaskRunner.runTasks page s clicks))
            = (RoleAnalysis.visualizationKey page
               + Z.of_nat (length (List.filter
                                     (fun c => match snd c with
                                               | Api.Resolved _ => true
                                               | Api.Rejected _ _ => false
                                               end) clicks)))%Z).
  { clear. induction clicks as [|[task net] rest IH]; intros page s Hguard.
    - cbn. rewrite app_nil_r. split; [reflexivity | lia].
    - cbn [TaskRunner.runTasks TaskRunner.runTask negb fst snd].
      destruct (handleAnalysis_step page task net Hguard) as [Hg Hkey].
      destruct (IH (RoleAnalysis.state (RoleAnalysis.handleAnalysis page task net))
                  (TaskRunner.handleRunTask true s task (inr tt))) as [Hc Hv].
      { rewrite Hg. exact Hguard. }
      rewrite Hc, Hv, Hkey. cbn [TaskRunner.handleRunTask negb TaskRunner.completedTasks map fst].
      rewrite <- app_assoc. split; [reflexivity|].
      cbn [List.filter snd]. destruct net; cbn [length]; lia. }
  destruct (Hmain clicks page s Hguard) as [Hc Hv].
  split; [exact Hc|]. split; [|exact Hv].
  apply List.Forall_forall. intros task Hin.
  unfold TaskRunner.getTaskStatus. cbn [negb]. rewrite Hc.
  replace (existsb (String.eqb task) (TaskRunner.completedTasks s ++ map fst clicks)) with true;
    [reflexivity|].
  symmetry. apply existsb_exists. exists task. split; [|apply String.eqb_refl].
  apply in_or_app. right. exact Hin.
Qed.

(** Witness: of four clicks on the finance page two are answered; all four
    tasks are completed and the key advances by two. *)
Lemma clicked_tasks_are_marked_completed_witness :
  TaskRunner.completedTasks
    (snd (TaskRunner.runTasks Samples.financePage TaskRunner.initialState Samples.fourClicks))
  = TaskRunner.completedTasks TaskRunner.initialState ++ map fst Samples.fourClicks.
Proof.
  assert (Hguard : RoleAnalysis.guard Samples.financePage <> None)
    by (vm_compute; discriminate).
  exact (proj1 (clicked_tasks_are_marked_completed Samples.fourClicks Samples.financePage
                  TaskRunner.initialState Hguard)).
Defined.

(** ** Upload, preview and steps *)

(** X11: for every role but the business analyst an upload contacts no
    server: whatever the network would do, no request is made, the session
    id becomes "demo-session", preview and columns are emptied and the page
    moves to step 2 without an error. *)
Theorem upload_of_other_roles_is_local (s : Page.State) (file : string)
    (net : Api.Settled (Api.Data Page.UploadReply)) (role : Roles.RoleData) :
  Roles.findRole (Page.roleId s) = Some role ->
  Roles.id role <> "business_analyst" ->
  let out := Page.handleFileUpload s file net in
  Page.requests out = [] /\
  Page.sessionId (Page.state out) = Some "demo-session" /\
  Page.uploadedFile (Page.state out) = Some file /\
  Page.preview (Page.state out) = Some [] /\
  Page.columns (Page.state out) = Some [] /\
  Page.currentStep (Page.state out) = 2%Z /\
  Page.error (Page.state out) = None /\
  Page.isUploading (Page.state out) = false.
Proof.
  intros Hrole Hother. cbv zeta. unfold Page.handleFileUpload. rewrite Hrole.
  destruct (String.eqb_spec (Roles.id role) "business_analyst") as [Heq|_]; [contradiction|].
  repeat split.
Qed.

(** Witness: an upload on the finance page while the network is down. *)
Lemma upload_of_other_roles_is_local_witness :
  Page.requests
    (Page.handleFileUpload (Page.initialState (Some "finance")) "sales.csv"
       Samples.networkError) = [].
Proof.
  assert (Hother : "finance" <> "business_analyst") by discriminate.
  exact (proj1 (upload_of_other_roles_is_local (Page.initialState (Some "finance"))
                  "sales.csv" Samples.networkError
                  (Roles.mkRole "finance" "Financial Analysis"
                     "Financial modeling, risk assessment, forecasting"
                     "DollarSign" "from-yellow-500 to-yellow-600")
                  eq_refl Hother)).
Defined.

Lemma handleFileUpload_step (s : Page.State) (file : string)
    (net : Api.Settled (Api.Data Page.UploadReply)) :
  let s' := Page.state (Page.handleFileUpload s file net) in
  Page.currentStep s' = Page.currentStep s \/
  (Page.currentStep s' = 2%Z /\ JS.truthyOpt (Page.sessionId s') = true).
Proof.
  cbv zeta. unfold Page.handleFileUpload.
  destruct (Roles.findRole (Page.roleId s)) as [role|]; [|left; reflexivity].
  assert (Hstored : forall sid err,
            JS.truthy sid = true ->
            Page.currentStep (Page.uploadStored s file sid err) = Page.currentStep s \/
            (Page.currentStep (Page.uploadStored s file sid err) = 2%Z /\
             JS.truthyOpt (Page.sessionId (Page.uploadStored s file sid err)) = true)).
  { intros sid err Hsid. unfold Page.uploadStored.
    destruct (JS.truthyOpt err); [left; reflexivity | right; split; [reflexivity | exact Hsid]]. }
  destruct (String.eqb (Roles.id role) "business_analyst"); [|apply Hstored; reflexivity].
  destruct (Page.businessAnalysisUpload net) as [err|[| |r]]; cbn [Page.state];
    try (left; reflexivity).
  - apply Hstored. reflexivity.
  - apply Hstored. apply truthy_orElse. reflexivity.
Qed.

Lemma handlePreview_step (s : Page.State) (net : Api.Settled (Api.Data Page.PreviewReply)) :
  let s' := Page.state (Page.handlePreview s net) in
  Page.currentStep s' = Page.currentStep s /\ Page.sessionId s' = Page.sessionId s.
Proof.
  cbv zeta. unfold Page.handlePreview.
  destruct (Page.sessionId s) as [sid|] eqn:Hsid; [|split; [reflexivity | exact Hsid]].
  destruct (Roles.findRole (Page.roleId s)) as [role|]; [|split; [reflexivity | exact Hsid]].
  destruct (JS.truthy sid); [|split; [reflexivity | exact Hsid]].
  destruct (Page.previewData net) as [| |r]; split; try reflexivity; exact Hsid.
Qed.

Lemma rendered_spec (s : Page.State) (n : Z) :
  Page.rendered s n = true ->
  Page.currentStep s = n /\ JS.truthyOpt (Page.sessionId s) = true.
Proof.
  unfold Page.rendered. intros H. apply andb_true_iff in H as [Hn Hs].
  apply Z.eqb_eq in Hn. split; assumption.
Qed.

(** Setting a step between 1 and 4 keeps the page steady when a session id
    is present or the step is 1. *)
Lemma steady_setCurrentStep (s : Page.State) (n : Z) :
  (1 <= n <= 4)%Z ->
  ((2 <= n)%Z -> JS.truthyOpt (Page.sessionId s) = true) ->
  Page.steady (Page.setCurrentStep s n).
Proof.
  intros Hn Hsid. unfold Page.steady.
  cbn [Page.setCurrentStep Page.currentStep Page.sessionId]. split; assumption.
Qed.

Lemma steady_lower (s : Page.State) (n : Z) :
  Page.steady s -> (1 <= n <= Page.currentStep s)%Z ->
  Page.steady (Page.setCurrentStep s n).
Proof.
  intros (Hrange & Hsession) Hn. apply steady_setCurrentStep; [lia|].
  intros Hge. apply Hsession. lia.
Qed.

Lemma steady_fire (s : Page.State) (e : Page.Event) :
  Page.steady s -> Page.steady (Page.fire s e).
Proof.
  intros Hst. pose proof Hst as (Hrange & Hsession).
  destruct e as [file net|net|net|step| | |cleanedData| | |]; cbn [Page.fire].
  - destruct (Z.eqb_spec (Page.currentStep s) 1) as [Hone|_]; [|exact Hst].
    destruct (handleFileUpload_step s file net) as [Hsame|[Htwo Hsid]];
      unfold Page.steady; [rewrite Hsame, Hone | rewrite Htwo];
      (split; [lia|]); intros Hge; try lia. exact Hsid.
  - destruct (Z.eqb_spec (Page.currentStep s) 1) as [Hone|_]; [|exact Hst].
    destruct (Page.uploadedFile s); [|exact Hst].
    destruct (handlePreview_step s net) as [Hstep Hsid].
    unfold Page.steady. rewrite Hstep, Hone. split; [lia|]. intros Hge; lia.
  - destruct ((Page.currentStep s =? 2)%Z && _) eqn:Hcond; [|exact Hst].
    destruct (handlePreview_step s net) as [Hstep Hsid].
    unfold Page.steady. rewrite Hstep, Hsid. split; assumption.
  - destruct (existsb (Z.eqb step) [1; 2; 3; 4]%Z) eqn:Hin; [|exact Hst].
    apply existsb_exists in Hin as (n & Hn & Heq). apply Z.eqb_eq in Heq. subst n.
    unfold Page.handleStepNavigation.
    destruct (Z.leb_spec step (Page.currentStep s)); [|exact Hst].
    apply steady_lower; [exact Hst|]. cbn in Hn. lia.
  - destruct (Page.rendered s 2) eqn:Hr; [|exact Hst].
    apply steady_setCurrentStep; [lia | intros; lia].
  - destruct (Page.rendered s 2 || Page.rendered s 3 || Page.rendered s 4) eqn:Hr;
      [|exact Hst].
    apply steady_setCurrentStep; [lia | intros; lia].
  - destruct (Page.rendered s 2 && _) eqn:Hcond; [|exact Hst].
    apply andb_true_iff in Hcond as [Hr _]. apply rendered_spec in Hr as [_ Hsid].
    unfold Page.steady. cbn [Page.cleaningComplete Page.currentStep Page.sessionId].
    split; [lia | intros _; exact Hsid].
  - destruct (Page.rendered s 3) eqn:Hr; [|exact Hst].
    apply rendered_spec in Hr as [_ Hsid].
    apply steady_setCurrentStep; [lia | intros _; exact Hsid].
  - destruct (Page.rendered s 3) eqn:Hr; [|exact Hst].
    apply rendered_spec in Hr as [_ Hsid].
    apply steady_setCurrentStep; [lia | intros _; exact Hsid].
  - destruct (Page.rendered s 4) eqn:Hr; [|exact Hst].
    apply rendered_spec in Hr as [_ Hsid].
    apply steady_setCurrentStep; [lia | intros _; exact Hsid].
Qed.

(** A preview call that settles touches neither the step nor the session
    id. *)
Lemma previewSettled_step (s : Page.State) (net : Api.Settled (Api.Data Page.PreviewReply)) :
  Page.currentStep (Page.previewSettled s net) = Page.currentStep s /\
  Page.sessionId (Page.previewSettled s net) = Page.sessionId s.
Proof.
  unfold Page.previewSettled. destruct (Page.previewData net) as [| |r]; split; reflexivity.
Qed.

(** When its guard passes, [handlePreview] run in one piece is the call
    followed by its settling. *)
Lemma handlePreview_settles (s : Page.State) (net : Api.Settled (Api.Data Page.PreviewReply)) :
  Page.previewCalled s = true ->
  Page.state (Page.handlePreview s net) = Page.previewSettled s net /\
  length (Page.requests (Page.handlePreview s net)) = 1%nat.
Proof.
  unfold Page.previewCalled, Page.handlePreview, Page.previewSettled.
  destruct (Page.sessionId s) as [sid|]; [|discriminate].
  destruct (Roles.findRole (Page.roleId s)) as [role|]; [|discriminate].
  intros Hsid. rewrite Hsid.
  destruct (Page.previewData net) as [| |r]; split; reflexivity.
Qed.

Lemma steady_advance (r : Page.Running) (m : Page.Moment) :
  Page.steady (Page.page r) -> Page.steady (Page.page (Page.advance r m)).
Proof.
  intros Hst. destruct m as [e|net]; cbn [Page.advance].
  - destruct (Page.stepsMounted (Page.page r)); [|exact Hst].
    assert (Hstart : Page.steady (Page.page (Page.startPreview r))).
    { unfold Page.startPreview. destruct (Page.previewCalled (Page.page r)); exact Hst. }
    destruct e as [file net|net|net|step| | |cleanedData| | |];
      try (cbn [Page.page]; apply steady_fire; exact Hst).
    + destruct (Page.currentStep (Page.page r) =? 1)%Z; [|exact Hst].
      destruct (Page.uploadedFile (Page.page r)); [exact Hstart | exact Hst].
    + destruct ((Page.currentStep (Page.page r) =? 2)%Z && _); [exact Hstart | exact Hst].
  - destruct (Page.pendingPreviews r) as [|n]; [exact Hst|].
    cbn [Page.page]. destruct (previewSettled_step (Page.page r) net) as [Hstep Hsid].
    unfold Page.steady in *. rewrite Hstep, Hsid. exact Hst.
Qed.

(** X13: however the user uploads, previews, cleans and moves between the
    steps, and at whatever later moment each preview call settles, the page
    stays on a step from 1 to 4 and a session id is present from step 2
    on. *)
Theorem page_stays_well_formed (roleId : option string) (moments : list Page.Moment) :
  Page.steady (Page.page (Page.runAsync roleId moments)).
Proof.
  unfold Page.runAsync.
  assert (Hinit : Page.steady
                    (Page.page {| Page.page := Page.initialState roleId;
                                  Page.pendingPreviews := 0 |})).
  { unfold Page.steady. cbn. split; [lia | intros; lia]. }
  revert Hinit.
  generalize ({| Page.page := Page.initialState roleId; Page.pendingPreviews := 0 |}) as r.
  induction moments as [|m rest IH]; intros r Hr; cbn [fold_left]; [exact Hr|].
  apply IH. apply steady_advance. exact Hr.
Qed.

(** The preview itself is not kept: a call started on the cleaning step
    that settles, rejected, once the user is on the analysis step leaves
    that step without a preview to read. *)
Example late_preview_reaches_the_analysis_step :
  let r := Page.runAsync (Some "finance") Samples.lateVisit in
  Page.currentStep (Page.page r) = 3%Z /\
  Page.preview (Page.page r) = None /\
  Page.hasData (Page.page r) = None.
Proof. cbv zeta. vm_compute. repeat split. Qed.

(** X14: a preview request that is rejected is not reported: the error of
    the page keeps its value while preview and columns become undefined, so
    that the data flag of the page can no longer be computed.  The request
    is a GET for the role id as it is, carrying the session id as token. *)
Theorem rejected_preview_clears_the_preview (s : Page.State) (detail : option string)
    (msg sid : string) (role : Roles.RoleData) :
  Page.sessionId s = Some sid ->
  JS.truthy sid = true ->
  Roles.findRole (Page.roleId s) = Some role ->
  let out := Page.handlePreview s (Api.Rejected detail msg) in
  Page.preview (Page.state out) = None /\
  Page.columns (Page.state out) = None /\
  Page.error (Page.state out) = Page.error s /\
  Page.hasData (Page.state out) = None /\
  Page.requests out
  = [ {| Api.method := "GET";
         Api.url := ("http://localhost:8000/api/analyze/" ++ Roles.id role ++ "/preview")%string;
         Api.authorization := Some ("Bearer " ++ sid)%string;
         Api.body := JS.JNull |} ].
Proof.
  intros Hsid Htruthy Hrole. cbv zeta. unfold Page.handlePreview.
  rewrite Hsid, Hrole, Htruthy. repeat split.
Qed.

(** Witness: the preview of the finance page after its local upload. *)
Lemma rejected_preview_clears_the_preview_witness :
  Page.preview
    (Page.state
       (Page.handlePreview
          (Page.state (Page.handleFileUpload (Page.initialState (Some "finance"))
                         "sales.csv" Samples.networkError))
          (Api.Rejected None "Network Error"))) = None.
Proof.
  exact (proj1 (rejected_preview_clears_the_preview
                  (Page.state (Page.handleFileUpload (Page.initialState (Some "finance"))
                                 "sales.csv" Samples.networkError))
                  None "Network Error" "demo-session"
                  (Roles.mkRole "finance" "Financial Analysis"
                     "Financial modeling, risk assessment, forecasting"
                     "DollarSign" "from-yellow-500 to-yellow-600")
                  eq_refl eq_refl eq_refl)).
Defined.

Example visit_ends_on_step_two :
  Page.currentStep (Page.run (Page.initialState (Some "finance")) Samples.demoVisit) = 2%Z /\
  Page.hasData (Page.run (Page.initialState (Some "finance")) Samples.demoVisit) = Some true.
Proof. vm_compute. split; reflexivity. Qed.

(** ** Selecting and applying cleaning actions *)

(** X15: ticking an action flips whether it is selected and leaves every
    other action as it was. *)
Theorem toggleAction_flips_one_action (prev : list string) (x y : string) :
  (x ∈ DataCleaning.toggleAction prev x <-> x ∉ prev) /\
  (y <> x -> (y ∈ DataCleaning.toggleAction prev x <-> y ∈ prev)).
Proof.
  unfold DataCleaning.toggleAction.
  destruct (DataCleaning.selected prev x) eqn:Hsel.
  - apply selected_spec in Hsel. split.
    + split; [|contradiction].
      intros Hin. apply list_elem_of_In, List.filter_In in Hin as [_ Hne].
      rewrite String.eqb_refl in Hne. discriminate.
    + intros Hne. rewrite !list_elem_of_In, List.filter_In. split; [tauto|].
      intros Hin. split; [exact Hin|].
      apply negb_true_iff, String.eqb_neq. exact Hne.
  - apply not_true_iff_false in Hsel. rewrite selected_spec in Hsel. split.
    + split; [intros _; exact Hsel|]. intros _. apply elem_of_app. right. now left.
    + intros Hne. rewrite elem_of_app, list_elem_of_singleton. tauto.
Qed.

Lemma toggleAction_NoDup (prev : list string) (x : string) :
  NoDup prev -> NoDup (DataCleaning.toggleAction prev x).
Proof.
  intros Hnd. unfold DataCleaning.toggleAction.
  destruct (DataCleaning.selected prev x) eqn:Hsel.
  - apply NoDup_ListNoDup, List.NoDup_filter, NoDup_ListNoDup. exact Hnd.
  - apply not_true_iff_false in Hsel. rewrite selected_spec in Hsel.
    apply NoDup_app. split; [exact Hnd|]. split; [|apply NoDup_singleton].
    intros y Hy Hin. apply list_elem_of_singleton in Hin. subst. contradiction.
Qed.

Lemma toggleAction_subset (prev : list string) (x y : string) :
  y ∈ DataCleaning.toggleAction prev x -> y ∈ prev \/ y = x.
Proof.
  unfold DataCleaning.toggleAction. destruct (DataCleaning.selected prev x).
  - intros Hin. apply list_elem_of_In, List.filter_In in Hin as [Hin _].
    left. apply list_elem_of_In. exact Hin.
  - rewrite elem_of_app, list_elem_of_singleton. tauto.
Qed.

Lemma fold_toggle_invariant (clicks : list string) :
  forall acc : list string,
  NoDup acc ->
  NoDup (fold_left DataCleaning.toggleAction clicks acc) /\
  Forall (fun y => y ∈ acc \/ y ∈ clicks) (fold_left DataCleaning.toggleAction clicks acc).
Proof.
  induction clicks as [|x rest IH]; intros acc Hnd; cbn [fold_left].
  - split; [exact Hnd|]. apply List.Forall_forall. intros y Hy. left.
    apply list_elem_of_In. exact Hy.
  - destruct (IH (DataCleaning.toggleAction acc x) (toggleAction_NoDup acc x Hnd))
      as [Hnd' Hall].
    split; [exact Hnd'|].
    eapply List.Forall_impl; [|exact Hall]. cbn beta. intros y [Hy|Hy].
    + destruct (toggleAction_subset acc x y Hy) as [Hacc| ->]; [left; exact Hacc|].
      right. now left.
    + right. now right.
Qed.

(** X16: whatever the series of clicks, no action is selected twice and
    every selected action was clicked, so a clean request never repeats an
    operation of the component. *)
Theorem selection_has_no_duplicates (clicks : list string) :
  NoDup (DataCleaning.selectionAfter clicks) /\
  Forall (fun y => y ∈ clicks) (DataCleaning.selectionAfter clicks) /\
  (length (DataCleaning.selectionAfter clicks) <= length clicks)%nat.
Proof.
  unfold DataCleaning.selectionAfter.
  destruct (fold_toggle_invariant clicks [] NoDup_nil_2) as [Hnd Hall].
  assert (Hsub : Forall (fun y => y ∈ clicks) (fold_left DataCleaning.toggleAction clicks [])).
  { eapply List.Forall_impl; [|exact Hall]. cbn beta. intros y [Hy|Hy]; [|exact Hy].
    apply elem_of_nil in Hy. contradiction. }
  split; [exact Hnd|]. split; [exact Hsub|].
  apply NoDup_ListNoDup in Hnd.
  apply (List.NoDup_incl_length Hnd). intros y Hy.
  apply list_elem_of_In. exact (proj1 (List.Forall_forall _ _) Hsub y Hy).
Qed.

Lemma handleApplySelected_requests (p : DataCleaning.Props) (s : DataCleaning.State)
    (net : DataCleaning.FetchOutcome) :
  DataCleaning.operationsOf (DataCleaning.selectedActions s) <> [] ->
  DataCleaning.requests (DataCleaning.handleApplySelected p s net)
  = [DataCleaning.cleanRequest p (DataCleaning.operationsOf (DataCleaning.selectedActions s))].
Proof.
  intros H. unfold DataCleaning.handleApplySelected.
  destruct (DataCleaning.operationsOf (DataCleaning.selectedActions s)) as [|op more];
    [congruence|].
  destruct net as [err|[|] st [err|[| |r]]]; reflexivity.
Qed.

Lemma handleApplySelected_answered (p : DataCleaning.Props) (s : DataCleaning.State)
    (statusText : string) (r : DataCleaning.CleanResult) :
  DataCleaning.operationsOf (DataCleaning.selectedActions s) <> [] ->
  DataCleaning.state
    (DataCleaning.handleApplySelected p s
       (DataCleaning.FetchResponse true statusText (inr (Api.DataObject r))))
  = DataCleaning.applyResult (DataCleaning.started p s)
      (Z.of_nat (length (DataCleaning.originalData s)))
      (DataCleaning.resultPreview r) (DataCleaning.validation_results r)
      (DataCleaning.ai_recommendations r) (DataCleaning.rows r).
Proof.
  intros H. unfold DataCleaning.handleApplySelected.
  destruct (DataCleaning.operationsOf (DataCleaning.selectedActions s)) as [|op more];
    [congruence | reflexivity].
Qed.

(** A selection made of actions of the component gives as many operations
    as it has actions. *)
Lemma operationsOf_length (sel : list string) :
  Forall (fun x => x ∈ DataCleaning.actionIds) sel ->
  length (DataCleaning.operationsOf sel) = length sel.
Proof.
  intros Hsel. pose proof (operationsOf_actions sel Hsel) as Hmap.
  apply (f_equal (@length _)) in Hmap. rewrite !length_map in Hmap. exact Hmap.
Qed.

(** An enabled button: no call is running and something is selected. *)
Lemma applyDisabled_false (c : DataCleaning.State) :
  CleaningStep.applyDisabled c = false
  <-> DataCleaning.isProcessing c = false /\ DataCleaning.selectedActions c <> [].
Proof.
  unfold CleaningStep.applyDisabled. rewrite orb_false_iff.
  destruct (DataCleaning.selectedActions c); cbn; split; intros [H1 H2];
    split; try assumption; try discriminate; congruence.
Qed.

(** X17: "Apply Selected" is disabled while nothing is selected.  A click
    on the enabled button sends one request.  After a call that returned a
    result the selection is empty, so the button is disabled and a further
    click changes nothing and sends nothing until an action is ticked
    again; after a failed call the selection is kept, the button stays
    enabled and a further click sends the same request.  A click reaches
    the handler only with a selection that yields operations, so the branch
    of the handler for an empty selection is not taken through the
    button. *)
Theorem apply_again_after_success_and_failure (p : DataCleaning.Props)
    (s : DataCleaning.State) (clicks : list string) (statusText : string)
    (r : DataCleaning.CleanResult) (failure next : DataCleaning.FetchOutcome) :
  Forall (fun x => x ∈ DataCleaning.actionIds) clicks ->
  DataCleaning.selectedActions s = DataCleaning.selectionAfter clicks ->
  CleaningStep.applyDisabled s = false ->
  DataCleaning.fetchFailed failure = true ->
  let ok := DataCleaning.FetchResponse true statusText (inr (Api.DataObject r)) in
  let request :=
    DataCleaning.cleanRequest p (DataCleaning.operationsOf (DataCleaning.selectedActions s)) in
  let afterSuccess := DataCleaning.state (CleaningStep.clickApply p s ok) in
  let afterFailure := DataCleaning.state (CleaningStep.clickApply p s failure) in
  DataCleaning.operationsOf (DataCleaning.selectedActions s) <> [] /\
  DataCleaning.requests (CleaningStep.clickApply p s next) = [request] /\
  CleaningStep.applyDisabled afterSuccess = true /\
  CleaningStep.clickApply p afterSuccess next
  = {| DataCleaning.state := afterSuccess;
       DataCleaning.requests := [];
       DataCleaning.onCompleteCalls := [] |} /\
  DataCleaning.cleanedData afterSuccess = default [] (DataCleaning.resultPreview r) /\
  (forall x : string, CleaningStep.applyDisabled (CleaningStep.tick afterSuccess x) = false) /\
  DataCleaning.selectedActions afterFailure = DataCleaning.selectedActions s /\
  CleaningStep.applyDisabled afterFailure = false /\
  DataCleaning.requests (CleaningStep.clickApply p afterFailure next) = [request].
Proof.
  intros Hclicks Hsel Henabled Hfail. cbv zeta.
  apply applyDisabled_false in Henabled as Hs. destruct Hs as [Hidle Hsome].
  assert (Hactions : Forall (fun x => x ∈ DataCleaning.actionIds) (DataCleaning.selectedActions s)).
  { rewrite Hsel. apply selection_actions; [constructor | exact Hclicks]. }
  assert (Hops : DataCleaning.operationsOf (DataCleaning.selectedActions s) <> []).
  { intros Hnil. apply (f_equal (@length _)) in Hnil.
    rewrite (operationsOf_length _ Hactions) in Hnil.
    destruct (DataCleaning.selectedActions s); [congruence | discriminate Hnil]. }
  assert (Hclick : forall net, CleaningStep.clickApply p s net
                               = DataCleaning.handleApplySelected p s net).
  { intros net. unfold CleaningStep.clickApply. now rewrite Henabled. }
  rewrite !Hclick.
  destruct (handleApplySelected_failed p s failure Hops Hfail) as [msg Hfailed].
  rewrite Hfailed, (handleApplySelected_answered p s statusText r Hops).
  split; [exact Hops|].
  split; [apply handleApplySelected_requests; exact Hops|].
  split; [reflexivity|].
  split; [reflexivity|].
  split; [reflexivity|].
  split.
  { intros x. apply applyDisabled_false. split; [reflexivity|].
    cbn [CleaningStep.tick DataCleaning.selectedActions DataCleaning.applyResult].
    unfold DataCleaning.toggleAction. cbn. discriminate. }
  split; [reflexivity|].
  assert (Hstill : CleaningStep.applyDisabled
                     (DataCleaning.stopWith (DataCleaning.started p s) (DataCleaning.Plain msg))
                   = false).
  { apply applyDisabled_false. split; [reflexivity | exact Hsome]. }
  split; [exact Hstill|].
  unfold CleaningStep.clickApply. rewrite Hstill.
  rewrite handleApplySelected_requests; [reflexivity | exact Hops].
Qed.

(** Witness: the sample selection, "Remove Nulls" then "Drop Duplicates":
    after an answered call the button is disabled. *)
Lemma apply_again_after_success_and_failure_witness :
  CleaningStep.applyDisabled
    (DataCleaning.state
       (CleaningStep.clickApply Samples.demoCleaningProps Samples.demoCleaning
          (DataCleaning.FetchResponse true "OK" (inr (Api.DataObject Samples.threeRowsLeft)))))
  = true.
Proof.
  assert (Hclicks : Forall (fun x => x ∈ DataCleaning.actionIds) Samples.demoClicks)
    by (apply (bool_decide_unpack _); vm_compute; exact I).
  pose proof (apply_again_after_success_and_failure Samples.demoCleaningProps
                Samples.demoCleaning Samples.demoClicks "OK" Samples.threeRowsLeft
                (DataCleaning.FetchRejected JS.NotAnError)
                (DataCleaning.FetchRejected JS.NotAnError)
                Hclicks eq_refl eq_refl eq_refl) as H.
  cbv zeta in H. exact (proj1 (proj2 (proj2 H))).
Defined.

(** X27: a clean call that is answered with a status that is not ok keeps
    the cleaned data, the selection, the validation results and the
    recommendations of the component and shows "Cleaning failed: " followed
    by the status text, a message that is never empty; the body of such a
    response is not read. *)
Theorem failed_status_keeps_the_cleaning_state (p : DataCleaning.Props)
    (s : DataCleaning.State) (statusText : string)
    (body body' : JS.Thrown + Api.Data DataCleaning.CleanResult) :
  DataCleaning.operationsOf (DataCleaning.selectedActions s) <> [] ->
  let out := DataCleaning.handleApplySelected p s
               (DataCleaning.FetchResponse false statusText body) in
  out = DataCleaning.handleApplySelected p s
          (DataCleaning.FetchResponse false statusText body') /\
  DataCleaning.requests out
  = [DataCleaning.cleanRequest p (DataCleaning.operationsOf (DataCleaning.selectedActions s))] /\
  DataCleaning.error (DataCleaning.state out)
  = Some (DataCleaning.Plain ("Cleaning failed: " ++ statusText)%string) /\
  JS.truthy ("Cleaning failed: " ++ statusText)%string = true /\
  DataCleaning.cleanedData (DataCleaning.state out) = DataCleaning.cleanedData s /\
  DataCleaning.selectedActions (DataCleaning.state out) = DataCleaning.selectedActions s /\
  DataCleaning.validationResults (DataCleaning.state out) = DataCleaning.validationResults s /\
  DataCleaning.aiRecommendations (DataCleaning.state out) = DataCleaning.aiRecommendations s /\
  DataCleaning.isProcessing (DataCleaning.state out) = false /\
  DataCleaning.onCompleteCalls out = [].
Proof.
  intros Hops. cbv zeta. unfold DataCleaning.handleApplySelected.
  destruct (DataCleaning.operationsOf (DataCleaning.selectedActions s)) as [|op more];
    [congruence|].
  repeat split.
Qed.

(** Witness: the sample selection answered with status 500. *)
Lemma failed_status_keeps_the_cleaning_state_witness :
  DataCleaning.error
    (DataCleaning.state
       (DataCleaning.handleApplySelected Samples.demoCleaningProps Samples.demoCleaning
          (DataCleaning.FetchResponse false "Internal Server Error"
             (inr (Api.DataObject Samples.errorBody)))))
  = Some (DataCleaning.Plain "Cleaning failed: Internal Server Error").
Proof.
  assert (Hops : DataCleaning.operationsOf (DataCleaning.selectedActions Samples.demoCleaning) <> [])
    by (vm_compute; discriminate).
  exact (proj1 (proj2 (proj2
    (failed_status_keeps_the_cleaning_state Samples.demoCleaningProps Samples.demoCleaning
       "Internal Server Error" (inr (Api.DataObject Samples.errorBody)) (inl JS.NotAnError)
       Hops)))).
Defined.

(** X18: the "View Full Dataset" button of the cleaning step does not look
    at the status of the response: any response whose body can be read is
    treated alike.  Every run ends in one of two ways: the modal is opened
    without an alert, or exactly one alert is raised and the view stays as
    it was; unlike the full preview of the upload step it never falls back
    to the preview.  Its request names the role as given, not the backend
    role, and carries the session id in the query string. *)
Theorem full_dataset_view_ignores_status (p : DataCleaning.Props) (s : FullDataset.State)
    (ok ok' : bool) (statusText statusText' : string)
    (json : JS.Thrown + Api.Data FullDataset.FullReply) (net : FullDataset.Fetched) :
  let out := FullDataset.viewFullDataset p s net in
  FullDataset.viewFullDataset p s (FullDataset.Response ok statusText json)
  = FullDataset.viewFullDataset p s (FullDataset.Response ok' statusText' json) /\
  ((FullDataset.alerts out = [] /\
    FullDataset.showFullPreview (FullDataset.state out) = true) \/
   (length (FullDataset.alerts out) = 1%nat /\ FullDataset.state out = s)) /\
  FullDataset.requests out
  = [ {| Api.method := "GET";
         Api.url := ("http://localhost:5000/full-preview/" ++ DataCleaning.role p
                     ++ "?session_id=" ++ DataCleaning.sessionId p)%string;
         Api.authorization := None;
         Api.body := JS.JNull |} ].
Proof.
  cbv zeta. split; [destruct json as [err|[| |r]]; reflexivity|].
  split.
  - destruct net as [err|b t [err|[| |r]]]; cbn [FullDataset.viewFullDataset];
      try (right; split; reflexivity); try (left; split; reflexivity).
    destruct (JS.truthyOpt (FullDataset.replyError r));
      [right; split; reflexivity | left; split; reflexivity].
  - destruct net as [err|b t [err|[| |r]]]; cbn [FullDataset.viewFullDataset];
      try reflexivity.
    destruct (JS.truthyOpt (FullDataset.replyError r)); reflexivity.
Qed.

(** ** The data-quality panel *)

(** X19: an assessment is replaced only by a reply that reports success;
    after any other outcome of the call (a rejected request, a reply
    without success, an unreadable reply) the error is set and the
    assessment shown before stays.  A rejected request shows the server's
    detail or "Failed to assess data quality.". *)
Theorem assessment_changes_only_on_success (p : DataQuality.Props) (s : DataQuality.State)
    (net : Api.Settled (Api.Data DataQuality.AssessReply)) (sid : string)
    (detail : option string) (msg : string) :
  DataQuality.sessionId p = Some sid ->
  JS.truthy sid = true ->
  let out := DataQuality.handleAssessment p s net in
  let succeeded :=
    match DataQuality.assessDataQuality net with
    | Api.DataObject r => DataQuality.success r
    | _ => false
    end in
  (DataQuality.error (DataQuality.state out) = None <-> succeeded = true) /\
  (if succeeded
   then length (DataQuality.completed out)
        = (if DataQuality.hasOnAssessmentComplete p then 1%nat else 0%nat)
   else DataQuality.assessment (DataQuality.state out) = DataQuality.assessment s /\
        DataQuality.completed out = []) /\
  DataQuality.isLoading (DataQuality.state out) = false /\
  length (DataQuality.requests out) = 1%nat /\
  DataQuality.error
    (DataQuality.state (DataQuality.handleAssessment p s (Api.Rejected detail msg)))
  = Some (JS.orElse detail "Failed to assess data quality.").
Proof.
  intros Hsid Htruthy. cbv zeta. unfold DataQuality.handleAssessment.
  rewrite Hsid, Htruthy. split; [|split; [|split; [|split]]].
  - destruct (DataQuality.assessDataQuality net) as [| |r]; cbn;
      [split; discriminate | split; discriminate|].
    destruct (DataQuality.success r); cbn; split; try discriminate; reflexivity.
  - destruct (DataQuality.assessDataQuality net) as [| |r]; cbn; try (split; reflexivity).
    destruct (DataQuality.success r); cbn; [|split; reflexivity].
    destruct (DataQuality.hasOnAssessmentComplete p); reflexivity.
  - destruct (DataQuality.assessDataQuality net) as [| |r]; cbn; try reflexivity.
    destruct (DataQuality.success r); reflexivity.
  - destruct (DataQuality.assessDataQuality net) as [| |r]; cbn; try reflexivity.
    destruct (DataQuality.success r); reflexivity.
  - cbn [DataQuality.assessDataQuality DataQuality.success DataQuality.replyError
         DataQuality.state DataQuality.failed DataQuality.error].
    rewrite orElse_truthy by (apply truthy_orElse; reflexivity). reflexivity.
Qed.

(** Witness: a rejected request leaves the earlier assessment on display. *)
Lemma assessment_changes_only_on_success_witness :
  DataQuality.assessment
    (DataQuality.state
       (DataQuality.handleAssessment Samples.qualityProps Samples.assessedBefore
          Samples.networkError))
  = DataQuality.assessment Samples.assessedBefore.
Proof.
  pose proof (assessment_changes_only_on_success Samples.qualityProps Samples.assessedBefore
                Samples.networkError "demo-session" None "Network Error" eq_refl eq_refl) as H.
  cbv zeta in H. exact (proj1 (proj1 (proj2 H))).
Defined.

(** X20: for every score, the colour of the number of a metric and the
    colour of its bar belong to the same band: green from 80, yellow from 60
    and red below. *)
Theorem score_and_bar_colours_agree (score : Q) :
  (DataQuality.getScoreColor score = "text-green-600"
   <-> DataQuality.barColor score = "bg-green-500") /\
  (DataQuality.getScoreColor score = "text-yellow-600"
   <-> DataQuality.barColor score = "bg-yellow-500") /\
  (DataQuality.getScoreColor score = "text-red-600"
   <-> DataQuality.barColor score = "bg-red-500") /\
  (DataQuality.barColor score = "bg-green-500" <-> (80 <= score)%Q) /\
  (DataQuality.barColor score = "bg-red-500" <-> (score < 60)%Q).
Proof.
  assert (H86 : (60 <= 80)%Q) by discriminate.
  unfold DataQuality.getScoreColor, DataQuality.barColor.
  destruct (Qle_bool 80 score) eqn:H80;
    [apply Qle_bool_iff in H80 | apply Qle_bool_false in H80].
  { assert (H60 : (60 <= score)%Q) by (eapply Qle_trans; eassumption). settle_grade. }
  destruct (Qle_bool 60 score) eqn:H60;
    [apply Qle_bool_iff in H60 | apply Qle_bool_false in H60]; settle_grade.
Qed.

Lemma includes_cons_false (sub : string) (c : ascii) (s : string) :
  String.prefix sub (String c s) = false -> JS.includes sub s = false ->
  JS.includes sub (String c s) = false.
Proof. intros Hp Hi. cbn [JS.includes]. now rewrite Hp, Hi. Qed.

(** X21: the label of a detail has the length of its key and contains no
    underscore; a key without underscore is its own label. *)
Theorem detail_label_has_no_underscore (key : string) :
  String.length (DataQuality.detailLabel key) = String.length key /\
  JS.includes "_" (DataQuality.detailLabel key) = false /\
  DataQuality.detailLabel (DataQuality.detailLabel key) = DataQuality.detailLabel key /\
  (JS.includes "_" key = false -> DataQuality.detailLabel key = key).
Proof.
  induction key as [|c key (Hlen & Hnone & Hidem & Hsame)].
  - repeat split.
  - cbn [DataQuality.detailLabel String.length]. split; [now rewrite Hlen|].
    destruct (Ascii.eqb_spec c "_"%char) as [->|Hc].
    + split; [apply includes_cons_false; [reflexivity | exact Hnone]|].
      split; [cbn [DataQuality.detailLabel Ascii.eqb Bool.eqb]; now rewrite Hidem|].
      intros H. cbn [JS.includes] in H.
      cbn [String.prefix] in H.
      destruct (ascii_dec "_"%char "_"%char); [|congruence].
      replace (String.prefix "" key) with true in H by (destruct key; reflexivity).
      discriminate H.
    + assert (Hprefix : forall t, String.prefix "_" (String c t) = false).
      { intros t. cbn [String.prefix]. destruct (ascii_dec "_"%char c); [congruence|reflexivity]. }
      split; [apply includes_cons_false; [apply Hprefix | exact Hnone]|].
      split.
      * cbn [DataQuality.detailLabel]. destruct (Ascii.eqb_spec c "_"%char); [contradiction|].
        now rewrite Hidem.
      * intros H. cbn [JS.includes] in H. rewrite Hprefix in H. cbn [orb] in H.
        now rewrite Hsame.
Qed.

(** ** Backend role names *)


(** ** The question form *)

(** X23: the question form drops a blank question before it reaches the
    page, so the insight log never gains a blank entry; any other question
    is logged exactly as typed, surrounding spaces included, and the input
    is cleared. *)
Theorem questions_are_logged_as_typed (s : RoleAnalysis.State) (q : string) (now : Z)
    (net : Api.Settled (Api.Data Api.InsightResult)) :
  RoleAnalysis.guard s <> None ->
  let out := AIInsights.ask s q now net in
  let blank := negb (JS.truthy (JS.trim q)) in
  map RoleAnalysis.question (RoleAnalysis.insights (RoleAnalysis.state out))
  = map RoleAnalysis.question (RoleAnalysis.insights s) ++ (if blank then [] else [q]) /\
  (if blank then out = {| RoleAnalysis.state := s; RoleAnalysis.requests := [] |}
   else fst (AIInsights.handleSubmit q) = "") /\
  fst (AIInsights.handleSubmit q) = (if blank then q else "").
Proof.
  intros Hguard. cbv zeta. unfold AIInsights.ask, AIInsights.handleSubmit.
  destruct (JS.truthy (JS.trim q)); cbn [negb fst snd].
  - destruct (handleAIInsight_appends s q now net Hguard) as [[text Hlog] _].
    rewrite Hlog, map_app. repeat split.
  - rewrite app_nil_r. repeat split.
Qed.

(** Witness: a question typed with surrounding spaces on the sample page. *)
Lemma questions_are_logged_as_typed_witness :
  map RoleAnalysis.question
    (RoleAnalysis.insights
       (RoleAnalysis.state (AIInsights.ask Samples.demoPage "  any trends?  " 1000
                              Samples.networkError)))
  = map RoleAnalysis.question (RoleAnalysis.insights Samples.demoPage) ++ ["  any trends?  "].
Proof.
  assert (Hguard : RoleAnalysis.guard Samples.demoPage <> None) by (vm_compute; discriminate).
  exact (proj1 (questions_are_logged_as_typed Samples.demoPage "  any trends?  " 1000
                  Samples.networkError Hguard)).
Defined.

(** ** Leaving the cleaning step *)

(** X24: after a clean call that returned a result, "Continue" takes the
    page to the analysis step exactly when the reply carried preview rows,
    and then these rows become the preview of the page, so the tasks have
    data; a reply without preview rows empties the cleaned data and leaves
    no way to continue.  After a failed call the button is offered as
    before. *)
Theorem continue_needs_preview_rows (page : Page.State) (p : DataCleaning.Props)
    (c : DataCleaning.State) (statusText : string) (r : DataCleaning.CleanResult)
    (failure : DataCleaning.FetchOutcome) :
  Page.rendered page 2 = true ->
  DataCleaning.operationsOf (DataCleaning.selectedActions c) <> [] ->
  DataCleaning.fetchFailed failure = true ->
  let cleaned :=
    DataCleaning.state
      (DataCleaning.handleApplySelected p c
         (DataCleaning.FetchResponse true statusText (inr (Api.DataObject r)))) in
  let failed := DataCleaning.state (DataCleaning.handleApplySelected p c failure) in
  let page' := CleaningStep.continue page cleaned in
  match DataCleaning.resultPreview r with
  | Some (row :: more) =>
      CleaningStep.continueOffered cleaned = true /\
      Page.currentStep page' = 3%Z /\
      Page.preview page' = Some (row :: more) /\
      Page.hasData page' = Some true
  | _ =>
      CleaningStep.continueOffered cleaned = false /\ page' = page
  end /\
  CleaningStep.continueOffered failed = CleaningStep.continueOffered c /\
  CleaningStep.continue page failed = CleaningStep.continue page c.
Proof.
  intros Hrendered Hops Hfail. cbv zeta.
  rewrite (handleApplySelected_answered p c statusText r Hops).
  destruct (handleApplySelected_failed p c failure Hops Hfail) as [msg ->].
  pose proof (rendered_spec page 2 Hrendered) as [Hstep Hsid].
  unfold CleaningStep.continue, CleaningStep.continueOffered.
  cbn [Page.fire DataCleaning.applyResult DataCleaning.cleanedData DataCleaning.stopWith
       DataCleaning.started].
  rewrite Hrendered. split; [|split; reflexivity].
  destruct (DataCleaning.resultPreview r) as [[|row more]|]; cbn; try (split; reflexivity).
  unfold Page.hasData. cbn.
  destruct (Page.sessionId page); [repeat split | discriminate Hsid].
Qed.

(** Witness: the sample clean on the finance page, then "Continue". *)
Lemma continue_needs_preview_rows_witness :
  Page.currentStep
    (CleaningStep.continue Samples.cleaningPage
       (DataCleaning.state
          (DataCleaning.handleApplySelected Samples.demoCleaningProps Samples.demoCleaning
             (DataCleaning.FetchResponse true "OK"
                (inr (Api.DataObject Samples.threeRowsLeft)))))) = 3%Z.
Proof.
  assert (Hops : DataCleaning.operationsOf (DataCleaning.selectedActions Samples.demoCleaning) <> [])
    by (vm_compute; discriminate).
  pose proof (continue_needs_preview_rows Samples.cleaningPage Samples.demoCleaningProps
                Samples.demoCleaning "OK" Samples.threeRowsLeft
                (DataCleaning.FetchRejected JS.NotAnError) eq_refl Hops eq_refl) as H.
  cbv zeta in H. exact (proj1 (proj2 (proj1 H))).
Defined.

(** ** The session of the page *)

Lemma fire_keeps_session (s : Page.State) (e : Page.Event) :
  JS.truthyOpt (Page.sessionId s) = true ->
  JS.truthyOpt (Page.sessionId (Page.fire s e)) = true.
Proof.
  intros Hs.
  destruct e as [file net|net|net|step| | |cleanedData| | |]; cbn [Page.fire];
    repeat match goal with
           | |- context [if ?b then _ else _] => destruct b
           | |- context [match Page.uploadedFile s with _ => _ end] =>
               destruct (Page.uploadedFile s)
           end;
    try exact Hs;
    try (rewrite (proj2 (handlePreview_step s net)); exact Hs).
  - unfold Page.handleFileUpload.
    destruct (Roles.findRole (Page.roleId s)) as [role|]; [|exact Hs].
    assert (Hstored : forall sid err,
              JS.truthy sid = true ->
              JS.truthyOpt (Page.sessionId (Page.uploadStored s file sid err)) = true).
    { intros sid err Hsid. unfold Page.uploadStored. destruct (JS.truthyOpt err); exact Hsid. }
    destruct (String.eqb (Roles.id role) "business_analyst"); [|apply Hstored; reflexivity].
    destruct (Page.businessAnalysisUpload net) as [err|[| |r]]; cbn [Page.state];
      try exact Hs.
    + apply Hstored. reflexivity.
    + apply Hstored. apply truthy_orElse. reflexivity.
  - unfold Page.handleStepNavigation. destruct (step <=? Page.currentStep s)%Z; exact Hs.
Qed.

(** X25: a session id, once the page holds one, is never lost: no upload,
    preview, step button or "Start Over" clears it, however the calls
    settle; "Start Over" in particular only returns to step 1. *)
Theorem session_is_never_cleared (s : Page.State) (events : list Page.Event) :
  JS.truthyOpt (Page.sessionId s) = true ->
  JS.truthyOpt (Page.sessionId (Page.run s events)) = true /\
  Page.sessionId (Page.fire s Page.StartOver) = Page.sessionId s /\
  Page.preview (Page.fire s Page.StartOver) = Page.preview s /\
  Page.uploadedFile (Page.fire s Page.StartOver) = Page.uploadedFile s.
Proof.
  intros Hs. split.
  - unfold Page.run. revert s Hs.
    induction events as [|e rest IH]; intros s Hs; cbn [fold_left]; [exact Hs|].
    apply IH. apply fire_keeps_session. exact Hs.
  - cbn [Page.fire].
    destruct (Page.rendered s 2 || Page.rendered s 3 || Page.rendered s 4); repeat split.
Qed.

(** Witness: the sample visit, resumed on the cleaning step and started
    over. *)
Lemma session_is_never_cleared_witness :
  JS.truthyOpt
    (Page.sessionId (Page.run Samples.cleaningPage (Samples.demoVisit ++ [Page.StartOver])))
  = true.
Proof.
  exact (proj1 (session_is_never_cleared Samples.cleaningPage
                  (Samples.demoVisit ++ [Page.StartOver]) eq_refl)).
Defined.
